(** * OracleX paper-trading core: order-book analytics, scanner retrieval,
      demo ledger and coordinator sizing, embedded from the Python sources
      under [rai_algo/polymarket].

    Conventions of the embedding

    - [decimal.Decimal] values are rationals ([Q]); the arithmetic is the
      exact one (the 28-digit context precision is not modelled).  Python
      floats that only carry configuration fractions and scores
      ([position_size_pct], [score], [max_position_size]) are rationals too.
    - Truthiness of a [Decimal] is "different from zero"; truthiness of an
      [Optional[Decimal]] is "not None and different from zero".
    - A [Decimal] division by zero raises; it is a value of [signal + Q].
    - [datetime.utcnow()] and [client.get_orderbook] are the two external
      calls of the ledger; they are answered by an environment indexed by
      the number of external calls made so far.
    - A ledger call runs to its end before the next one starts: the
      interleaving of the coordinator's loops at [await] points is not
      modelled. *)

From Stdlib Require Import List String Ascii Bool Arith ZArith QArith Lia Lqa.
From Stdlib Require Import Qminmax Qabs Sorted Permutation.
Import ListNotations.

Open Scope Q_scope.

(** ** Decimal helpers *)

Module Decimal.

Inductive signal : Type :=
| DivisionByZero      (* x / 0 with x <> 0 *)
| InvalidOperation.   (* 0 / 0 *)

Definition ltb (x y : Q) : bool := negb (Qle_bool y x).
Definition leb (x y : Q) : bool := Qle_bool x y.
Definition gtb (x y : Q) : bool := ltb y x.
Definition geb (x y : Q) : bool := leb y x.

(** [bool(d)] for a Decimal. *)
Definition truthy (d : Q) : bool := negb (Qeq_bool d 0).

(** [bool(o)] for an Optional[Decimal]. *)
Definition opt_truthy (o : option Q) : bool :=
  match o with
  | Some d => truthy d
  | None => false
  end.

(** [x / y] on Decimals, with the two signals the default context traps. *)
Definition div (x y : Q) : signal + Q :=
  if Qeq_bool y 0
  then (if Qeq_bool x 0 then inl InvalidOperation else inl DivisionByZero)
  else inr (x / y).

(** [min(a, b)]: Python returns the first argument unless the second is
    strictly smaller. *)
Definition min2 (a b : Q) : Q := if ltb b a then b else a.

(** [max] over a non-empty iterable given as head and tail: the first
    maximal element wins. *)
Fixpoint max_from (m : Q) (l : list Q) : Q :=
  match l with
  | [] => m
  | x :: r => max_from (if ltb m x then x else m) r
  end.

Fixpoint min_from (m : Q) (l : list Q) : Q :=
  match l with
  | [] => m
  | x :: r => min_from (if ltb x m then x else m) r
  end.

(** [max(it, default=None)] and [min(it, default=None)]. *)
Definition max_default (l : list Q) : option Q :=
  match l with
  | [] => None
  | x :: r => Some (max_from x r)
  end.

Definition min_default (l : list Q) : option Q :=
  match l with
  | [] => None
  | x :: r => Some (min_from x r)
  end.

(** [sum(it)] of Decimals (the integer start value 0 is absorbed). *)
Definition sum (l : list Q) : Q := fold_left Qplus l 0.

End Decimal.

(** ** models.py *)

Inductive OrderSide : Type := YES | NO.

Definition OrderSide_value (s : OrderSide) : string :=
  match s with
  | YES => "YES"
  | NO => "NO"
  end.

Inductive OrderType : Type := LIMIT | MARKET.

Inductive PositionSide : Type := LONG | SHORT.

Module OpportunityType.
Inductive t : Type :=
| ARBITRAGE | NEWS_GAP | PROBABILITY_EDGE | TIME_DECAY
| LIQUIDITY | TRADER_SIGNAL | SOCIAL_SENTIMENT | BREAKING_NEWS.

Definition eqb (a b : t) : bool :=
  match a, b with
  | ARBITRAGE, ARBITRAGE | NEWS_GAP, NEWS_GAP
  | PROBABILITY_EDGE, PROBABILITY_EDGE | TIME_DECAY, TIME_DECAY
  | LIQUIDITY, LIQUIDITY | TRADER_SIGNAL, TRADER_SIGNAL
  | SOCIAL_SENTIMENT, SOCIAL_SENTIMENT | BREAKING_NEWS, BREAKING_NEWS => true
  | _, _ => false
  end.
End OpportunityType.

Module OrderBookEntry.
Record t : Type := mk { price : Q; size : Q }.
End OrderBookEntry.

Module OrderBook.
Record t : Type := mk {
  market_id : string;
  yes_bids : list OrderBookEntry.t;
  yes_asks : list OrderBookEntry.t;
  no_bids : list OrderBookEntry.t;
  no_asks : list OrderBookEntry.t;
  timestamp : Z
}.

(** Best YES price: the highest YES bid, [None] on an empty bid list. *)
Definition get_best_yes_price (self : t) : option Q :=
  match yes_bids self with
  | [] => None
  | _ :: _ => Decimal.max_default (map OrderBookEntry.price (yes_bids self))
  end.

Definition get_best_no_price (self : t) : option Q :=
  match no_bids self with
  | [] => None
  | _ :: _ => Decimal.max_default (map OrderBookEntry.price (no_bids self))
  end.

(** The one-sided detector of models.py: best bids, "buy" branch only. *)
Definition get_arbitrage_opportunity (self : t) : option Q :=
  let yes_price := get_best_yes_price self in
  let no_price := get_best_no_price self in
  match yes_price, no_price with
  | Some y, Some n =>
      if Decimal.truthy y && Decimal.truthy n
      then (let total := y + n in
            if Decimal.ltb total (98 # 100) then Some (1 - total) else None)
      else None
  | _, _ => None
  end.
End OrderBook.

(** [Opportunity]: the [market] snapshot and the free-form [metadata] dict
    are not read by any operation embedded here and are left out. *)
Module Opportunity.
Record t : Type := mk {
  id : string;
  market_id : string;
  opportunity_type : OpportunityType.t;
  side : OrderSide;
  score : Q;                    (* float, validated 0 <= score <= 1 *)
  expected_return : Q;
  risk_level : string;
  entry_price : Q;
  target_price : option Q;
  stop_loss : option Q;
  reasoning : string;
  detected_at : Z;
  expires_at : option Z
}.
End Opportunity.

Module StrategyBlueprint.
Record t : Type := mk {
  name : string;
  description : string;
  risk_management : list (string * Q);     (* Dict[str, float] *)
  test_results : option (list (string * Q))
}.
End StrategyBlueprint.

Module Order.
Record t : Type := mk {
  id : option Z;          (* "order_<timestamp>": the timestamp *)
  market_id : string;
  side : OrderSide;
  order_type : OrderType;
  price : Q;
  size : Q;
  filled_size : Q;
  status : string;
  created_at : Z;
  filled_at : option Z
}.

(** The three assignments that open [_execute_order]. *)
Definition fill (o : t) (now : Z) : t :=
  mk (id o) (market_id o) (side o) (order_type o) (price o) (size o)
     (size o) "filled" (created_at o) (Some now).
End Order.

Module Position.
Record t : Type := mk {
  id : string;
  market_id : string;
  side : PositionSide;
  size : Q;
  entry_price : Q;
  current_price : Q;
  strategy_id : option string;
  strategy_name : option string;
  unrealized_pnl : Q;
  realized_pnl : Q;
  stop_loss : option Q;
  take_profit : option Q;
  opened_at : Z;
  closed_at : option Z
}.

(** [position.entry_price = e; position.size = s] of the merge branch. *)
Definition set_entry_and_size (p : t) (e s : Q) : t :=
  mk (id p) (market_id p) (side p) s e (current_price p)
     (strategy_id p) (strategy_name p) (unrealized_pnl p) (realized_pnl p)
     (stop_loss p) (take_profit p) (opened_at p) (closed_at p).

(** [Position.update_pnl]: mark to [current_price] and recompute the
    unrealized PnL with the directional formula. *)
Definition update_pnl (self : t) (current_price : Q) : t :=
  let pnl := match side self with
             | LONG => (current_price - entry_price self) * size self
             | SHORT => (entry_price self - current_price) * size self
             end in
  mk (id self) (market_id self) (side self) (size self) (entry_price self)
     current_price (strategy_id self) (strategy_name self) pnl
     (realized_pnl self) (stop_loss self) (take_profit self)
     (opened_at self) (closed_at self).

(** The three assignments of [close_position] on the position object. *)
Definition set_closed (p : t) (realized exit_price : Q) (now : Z) : t :=
  mk (id p) (market_id p) (side p) (size p) (entry_price p) exit_price
     (strategy_id p) (strategy_name p) (unrealized_pnl p) realized
     (stop_loss p) (take_profit p) (opened_at p) (Some now).
End Position.

Module Trade.
Record t : Type := mk {
  id : Z;                 (* "trade_<timestamp>": the timestamp *)
  market_id : string;
  side : OrderSide;
  price : Q;
  size : Q;
  strategy_id : option string;
  pnl : Q;
  executed_at : Z
}.
End Trade.

(** ** enhanced_orderbook.py *)

(** [str.upper] on ASCII letters, which is all that the comparison with
    the literal "YES" can observe on side names. *)
Definition upper_ascii (c : ascii) : ascii :=
  let n := nat_of_ascii c in
  if Nat.leb 97 n && Nat.leb n 122 then ascii_of_nat (n - 32) else c.

Fixpoint upper (s : string) : string :=
  match s with
  | EmptyString => EmptyString
  | String c r => String (upper_ascii c) (upper r)
  end.

Module EnhancedOrderBook.

Record BestBidAsk : Type := mkBest {
  best_bid : option Q;
  best_ask : option Q;
  spread : option Q;
  mid_price : option Q
}.

(** The bid and ask lists a side name selects: YES when the upper-cased
    name is "YES", NO for every other string. *)
Definition side_bids (ob : OrderBook.t) (side : string) : list OrderBookEntry.t :=
  if String.eqb (upper side) "YES" then OrderBook.yes_bids ob else OrderBook.no_bids ob.

Definition side_asks (ob : OrderBook.t) (side : string) : list OrderBookEntry.t :=
  if String.eqb (upper side) "YES" then OrderBook.yes_asks ob else OrderBook.no_asks ob.

Definition get_best_bid_ask (ob : OrderBook.t) (side : string) : BestBidAsk :=
  let best_bid := Decimal.max_default (map OrderBookEntry.price (side_bids ob side)) in
  let best_ask := Decimal.min_default (map OrderBookEntry.price (side_asks ob side)) in
  match best_bid, best_ask with
  | Some b, Some a =>
      if Decimal.truthy b && Decimal.truthy a
      then mkBest best_bid best_ask (Some (a - b)) (Some ((b + a) / 2))
      else mkBest best_bid best_ask None None
  | _, _ => mkBest best_bid best_ask None None
  end.

Record Arbitrage : Type := mkArb {
  type : string;
  opportunity_pct : Q;
  yes_price : Q;
  no_price : Q;
  total : Q;
  profit_potential : Q
}.

Definition get_arbitrage_opportunity (ob : OrderBook.t) : option Arbitrage :=
  let yes_mid := mid_price (get_best_bid_ask ob "YES") in
  let no_mid := mid_price (get_best_bid_ask ob "NO") in
  match yes_mid, no_mid with
  | Some y, Some n =>
      if Decimal.truthy y && Decimal.truthy n then
        let total := y + n in
        if Decimal.ltb total (98 # 100) then
          let opportunity := 1 - total in
          Some (mkArb "buy_arbitrage" (opportunity * 100) y n total opportunity)
        else if Decimal.gtb total (102 # 100) then
          let opportunity := total - 1 in
          Some (mkArb "sell_arbitrage" (opportunity * 100) y n total opportunity)
        else None
      else None
  | _, _ => None
  end.

End EnhancedOrderBook.

(** ** Python list helpers *)

(** [sorted(l, key=...)] and [l.sort(key=..., reverse=True)] are stable:
    elements with equal keys keep their relative order, also under
    [reverse=True].  [strictly_before y x] says that [y] must come before
    [x] whatever their original order. *)
Section StableSort.
Context {A : Type} (strictly_before : A -> A -> bool).

Fixpoint insert_stable (x : A) (l : list A) : list A :=
  match l with
  | [] => [x]
  | y :: r => if strictly_before y x then y :: insert_stable x r else x :: y :: r
  end.

Definition stable_sort (l : list A) : list A := fold_right insert_stable [] l.

(** [x] may stand directly before [y] in a sorted list. *)
Definition may_precede (x y : A) : Prop := strictly_before y x = false.
End StableSort.

(** [l[:n]] for an int [n]: a negative [n] counts from the end. *)
Definition slice_to {A : Type} (l : list A) (n : Z) : list A :=
  if (0 <=? n)%Z then firstn (Z.to_nat n) l
  else firstn (List.length l - Z.to_nat (- n)) l.

(** A Python dict with string keys, as its item list in insertion order
    (keys are unique: [dict_set] replaces in place or appends). *)
Section PyDict.
Context {V : Type}.

Fixpoint dict_lookup (d : list (string * V)) (k : string) : option V :=
  match d with
  | [] => None
  | (k', v) :: r => if String.eqb k' k then Some v else dict_lookup r k
  end.

(** [d[k] = v] *)
Fixpoint dict_set (d : list (string * V)) (k : string) (v : V) : list (string * V) :=
  match d with
  | [] => [(k, v)]
  | (k', v') :: r =>
      if String.eqb k' k then (k', v) :: r else (k', v') :: dict_set r k v
  end.

(** [del d[k]] *)
Fixpoint dict_del (d : list (string * V)) (k : string) : list (string * V) :=
  match d with
  | [] => []
  | (k', v') :: r => if String.eqb k' k then r else (k', v') :: dict_del r k
  end.

(** [d.get(k, default)] *)
Definition dict_get (d : list (string * V)) (k : string) (default : V) : V :=
  match dict_lookup d k with
  | Some v => v
  | None => default
  end.

(** [d.values()] *)
Definition dict_values (d : list (string * V)) : list V := map snd d.
End PyDict.

Module MarketImpact.

Import EnhancedOrderBook.

Record t : Type := mk {
  average_price : Q;
  price_impact_pct : Q;
  levels_consumed : nat;
  total_cost : Q
}.

Definition price_lt (y x : OrderBookEntry.t) : bool :=
  Decimal.ltb (OrderBookEntry.price y) (OrderBookEntry.price x).

(** The [for ask in asks] loop: state is (remaining_size, total_cost,
    levels_consumed); the loop breaks once nothing remains. *)
Fixpoint walk_asks (asks : list OrderBookEntry.t)
         (remaining_size total_cost : Q) (levels_consumed : nat) : Q * Q * nat :=
  match asks with
  | [] => (remaining_size, total_cost, levels_consumed)
  | ask :: rest =>
      if Decimal.leb remaining_size 0
      then (remaining_size, total_cost, levels_consumed)
      else
        let size_to_take := Decimal.min2 remaining_size (OrderBookEntry.size ask) in
        walk_asks rest
                  (remaining_size - size_to_take)
                  (total_cost + size_to_take * OrderBookEntry.price ask)
                  (S levels_consumed)
  end.

(** The ladder after [sorted(..., key=price)] and the loop state at exit. *)
Definition ladder (ob : OrderBook.t) (side : string) : list OrderBookEntry.t :=
  stable_sort price_lt (side_asks ob side).

Definition walk (ob : OrderBook.t) (side : string) (size : Q) : Q * Q * nat :=
  walk_asks (ladder ob side) size 0 0%nat.

Definition get_market_impact (ob : OrderBook.t) (side : string) (size : Q) : t :=
  let '(remaining_size, total_cost, levels_consumed) := walk ob side size in
  let avg_price := if Decimal.gtb size 0 then total_cost / size else 0 in
  let best_ask := best_ask (get_best_bid_ask ob side) in
  let price_impact :=
    match best_ask with
    | Some a => if Decimal.truthy a then (avg_price - a) / a * 100 else 0
    | None => 0
    end in
  mk avg_price price_impact levels_consumed total_cost.

(** What the walk actually filled. *)
Definition filled_size (ob : OrderBook.t) (side : string) (size : Q) : Q :=
  let '(remaining_size, _, _) := walk ob side size in size - remaining_size.

End MarketImpact.

(** ** scanner.py *)

Module MarketScannerAgent.

Record t : Type := mk {
  running : bool;
  scan_interval : Z;
  opportunities : list Opportunity.t;
  scanned_markets : list string;
  last_scan : option Z
}.

Definition set_opportunities (self : t) (l : list Opportunity.t) : t :=
  mk (running self) (scan_interval self) l (scanned_markets self) (last_scan self).

(** The local name [opportunities] of [get_opportunities] is bound either
    to the scanner's own buffer object or to a list a comprehension has
    freshly built. *)
Inductive listref : Type :=
| Buffer
| Fresh (l : list Opportunity.t).

Definition deref (self : t) (r : listref) : list Opportunity.t :=
  match r with
  | Buffer => opportunities self
  | Fresh l => l
  end.

Definition score_gt (y x : Opportunity.t) : bool :=
  Decimal.gtb (Opportunity.score y) (Opportunity.score x).

(** [if min_score:] on an Optional[float]. *)
Definition float_truthy (o : option Q) : option Q :=
  match o with
  | Some m => if Qeq_bool m 0 then None else Some m
  | None => None
  end.

Definition get_opportunities (self : t) (min_score : option Q)
           (opportunity_type : option OpportunityType.t) (limit : Z)
  : list Opportunity.t * t :=
  let r0 := Buffer in
  let r1 := match float_truthy min_score with
            | Some m => Fresh (filter (fun o => Decimal.geb (Opportunity.score o) m)
                                      (deref self r0))
            | None => r0
            end in
  let r2 := match opportunity_type with
            | Some ty => Fresh (filter (fun o => OpportunityType.eqb
                                                   (Opportunity.opportunity_type o) ty)
                                       (deref self r1))
            | None => r1
            end in
  (* opportunities.sort(key=score, reverse=True): in place, on the object
     the local name is bound to *)
  let sorted := stable_sort score_gt (deref self r2) in
  let self' := match r2 with
               | Buffer => set_opportunities self sorted
               | Fresh _ => self
               end in
  (slice_to sorted limit, self').

End MarketScannerAgent.

(** ** orchestrator.py *)

Module AgentOrchestrator.

(** [settings_max] is [settings.max_position_size]. *)
Definition _calculate_position_size (settings_max : Q)
           (opportunity : Opportunity.t) (strategy : StrategyBlueprint.t) : Q :=
  let max_size := dict_get (StrategyBlueprint.risk_management strategy)
                           "max_position_size" settings_max in
  let adjusted_size := max_size * Opportunity.score opportunity in
  Decimal.min2 adjusted_size max_size.

End AgentOrchestrator.

(** ** demo_trader.py *)

Module DemoTrader.

Record t : Type := mk {
  capital : Q;
  initial_capital : Q;
  positions : list (string * Position.t);     (* Dict[str, Position] *)
  orders : list (string * Order.t);           (* Dict[str, Order] *)
  trade_history : list Trade.t;
  closed_positions : list Position.t
}.

Definition set_capital (self : t) (c : Q) : t :=
  mk c (initial_capital self) (positions self) (orders self)
     (trade_history self) (closed_positions self).

Definition set_positions (self : t) (ps : list (string * Position.t)) : t :=
  mk (capital self) (initial_capital self) ps (orders self)
     (trade_history self) (closed_positions self).

Definition append_trade (self : t) (tr : Trade.t) : t :=
  mk (capital self) (initial_capital self) (positions self) (orders self)
     (trade_history self ++ [tr]) (closed_positions self).

Definition append_closed (self : t) (p : Position.t) : t :=
  mk (capital self) (initial_capital self) (positions self) (orders self)
     (trade_history self) (closed_positions self ++ [p]).

(** *** Aggregate queries: pure functions of the ledger *)

Definition get_balance (self : t) : Q := capital self.

Definition get_unrealized_pnl (self : t) : Q :=
  Decimal.sum (map Position.unrealized_pnl (dict_values (positions self))).

Definition get_equity (self : t) : Q :=
  let unrealized_pnl :=
    Decimal.sum (map Position.unrealized_pnl (dict_values (positions self))) in
  capital self + unrealized_pnl.

Definition get_realized_pnl (self : t) : Q :=
  Decimal.sum (map Trade.pnl (trade_history self)).

Definition get_total_pnl (self : t) : Q :=
  get_realized_pnl self + get_unrealized_pnl self.

Definition get_roi (self : t) : Q :=
  if Qeq_bool (initial_capital self) 0 then 0
  else (get_equity self - initial_capital self) / initial_capital self * 100.

Record Statistics : Type := mkStats {
  stat_capital : Q;
  stat_equity : Q;
  stat_initial_capital : Q;
  stat_total_pnl : Q;
  stat_realized_pnl : Q;
  stat_unrealized_pnl : Q;
  stat_roi : Q;
  stat_total_trades : nat;
  stat_win_rate : Q;
  stat_avg_win : Q;
  stat_avg_loss : Q;
  stat_open_positions : nat;
  stat_closed_positions : nat
}.

Definition of_len (n : nat) : Q := inject_Z (Z.of_nat n).

Definition get_statistics (self : t) : Statistics :=
  let total_trades := List.length (trade_history self) in
  let winning_trades := filter (fun tr => Decimal.gtb (Trade.pnl tr) 0) (trade_history self) in
  let losing_trades := filter (fun tr => Decimal.ltb (Trade.pnl tr) 0) (trade_history self) in
  let win_rate :=
    if Nat.ltb 0 total_trades
    then of_len (List.length winning_trades) / of_len total_trades else 0 in
  let avg_win :=
    match winning_trades with
    | [] => 0
    | _ :: _ => Decimal.sum (map Trade.pnl winning_trades) / of_len (List.length winning_trades)
    end in
  let avg_loss :=
    match losing_trades with
    | [] => 0
    | _ :: _ => Decimal.sum (map Trade.pnl losing_trades) / of_len (List.length losing_trades)
    end in
  mkStats (capital self) (get_equity self) (initial_capital self)
          (get_total_pnl self) (get_realized_pnl self) (get_unrealized_pnl self)
          (get_roi self) total_trades win_rate avg_win avg_loss
          (List.length (positions self)) (List.length (closed_positions self)).

(** *** The ledger's effects

    A call runs against a [World]: the ledger object, the number of
    external calls (clock readings and order-book fetches) made so far,
    and a journal.  The journal is ghost state: the source keeps no such
    list; an entry is written exactly where the source assigns to
    [self.capital], so that the fills behind every capital movement can
    be named in statements. *)

Inductive Fill : Type :=
| Opened (o : Order.t)        (* the order filled by [_execute_order] *)
| Closed (p : Position.t).    (* the position closed by [close_position] *)

Record World : Type := mkWorld {
  trader : t;
  calls : nat;
  journal : list Fill
}.

Definition M (A : Type) : Type := World -> (Decimal.signal + A) * World.

Definition ret {A : Type} (a : A) : M A := fun w => (inr a, w).

Definition bind {A B : Type} (m : M A) (k : A -> M B) : M B :=
  fun w =>
    match m w with
    | (inl e, w') => (inl e, w')
    | (inr a, w') => k a w'
    end.

Notation "x <- m ;; k" := (bind m (fun x => k))
  (at level 61, m at next level, right associativity).
Notation "m ;;; k" := (bind m (fun _ => k))
  (at level 61, right associativity).

(** An arithmetic result, raising its signal. *)
Definition lift {A : Type} (r : Decimal.signal + A) : M A := fun w => (r, w).

(** [try: m  except Exception: log] *)
Definition try_except (m : M unit) : M unit :=
  fun w =>
    match m w with
    | (inl _, w') => (inr tt, w')
    | (inr u, w') => (inr u, w')
    end.

Definition get_self : M t := fun w => (inr (trader w), w).

Definition modify_self (f : t -> t) : M unit :=
  fun w => (inr tt, mkWorld (f (trader w)) (calls w) (journal w)).

Definition record_fill (f : Fill) : M unit :=
  fun w => (inr tt, mkWorld (trader w) (calls w) (journal w ++ [f])).

Fixpoint for_each {A : Type} (l : list A) (body : A -> M unit) : M unit :=
  match l with
  | [] => ret tt
  | x :: r => body x ;;; for_each r body
  end.

(** Mutation of a Position object that the dict holds under [key]. *)
Definition store_position (key : string) (p : Position.t) : M unit :=
  modify_self (fun self =>
    match dict_lookup (positions self) key with
    | Some _ => set_positions self (dict_set (positions self) key p)
    | None => self
    end).

(** [_check_exit_conditions] up to its final call: (should_close, reason). *)
Definition exit_decision (position : Position.t) (current_price : Q) : bool * string :=
  let '(should_close, reason) :=
    match Position.stop_loss position with
    | Some sl =>
        if Decimal.truthy sl then
          match Position.side position with
          | LONG => if Decimal.leb current_price sl then (true, "stop_loss"%string) else (false, EmptyString)
          | SHORT => if Decimal.geb current_price sl then (true, "stop_loss"%string) else (false, EmptyString)
          end
        else (false, EmptyString)
    | None => (false, EmptyString)
    end in
  match Position.take_profit position with
  | Some tp =>
      if Decimal.truthy tp then
        match Position.side position with
        | LONG => if Decimal.geb current_price tp then (true, "take_profit"%string)
                  else (should_close, reason)
        | SHORT => if Decimal.leb current_price tp then (true, "take_profit"%string)
                   else (should_close, reason)
        end
      else (should_close, reason)
  | None => (should_close, reason)
  end.

Definition position_key (market_id : string) (side : OrderSide) : string :=
  (market_id ++ "_" ++ OrderSide_value side)%string.

Definition best_price_for (side : PositionSide) (orderbook : OrderBook.t) : option Q :=
  match side with
  | LONG => OrderBook.get_best_yes_price orderbook
  | SHORT => OrderBook.get_best_no_price orderbook
  end.

Section Ledger.

(** The environment: the clock reading and the order-book feed's answer
    at each external call. *)
Variable utcnow_at : nat -> Z.
Variable orderbook_at : nat -> string -> option OrderBook.t.

Definition utcnow : M Z :=
  fun w => (inr (utcnow_at (calls w)), mkWorld (trader w) (S (calls w)) (journal w)).

Definition get_orderbook (market_id : string) : M (option OrderBook.t) :=
  fun w => (inr (orderbook_at (calls w) market_id),
            mkWorld (trader w) (S (calls w)) (journal w)).

Definition _execute_order (order : Order.t) (opportunity : Opportunity.t)
           (strategy_id strategy_name : option string) : M Order.t :=
  now <- utcnow ;;
  let order := Order.fill order now in
  (* Deduct capital *)
  let cost := Order.price order * Order.size order in
  modify_self (fun self => set_capital self (capital self - cost)) ;;;
  record_fill (Opened order) ;;;
  (* Create or update position *)
  let position_id := position_key (Order.market_id order) (Order.side order) in
  self <- get_self ;;
  position <-
    match dict_lookup (positions self) position_id with
    | Some position =>
        let total_cost := Position.entry_price position * Position.size position + cost in
        let total_size := Position.size position + Order.size order in
        entry <- lift (Decimal.div total_cost total_size) ;;
        ret (Position.set_entry_and_size position entry total_size)
    | None =>
        opened <- utcnow ;;
        ret (Position.mk position_id (Order.market_id order)
               (match Order.side order with YES => LONG | NO => SHORT end)
               (Order.size order) (Order.price order) (Order.price order)
               strategy_id strategy_name 0 0
               (Opportunity.stop_loss opportunity)
               (Opportunity.target_price opportunity)
               opened None)
    end ;;
  (* Update PnL *)
  let position := Position.update_pnl position (Order.price order) in
  modify_self (fun self =>
    set_positions self (dict_set (positions self) position_id position)) ;;;
  (* Record trade *)
  trade_id <- utcnow ;;
  executed <- utcnow ;;
  modify_self (fun self =>
    append_trade self
      (Trade.mk trade_id (Order.market_id order) (Order.side order)
                (Order.price order) (Order.size order) strategy_id 0 executed)) ;;;
  ret order.

Definition place_order (opportunity : Opportunity.t) (position_size_pct : Q)
           (strategy_id strategy_name : option string) : M (option Order.t) :=
  self <- get_self ;;
  (* Calculate position size *)
  let equity := get_equity self in
  let position_value := equity * position_size_pct in
  (* Calculate number of shares *)
  size <- lift (Decimal.div position_value (Opportunity.entry_price opportunity)) ;;
  (* Check if we have enough capital *)
  if Decimal.gtb position_value (capital self) then ret None
  else
    order_id <- utcnow ;;
    created <- utcnow ;;
    let order := Order.mk (Some order_id) (Opportunity.market_id opportunity)
                          (Opportunity.side opportunity) LIMIT
                          (Opportunity.entry_price opportunity) size
                          0 "pending" created None in
    order <- _execute_order order opportunity strategy_id strategy_name ;;
    ret (Some order).

Definition close_position (position_id : string) (reason : string)
  : M (option Position.t) :=
  self <- get_self ;;
  match dict_lookup (positions self) position_id with
  | None => ret None
  | Some position =>
      (* Get current price *)
      orderbook <- get_orderbook (Position.market_id position) ;;
      match orderbook with
      | None => ret None
      | Some orderbook =>
          match best_price_for (Position.side position) orderbook with
          | None => ret None
          | Some exit_price =>
              if negb (Decimal.truthy exit_price) then ret None
              else
                (* Calculate realized PnL *)
                let realized_pnl :=
                  match Position.side position with
                  | LONG => (exit_price - Position.entry_price position) * Position.size position
                  | SHORT => (Position.entry_price position - exit_price) * Position.size position
                  end in
                now <- utcnow ;;
                let position := Position.set_closed position realized_pnl exit_price now in
                (* Return capital *)
                let proceeds := exit_price * Position.size position in
                modify_self (fun self => set_capital self (capital self + proceeds)) ;;;
                record_fill (Closed position) ;;;
                (* Record trade *)
                trade_id <- utcnow ;;
                executed <- utcnow ;;
                modify_self (fun self =>
                  append_trade self
                    (Trade.mk trade_id (Position.market_id position)
                       (match Position.side position with LONG => YES | SHORT => NO end)
                       exit_price (Position.size position)
                       (Position.strategy_id position) realized_pnl executed)) ;;;
                (* Move to closed positions *)
                modify_self (fun self => append_closed self position) ;;;
                modify_self (fun self =>
                  set_positions self (dict_del (positions self) position_id)) ;;;
                ret (Some position)
          end
      end
  end.

Definition _check_exit_conditions (position : Position.t) (current_price : Q) : M unit :=
  let '(should_close, reason) := exit_decision position current_price in
  if should_close
  then close_position (Position.id position) reason ;;; ret tt
  else ret tt.

(** One iteration of the loop of [update_positions], inside its [try]. *)
Definition refresh_position (item : string * Position.t) : M unit :=
  let '(position_id, position) := item in
  orderbook <- get_orderbook (Position.market_id position) ;;
  match orderbook with
  | None => ret tt
  | Some orderbook =>
      match best_price_for (Position.side position) orderbook with
      | Some current_price =>
          if Decimal.truthy current_price then
            let position := Position.update_pnl position current_price in
            store_position position_id position ;;;
            _check_exit_conditions position current_price
          else ret tt
      | None => ret tt
      end
  end.

(** The loop runs over [list(self.positions.items())], the items at entry.
    Every state the ledger builds keeps each Position object under the one
    key equal to its [id], so an iteration only ever touches its own
    object and the snapshot value is the object's current value. *)
Definition update_positions : M unit :=
  self <- get_self ;;
  for_each (positions self) (fun item => try_except (refresh_position item)).

(** *** Sequences of ledger calls *)

Inductive Op : Type :=
| PlaceOrder (opportunity : Opportunity.t) (position_size_pct : Q)
             (strategy_id strategy_name : option string)
| ClosePosition (position_id reason : string)
| UpdatePositions
| GetStatistics.

(** The caller keeps going whatever a call returns or raises (the
    coordinator logs and continues); the world after the call is what
    the next call sees. *)
Definition run_op (op : Op) (w : World) : World :=
  match op with
  | PlaceOrder o pct sid sname => snd (place_order o pct sid sname w)
  | ClosePosition pid reason => snd (close_position pid reason w)
  | UpdatePositions => snd (update_positions w)
  | GetStatistics => let _ := get_statistics (trader w) in w
  end.

Definition run (ops : list Op) (w : World) : World :=
  fold_left (fun w op => run_op op w) ops w.

End Ledger.

(** Cost of an accepted open or increase: fill price x fill size. *)
Definition open_cost (f : Fill) : Q :=
  match f with
  | Opened o => Order.price o * Order.filled_size o
  | Closed _ => 0
  end.

(** Proceeds of a close: exit price x size. *)
Definition close_proceeds (f : Fill) : Q :=
  match f with
  | Opened _ => 0
  | Closed p => Position.current_price p * Position.size p
  end.

Definition is_close (f : Fill) : bool :=
  match f with
  | Closed _ => true
  | Opened _ => false
  end.

Definition sum_over (g : Fill -> Q) (l : list Fill) : Q :=
  fold_right (fun f acc => g f + acc) 0 l.

End DemoTrader.

(** ** Data-model predicate used in statements *)

(** Prices are probabilities, so no entry of the book is priced below 0. *)
Definition prices_nonneg (ob : OrderBook.t) : Prop :=
  Forall (fun e => 0 <= OrderBookEntry.price e)
         (OrderBook.yes_bids ob ++ OrderBook.yes_asks ob
          ++ OrderBook.no_bids ob ++ OrderBook.no_asks ob).

(** ** Statement vocabulary and concrete inputs *)

(** An optional price that the guards of the source treat as missing. *)
Definition absent_or_zero (o : option Q) : Prop :=
  match o with
  | None => True
  | Some q => q == 0
  end.

(** A book whose best YES bid is priced 0. *)
Definition book_zero_bid : OrderBook.t :=
  OrderBook.mk "m" [OrderBookEntry.mk 0 5] [OrderBookEntry.mk (1 # 2) 5] [] [] 0.

(** A book with YES mid 0.40 and NO mid 0.55. *)
Definition book_buy : OrderBook.t :=
  OrderBook.mk "m"
    [OrderBookEntry.mk (39 # 100) 10] [OrderBookEntry.mk (41 # 100) 10]
    [OrderBookEntry.mk (54 # 100) 10] [OrderBookEntry.mk (56 # 100) 10] 0.

(** A YES ask ladder holding a single unit at 0.5. *)
Definition book_thin : OrderBook.t :=
  OrderBook.mk "m" [] [OrderBookEntry.mk (1 # 2) 1] [] [] 0.

Definition opp_of (id : string) (score : Q) : Opportunity.t :=
  Opportunity.mk id "m" OpportunityType.LIQUIDITY YES score (1 # 10) "high"
                 (1 # 4) None None "r" 0 None.

(** A scanner whose buffer holds a 0.5 opportunity before a 0.9 one. *)
Definition scanner_two : MarketScannerAgent.t :=
  MarketScannerAgent.mk true 30 [opp_of "a" (1 # 2); opp_of "b" (9 # 10)] [] None.

(** A strategy whose risk management carries its own limit of 0.5. *)
Definition strategy_half : StrategyBlueprint.t :=
  StrategyBlueprint.mk "s" "d" [("max_position_size"%string, 1 # 2)] None.

(** The list the two filters of [get_opportunities] leave, before sorting. *)
Definition filtered (self : MarketScannerAgent.t) (min_score : option Q)
           (opportunity_type : option OpportunityType.t) : list Opportunity.t :=
  let l1 := match MarketScannerAgent.float_truthy min_score with
            | Some m => filter (fun o => Decimal.geb (Opportunity.score o) m)
                               (MarketScannerAgent.opportunities self)
            | None => MarketScannerAgent.opportunities self
            end in
  match opportunity_type with
  | Some ty => filter (fun o => OpportunityType.eqb (Opportunity.opportunity_type o) ty) l1
  | None => l1
  end.

(** A clock that reads the call count, and feeds that answer nothing, a
    book with a zero YES bid, or a book with a YES bid at 0.6. *)
Definition clock (n : nat) : Z := Z.of_nat n.

Definition feed_none (n : nat) (market_id : string) : option OrderBook.t := None.

Definition feed_zero_bid (n : nat) (market_id : string) : option OrderBook.t :=
  Some book_zero_bid.

Definition feed_bid_60 (n : nat) (market_id : string) : option OrderBook.t :=
  Some (OrderBook.mk market_id [OrderBookEntry.mk (6 # 10) 5] [] [] [] 0).

(** A fresh ledger with capital 100. *)
Definition world_100 : DemoTrader.World :=
  DemoTrader.mkWorld (DemoTrader.mk 100 100 [] [] [] []) 0 [].

(** An opportunity on market "m", side YES, at the given entry price,
    with the given stop-loss and target. *)
Definition opp_at (entry_price : Q) (stop_loss target_price : option Q) : Opportunity.t :=
  Opportunity.mk "o" "m" OpportunityType.ARBITRAGE YES (9 # 10) (1 # 10) "low"
                 entry_price target_price stop_loss "r" 0 None.

(** The ledger after opening 10 units of ("m", YES) at 0.40 from
    [world_100]: 4 percent of an equity of 100. *)
Definition world_open_10 : DemoTrader.World :=
  snd (DemoTrader.place_order clock
         (opp_at (4 # 10) (Some (3 # 10)) (Some (8 # 10)))
         (4 # 100) (Some "s1"%string) (Some "s1"%string) world_100).

(** The position a fill of [size] units at [price] merges [p] into: the
    weighted-average entry, the summed size, marked at the fill price. *)
Definition merged_position (p : Position.t) (price size : Q) : Position.t :=
  Position.update_pnl
    (Position.set_entry_and_size p
       ((Position.entry_price p * Position.size p + price * size)
        / (Position.size p + size))
       (Position.size p + size))
    price.

(** [m] moves the capital only through the fills it journals, and every
    fill it journals is of a kind [ok] allows. *)
Definition conserves {A : Type} (ok : DemoTrader.Fill -> bool) (m : DemoTrader.M A) : Prop :=
  forall w, exists fills,
    DemoTrader.journal (snd (m w)) = DemoTrader.journal w ++ fills /\
    forallb ok fills = true /\
    DemoTrader.capital (DemoTrader.trader (snd (m w)))
    == DemoTrader.capital (DemoTrader.trader w)
       - DemoTrader.sum_over DemoTrader.open_cost fills
       + DemoTrader.sum_over DemoTrader.close_proceeds fills.

Definition any_fill (f : DemoTrader.Fill) : bool := true.

(** The ledger after opening 10 units of ("m", YES) at 0.40 with a target
    price (take-profit) of 0.50 from [world_100]: capital 96. *)
Definition world_take_profit : DemoTrader.World :=
  snd (DemoTrader.place_order clock
         (opp_at (4 # 10) None (Some (5 # 10)))
         (4 # 100) None None world_100).

(** The open set is a dict (unique keys) that holds each position under
    the key equal to its id. *)
Definition positions_wf (self : DemoTrader.t) : Prop :=
  NoDup (map fst (DemoTrader.positions self)) /\
  Forall (fun kv => Position.id (snd kv) = fst kv) (DemoTrader.positions self).

(** [m] keeps the open set well formed. *)
Definition keeps_wf {A : Type} (m : DemoTrader.M A) : Prop :=
  forall w, positions_wf (DemoTrader.trader w) ->
            positions_wf (DemoTrader.trader (snd (m w))).

(** ** enhanced_orderbook.py: the remaining methods of [EnhancedOrderBook] *)

Module OrderBookMetrics.

Import EnhancedOrderBook.

Definition get_spread (ob : OrderBook.t) (side : string) : option Q :=
  spread (get_best_bid_ask ob side).

(** [if spread and mid_price and mid_price > 0] *)
Definition get_spread_percentage (ob : OrderBook.t) (side : string) : option Q :=
  let best := get_best_bid_ask ob side in
  match spread best, mid_price best with
  | Some s, Some m =>
      if Decimal.truthy s && Decimal.truthy m && Decimal.gtb m 0
      then Some (s / m * 100) else None
  | _, _ => None
  end.

Definition price_gt (y x : OrderBookEntry.t) : bool :=
  Decimal.gtb (OrderBookEntry.price y) (OrderBookEntry.price x).

(** The two lists of [{"price": ..., "size": ...}] dicts, as (price, size)
    pairs. *)
Record Depth : Type := mkDepth {
  bids : list (Q * Q);
  asks : list (Q * Q)
}.

Definition level (e : OrderBookEntry.t) : Q * Q :=
  (OrderBookEntry.price e, OrderBookEntry.size e).

Definition get_depth (ob : OrderBook.t) (side : string) (levels : Z) : Depth :=
  let bids := slice_to (stable_sort price_gt (side_bids ob side)) levels in
  let asks := slice_to (stable_sort MarketImpact.price_lt (side_asks ob side)) levels in
  mkDepth (map level bids) (map level asks).

(** [sum(e.size for e in entries if lower <= e.price <= upper)] *)
Definition band_size (entries : list OrderBookEntry.t) (lower upper : Q) : Q :=
  Decimal.sum
    (map OrderBookEntry.size
         (filter (fun e => Decimal.leb lower (OrderBookEntry.price e)
                           && Decimal.leb (OrderBookEntry.price e) upper)
                 entries)).

(** The returned dict, as its item list: without a usable mid it has the
    two keys "bid_liquidity" and "ask_liquidity" only. *)
Definition get_liquidity (ob : OrderBook.t) (side : string) (depth_pct : Q)
  : list (string * Q) :=
  let mid_price := mid_price (get_best_bid_ask ob side) in
  match mid_price with
  | Some m =>
      if Decimal.truthy m then
        let price_range := m * depth_pct in
        let lower_bound := m - price_range in
        let upper_bound := m + price_range in
        let bid_liquidity := band_size (side_bids ob side) lower_bound upper_bound in
        let ask_liquidity := band_size (side_asks ob side) lower_bound upper_bound in
        [("bid_liquidity"%string, bid_liquidity);
         ("ask_liquidity"%string, ask_liquidity);
         ("total_liquidity"%string, bid_liquidity + ask_liquidity)]
      else [("bid_liquidity"%string, 0); ("ask_liquidity"%string, 0)]
  | None => [("bid_liquidity"%string, 0); ("ask_liquidity"%string, 0)]
  end.

Definition total_size (entries : list OrderBookEntry.t) : Q :=
  Decimal.sum (map OrderBookEntry.size entries).

Definition get_imbalance (ob : OrderBook.t) (side : string) : Q :=
  let total_bid_size := total_size (side_bids ob side) in
  let total_ask_size := total_size (side_asks ob side) in
  let total_size := total_bid_size + total_ask_size in
  if Qeq_bool total_size 0 then 0
  else (total_bid_size - total_ask_size) / total_size.

(** *** [get_orderbook_summary] *)

Inductive KeyError : Type := KeyError_of (key : string).

(** [d[k]] on a dict: a missing key raises. *)
Definition dict_item (d : list (string * Q)) (k : string) : KeyError + Q :=
  match dict_lookup d k with
  | Some v => inr v
  | None => inl (KeyError_of k)
  end.

(** [str(x) if x else None]: the rendering [str] of a Decimal is kept as
    the Decimal. *)
Definition str_if_truthy (o : option Q) : option Q :=
  match o with
  | Some d => if Decimal.truthy d then Some d else None
  | None => None
  end.

Record SideSummary : Type := mkSide {
  s_best_bid : option Q;
  s_best_ask : option Q;
  s_spread : option Q;
  s_spread_pct : option Q;
  s_mid_price : option Q;
  s_liquidity_bid : Q;
  s_liquidity_ask : Q;
  s_liquidity_total : Q;
  s_imbalance : Q
}.

Record Summary : Type := mkSummary {
  sum_market_id : string;
  sum_timestamp : Z;
  sum_yes : SideSummary;
  sum_no : SideSummary;
  sum_arbitrage : option Arbitrage;
  sum_depth_yes : Depth;
  sum_depth_no : Depth
}.

(** One of the two nested dict displays; the values are evaluated in the
    order written, so the three lookups in the liquidity dict come after
    the five optional renderings. *)
Definition side_summary (ob : OrderBook.t) (side : string)
           (best : BestBidAsk) (liquidity : list (string * Q)) : KeyError + SideSummary :=
  let bb := str_if_truthy (best_bid best) in
  let ba := str_if_truthy (best_ask best) in
  let sp := str_if_truthy (spread best) in
  let pct := str_if_truthy (get_spread_percentage ob side) in
  let mid := str_if_truthy (mid_price best) in
  match dict_item liquidity "bid_liquidity" with
  | inl e => inl e
  | inr lb =>
      match dict_item liquidity "ask_liquidity" with
      | inl e => inl e
      | inr la =>
          match dict_item liquidity "total_liquidity" with
          | inl e => inl e
          | inr lt => inr (mkSide bb ba sp pct mid lb la lt (get_imbalance ob side))
          end
      end
  end.

(** [timestamp] is [self.timestamp], read from the clock when the view
    was built. *)
Definition get_orderbook_summary (ob : OrderBook.t) (timestamp : Z) : KeyError + Summary :=
  let yes_best := get_best_bid_ask ob "YES" in
  let no_best := get_best_bid_ask ob "NO" in
  let yes_liquidity := get_liquidity ob "YES" (5 # 100) in
  let no_liquidity := get_liquidity ob "NO" (5 # 100) in
  let arbitrage := get_arbitrage_opportunity ob in
  match side_summary ob "YES" yes_best yes_liquidity with
  | inl e => inl e
  | inr yes =>
      match side_summary ob "NO" no_best no_liquidity with
      | inl e => inl e
      | inr no =>
          inr (mkSummary (OrderBook.market_id ob) timestamp yes no arbitrage
                         (get_depth ob "YES" 5) (get_depth ob "NO" 5))
      end
  end.

End OrderBookMetrics.

(** ** scanner.py: the detectors, [analyze_market], [clear_old_opportunities] *)

Inductive MarketStatus : Type := OPEN | CLOSED | RESOLVED.

(** [Market]: the timestamps of creation and update and the image links
    are not read by any operation embedded here and are left out.
    Datetimes are counts of microseconds. *)
Module Market.
Record t : Type := mk {
  id : string;
  question : string;
  description : option string;
  slug : string;
  end_date_iso : option Z;
  tags : list string;
  liquidity : Q;
  volume : Q;
  status : MarketStatus
}.
End Market.

Module Scanner.

Import MarketScannerAgent.

(** A Python number as the detectors meet it: a float or a Decimal. *)
Inductive pynum : Type :=
| PyFloat (q : Q)
| PyDecimal (q : Q).

Inductive ScanError : Type := TypeError.

(** [a - b]: Decimal and float do not mix in arithmetic. *)
Definition py_sub (a b : pynum) : ScanError + pynum :=
  match a, b with
  | PyFloat x, PyFloat y => inr (PyFloat (x - y))
  | PyDecimal x, PyDecimal y => inr (PyDecimal (x - y))
  | _, _ => inl TypeError
  end.

Definition pynum_value (a : pynum) : Q :=
  match a with
  | PyFloat x => x
  | PyDecimal x => x
  end.

Record World : Type := mkWorld {
  agent : MarketScannerAgent.t;
  calls : nat
}.

Definition Scan (A : Type) : Type := World -> (ScanError + A) * World.

Definition ret {A : Type} (a : A) : Scan A := fun w => (inr a, w).

Definition bind {A B : Type} (m : Scan A) (k : A -> Scan B) : Scan B :=
  fun w =>
    match m w with
    | (inl e, w') => (inl e, w')
    | (inr a, w') => k a w'
    end.

Notation "x <- m ;; k" := (bind m (fun x => k))
  (at level 61, m at next level, right associativity).

Definition lift {A : Type} (r : ScanError + A) : Scan A := fun w => (r, w).

(** A step inside the [try] of [analyze_market]: when it raises, the
    handler logs and the function returns the local list built so far. *)
Definition guarded {A : Type} (local : list Opportunity.t) (m : Scan A)
           (k : A -> Scan (list Opportunity.t)) : Scan (list Opportunity.t) :=
  fun w =>
    match m w with
    | (inl _, w') => (inr local, w')
    | (inr a, w') => k a w'
    end.

(** [timedelta(hours=h)] *)
Definition hours (h : Z) : Z := (h * 3600000000)%Z.

(** [s.add(x)] on a set kept as a duplicate-free list. *)
Definition set_add (x : string) (s : list string) : list string :=
  if existsb (String.eqb x) s then s else s ++ [x].

Definition opt_list {A : Type} (o : option A) : list A :=
  match o with
  | Some a => [a]
  | None => []
  end.

Section Detectors.

(** The clock and the order-book feed by external call, and the two
    renderings the detectors put into strings: of the identifier
    "opp_<timestamp>" and of a rationale f-string from the values it
    formats. *)
Variable utcnow_at : nat -> Z.
Variable orderbook_at : nat -> string -> option OrderBook.t.
Variable opp_id : Z -> string.
Variable fstring : string -> list Q -> string.

Definition utcnow : Scan Z :=
  fun w => (inr (utcnow_at (calls w)), mkWorld (agent w) (S (calls w))).

Definition get_orderbook (market_id : string) : Scan (option OrderBook.t) :=
  fun w => (inr (orderbook_at (calls w) market_id), mkWorld (agent w) (S (calls w))).

(** [Opportunity(...)] with the two defaults read from the clock: [id]
    first, [detected_at] second.  The scores passed below (at most 1, 0.7
    and 0.6) pass the validation of the [score] field. *)
Definition new_opportunity (market : Market.t) (ty : OpportunityType.t)
           (side : OrderSide) (score expected_return : Q) (risk_level : string)
           (entry_price : Q) (target_price : option Q) (reasoning : string)
           (expires_at : option Z) : Scan Opportunity.t :=
  id_time <- utcnow ;;
  detected <- utcnow ;;
  ret (Opportunity.mk (opp_id id_time) (Market.id market) ty side score
                      expected_return risk_level entry_price target_price None
                      reasoning detected expires_at).

Definition check_arbitrage (market : Market.t) (orderbook : OrderBook.t)
  : Scan (option Opportunity.t) :=
  match OrderBook.get_arbitrage_opportunity orderbook with
  | Some arb_value =>
      if Decimal.truthy arb_value && Decimal.gtb arb_value (2 # 100) then
        let score := arb_value * 10 in
        let score := Decimal.min2 score 1 in
        match OrderBook.get_best_yes_price orderbook,
              OrderBook.get_best_no_price orderbook with
        | Some yes_price, Some no_price =>
            if Decimal.truthy yes_price && Decimal.truthy no_price then
              let '(side, entry_price) :=
                if Decimal.ltb yes_price no_price then (YES, yes_price)
                else (NO, no_price) in
              (* reasoning=f"... {1.0 - arb_value:.4f}, edge = {arb_value:.4f}" *)
              total <- lift (py_sub (PyFloat 1) (PyDecimal arb_value)) ;;
              let reasoning := fstring "arbitrage" [pynum_value total; arb_value] in
              o <- new_opportunity market OpportunityType.ARBITRAGE side score
                                   arb_value "low" entry_price (Some (5 # 10))
                                   reasoning None ;;
              ret (Some o)
            else ret None
        | _, _ => ret None
        end
      else ret None
  | None => ret None
  end.

Definition check_time_decay (market : Market.t) (orderbook : OrderBook.t)
  : Scan (option Opportunity.t) :=
  match Market.end_date_iso market with
  | None => ret None
  | Some end_date =>
      now <- utcnow ;;
      let time_until_resolution := (end_date - now)%Z in
      if ((hours 0 <? time_until_resolution) && (time_until_resolution <? hours 24))%Z
      then
        match OrderBook.get_best_yes_price orderbook,
              OrderBook.get_best_no_price orderbook with
        | Some yes_price, Some no_price =>
            if Decimal.truthy yes_price && Decimal.truthy no_price then
              if Decimal.gtb yes_price (8 # 10) then
                o <- new_opportunity market OpportunityType.TIME_DECAY YES (7 # 10)
                       (15 # 100) "medium" yes_price (Some 1)
                       (fstring "time_decay_yes"
                                [inject_Z time_until_resolution; yes_price])
                       (Some end_date) ;;
                ret (Some o)
              else if Decimal.gtb no_price (8 # 10) then
                o <- new_opportunity market OpportunityType.TIME_DECAY NO (7 # 10)
                       (15 # 100) "medium" no_price (Some 1)
                       (fstring "time_decay_no"
                                [inject_Z time_until_resolution; no_price])
                       (Some end_date) ;;
                ret (Some o)
              else ret None
            else ret None
        | _, _ => ret None
        end
      else ret None
  end.

Definition check_liquidity (market : Market.t) (orderbook : OrderBook.t)
  : Scan (option Opportunity.t) :=
  if Decimal.ltb (Market.liquidity market) 1000 then
    match OrderBook.get_best_yes_price orderbook,
          OrderBook.get_best_no_price orderbook with
    | Some yes_price, Some no_price =>
        if Decimal.truthy yes_price && Decimal.truthy no_price then
          if Decimal.gtb (Qabs (yes_price - (5 # 10))) (2 # 10) then
            let side := if Decimal.ltb yes_price (3 # 10) then YES else NO in
            o <- new_opportunity market OpportunityType.LIQUIDITY side (6 # 10)
                   (10 # 100) "high"
                   (match side with YES => yes_price | NO => no_price end)
                   None
                   (fstring "liquidity" [Market.liquidity market])
                   None ;;
            ret (Some o)
          else ret None
        else ret None
    | _, _ => ret None
    end
  else ret None.

Definition store (market : Market.t) (found : list Opportunity.t) : Scan unit :=
  fun w =>
    (inr tt,
     mkWorld (MarketScannerAgent.mk
                (running (agent w)) (scan_interval (agent w))
                (opportunities (agent w) ++ found)
                (set_add (Market.id market) (scanned_markets (agent w)))
                (last_scan (agent w)))
             (calls w)).

Definition analyze_market (market : Market.t) : Scan (list Opportunity.t) :=
  fun w =>
    (* Skip if recently scanned *)
    if existsb (String.eqb (Market.id market)) (scanned_markets (agent w))
    then (inr [], w)
    else
      guarded [] (get_orderbook (Market.id market)) (fun orderbook =>
        match orderbook with
        | None => ret []
        | Some orderbook =>
            guarded [] (check_arbitrage market orderbook) (fun arb_opp =>
              let found := opt_list arb_opp in
              guarded found (check_time_decay market orderbook) (fun time_decay_opp =>
                let found := found ++ opt_list time_decay_opp in
                guarded found (check_liquidity market orderbook) (fun liquidity_opp =>
                  let found := found ++ opt_list liquidity_opp in
                  match found with
                  | [] => ret found
                  | _ :: _ => guarded found (store market found) (fun _ => ret found)
                  end)))
        end) w.

(** The comprehension of [clear_old_opportunities]: the clock is read
    again for each opportunity that is not fresh and has an expiry. *)
Fixpoint retain (cutoff : Z) (l : list Opportunity.t) : Scan (list Opportunity.t) :=
  match l with
  | [] => ret []
  | o :: r =>
      if (cutoff <? Opportunity.detected_at o)%Z
      then (kept <- retain cutoff r ;; ret (o :: kept))
      else
        match Opportunity.expires_at o with
        | Some expires =>
            now <- utcnow ;;
            kept <- retain cutoff r ;;
            ret (if (now <? expires)%Z then o :: kept else kept)
        | None => retain cutoff r
        end
  end.

Definition clear_old_opportunities (max_age_hours : Z) : Scan unit :=
  now <- utcnow ;;
  let cutoff := (now - hours max_age_hours)%Z in
  fun w =>
    match retain cutoff (opportunities (agent w)) w with
    | (inl e, w') => (inl e, w')
    | (inr kept, w') =>
        (inr tt, mkWorld (set_opportunities (agent w') kept) (calls w'))
    end.

End Detectors.

End Scanner.

(** What every opportunity the scanner stores looks like. *)
Definition detected (market : Market.t) (o : Opportunity.t) : Prop :=
  Opportunity.market_id o = Market.id market /\
  ~ Opportunity.entry_price o == 0 /\
  ((Opportunity.opportunity_type o = OpportunityType.TIME_DECAY /\
    Opportunity.score o = 7 # 10) \/
   (Opportunity.opportunity_type o = OpportunityType.LIQUIDITY /\
    Opportunity.score o = 6 # 10)).

(** Renderings and a market for the concrete runs. *)
Definition opp_id_plain (t : Z) : string := "opp".

Definition fstring_plain (template : string) (values : list Q) : string := template.

Definition market_m : Market.t :=
  Market.mk "m" "q" None "m" None [] 500 0 OPEN.

Definition feed_book_buy (n : nat) (market_id : string) : option OrderBook.t :=
  Some book_buy.

(** A book with the best YES bid at 0.25 and the best NO bid at 0.75. *)
Definition book_skewed : OrderBook.t :=
  OrderBook.mk "m" [OrderBookEntry.mk (25 # 100) 10] []
               [OrderBookEntry.mk (75 # 100) 10] [] 0.

Definition feed_skewed (n : nat) (market_id : string) : option OrderBook.t :=
  Some book_skewed.

Definition scan_world_0 : Scanner.World :=
  Scanner.mkWorld (MarketScannerAgent.mk true 30 [] [] None) 0.

(** A detector that cannot raise: it leaves the scanner alone and what it
    yields is a well-described opportunity. *)
Definition quiet_detector (market : Market.t) (m : Scanner.Scan (option Opportunity.t)) : Prop :=
  forall w, exists r w',
    m w = (inr r, w') /\ Scanner.agent w' = Scanner.agent w /\
    match r with
    | Some o => detected market o
    | None => True
    end.

(** The position [_execute_order] creates on a fresh key, marked at the
    fill price. *)
Definition opened_position (key : string) (opportunity : Opportunity.t) (size : Q)
           (strategy_id strategy_name : option string) (opened : Z) : Position.t :=
  Position.update_pnl
    (Position.mk key (Opportunity.market_id opportunity)
       (match Opportunity.side opportunity with YES => LONG | NO => SHORT end)
       size (Opportunity.entry_price opportunity) (Opportunity.entry_price opportunity)
       strategy_id strategy_name 0 0
       (Opportunity.stop_loss opportunity) (Opportunity.target_price opportunity)
       opened None)
    (Opportunity.entry_price opportunity).

(** +1 for a YES (LONG) position, -1 for a NO (SHORT) one. *)
Definition direction (side : OrderSide) : Q :=
  match side with
  | YES => 1
  | NO => - (1)
  end.

(** A position carries no usable exit level. *)
Definition no_exit_levels (p : Position.t) : Prop :=
  absent_or_zero (Position.stop_loss p) /\ absent_or_zero (Position.take_profit p).

(** An opportunity on market "m", side NO. *)
Definition opp_no_at (entry_price : Q) : Opportunity.t :=
  Opportunity.mk "o" "m" OpportunityType.LIQUIDITY NO (9 # 10) (1 # 10) "high"
                 entry_price None None "r" 0 None.

(** A feed whose best NO bid is 0.50. *)
Definition feed_no_bid_50 (n : nat) (market_id : string) : option OrderBook.t :=
  Some (OrderBook.mk market_id [] [] [OrderBookEntry.mk (5 # 10) 5] [] 0).

(** What a refresh that closes nothing leaves alone. *)
Definition same_books (w w' : DemoTrader.World) : Prop :=
  DemoTrader.capital (DemoTrader.trader w') = DemoTrader.capital (DemoTrader.trader w) /\
  DemoTrader.initial_capital (DemoTrader.trader w')
  = DemoTrader.initial_capital (DemoTrader.trader w) /\
  DemoTrader.trade_history (DemoTrader.trader w')
  = DemoTrader.trade_history (DemoTrader.trader w) /\
  DemoTrader.closed_positions (DemoTrader.trader w')
  = DemoTrader.closed_positions (DemoTrader.trader w) /\
  map fst (DemoTrader.positions (DemoTrader.trader w'))
  = map fst (DemoTrader.positions (DemoTrader.trader w)) /\
  DemoTrader.journal w' = DemoTrader.journal w.

(** The ledger after opening 10 units of ("m", YES) at 0.40 without
    stop-loss or target. *)
Definition world_no_levels : DemoTrader.World :=
  snd (DemoTrader.place_order clock (opp_at (4 # 10) None None)
                              (4 # 100) None None world_100).

(** ** orchestrator.py: strategy selection, admission and intake *)

Module StrategyType.
Inductive t : Type :=
| ARBITRAGE | NEWS_DRIVEN | PROBABILITY_EDGE | TIME_DECAY
| LIQUIDITY | TRADER_FOLLOWING | SOCIAL_SENTIMENT.

Definition value (s : t) : string :=
  match s with
  | ARBITRAGE => "arbitrage"
  | NEWS_DRIVEN => "news_driven"
  | PROBABILITY_EDGE => "probability_edge"
  | TIME_DECAY => "time_decay"
  | LIQUIDITY => "liquidity"
  | TRADER_FOLLOWING => "trader_following"
  | SOCIAL_SENTIMENT => "social_sentiment"
  end.
End StrategyType.

Definition OpportunityType_value (o : OpportunityType.t) : string :=
  match o with
  | OpportunityType.ARBITRAGE => "arbitrage"
  | OpportunityType.NEWS_GAP => "news_gap"
  | OpportunityType.PROBABILITY_EDGE => "probability_edge"
  | OpportunityType.TIME_DECAY => "time_decay"
  | OpportunityType.LIQUIDITY => "liquidity"
  | OpportunityType.TRADER_SIGNAL => "trader_signal"
  | OpportunityType.SOCIAL_SENTIMENT => "social_sentiment"
  | OpportunityType.BREAKING_NEWS => "breaking_news"
  end.

(** [needle in hay] on strings: substring containment. *)
Fixpoint contains (needle hay : string) : bool :=
  String.prefix needle hay
  || match hay with
     | EmptyString => false
     | String _ rest => contains needle rest
     end.

Module Coordinator.

(** A strategy descriptor as the coordinator holds it: the blueprint and
    its [strategy_type], the field the record [StrategyBlueprint.t]
    leaves out. *)
Record Strategy : Type := mkStrategy {
  blueprint : StrategyBlueprint.t;
  strategy_type : StrategyType.t
}.

(** What is handed to [_publish]. *)
Inductive Event : Type :=
| OpportunityEvent (o : Opportunity.t)
| TradeExecuted (order_id : option Z) (opportunity_id : string) (strategy : string).

Record Settings : Type := mkSettings {
  opportunity_score_threshold : Q;
  max_concurrent_positions : Z;
  max_position_size : Q
}.

Record t : Type := mk {
  scanner : MarketScannerAgent.t;
  demo_trader : DemoTrader.World;
  opportunities : list Opportunity.t;          (* deque(maxlen=1000) *)
  strategies : list (string * Strategy);       (* Dict[str, StrategyBlueprint] *)
  published : list Event
}.

(** [deque.append] with [maxlen]: a full deque drops its leftmost item. *)
Definition deque_append {A : Type} (maxlen : nat) (d : list A) (x : A) : list A :=
  let d' := d ++ [x] in
  if Nat.ltb maxlen (List.length d') then tl d' else d'.

(** The sort key: [s.test_results.get("win_rate", 0) if s.test_results else 0]. *)
Definition win_rate (s : Strategy) : Q :=
  match StrategyBlueprint.test_results (blueprint s) with
  | Some results => dict_get results "win_rate" 0
  | None => 0
  end.

Definition win_rate_gt (y x : Strategy) : bool := Decimal.gtb (win_rate y) (win_rate x).

Definition type_matches (opportunity : Opportunity.t) (s : Strategy) : bool :=
  contains (StrategyType.value (strategy_type s))
           (OpportunityType_value (Opportunity.opportunity_type opportunity)).

Definition _select_strategy (self : t) (opportunity : Opportunity.t) : option Strategy :=
  let matching_strategies :=
    filter (type_matches opportunity) (dict_values (strategies self)) in
  let matching_strategies :=
    match matching_strategies with
    | [] => dict_values (strategies self)
    | _ :: _ => matching_strategies
    end in
  match matching_strategies with
  | [] => None
  | _ :: _ => hd_error (stable_sort win_rate_gt matching_strategies)
  end.

Definition set_demo_trader (self : t) (w : DemoTrader.World) : t :=
  mk (scanner self) w (opportunities self) (strategies self) (published self).

Definition publish (self : t) (e : Event) : t :=
  mk (scanner self) (demo_trader self) (opportunities self) (strategies self)
     (published self ++ [e]).

Section Loops.

Variable settings : Settings.
Variable utcnow_at : nat -> Z.

(** [_consider_trading]: the whole body sits in a [try] whose handler
    logs, so a raising placement leaves what it had done and nothing is
    published. *)
Definition _consider_trading (opportunity : Opportunity.t) (self : t) : t :=
  if (max_concurrent_positions settings
      <=? Z.of_nat (List.length (DemoTrader.positions (DemoTrader.trader (demo_trader self)))))%Z
  then self
  else
    match _select_strategy self opportunity with
    | None => self
    | Some strategy =>
        let position_size :=
          AgentOrchestrator._calculate_position_size
            (max_position_size settings) opportunity (blueprint strategy) in
        let name := StrategyBlueprint.name (blueprint strategy) in
        match DemoTrader.place_order utcnow_at opportunity position_size
                                     (Some name) (Some name) (demo_trader self) with
        | (inr (Some order), w') =>
            publish (set_demo_trader self w')
                    (TradeExecuted (Order.id order) (Opportunity.id opportunity) name)
        | (inr None, w') => set_demo_trader self w'
        | (inl _, w') => set_demo_trader self w'
        end
    end.

(** The body of the [for opportunity in opportunities] loop of
    [_process_opportunities_loop]. *)
Definition intake_one (self : t) (opportunity : Opportunity.t) : t :=
  if existsb (fun o => String.eqb (Opportunity.id o) (Opportunity.id opportunity))
             (opportunities self)
  then self
  else
    let self := mk (scanner self) (demo_trader self)
                   (deque_append 1000 (opportunities self) opportunity)
                   (strategies self) (published self) in
    let self := publish self (OpportunityEvent opportunity) in
    if Decimal.geb (Opportunity.score opportunity) (8 # 10)
    then _consider_trading opportunity self
    else self.

(** One pass of [_process_opportunities_loop] (between two sleeps). *)
Definition intake_pass (self : t) : t :=
  let '(batch, scanner') :=
    MarketScannerAgent.get_opportunities
      (scanner self) (Some (opportunity_score_threshold settings)) None 100 in
  let self := mk scanner' (demo_trader self) (opportunities self)
                 (strategies self) (published self) in
  fold_left intake_one batch self.

End Loops.

End Coordinator.

(** The candidates [_select_strategy] ranks: the strategies whose type
    matches the opportunity's, or all of them when none matches. *)
Definition candidates (self : Coordinator.t) (opportunity : Opportunity.t)
  : list Coordinator.Strategy :=
  match filter (Coordinator.type_matches opportunity)
               (dict_values (Coordinator.strategies self)) with
  | [] => dict_values (Coordinator.strategies self)
  | s :: r => s :: r
  end.

(** The opportunities among published events, in order. *)
Fixpoint opportunity_events (l : list Coordinator.Event) : list Opportunity.t :=
  match l with
  | [] => []
  | Coordinator.OpportunityEvent o :: r => o :: opportunity_events r
  | Coordinator.TradeExecuted _ _ _ :: r => opportunity_events r
  end.

Definition open_count (self : Coordinator.t) : Z :=
  Z.of_nat (List.length (DemoTrader.positions
                           (DemoTrader.trader (Coordinator.demo_trader self)))).

(** Settings and a coordinator for the concrete runs: one strategy, the
    scanner holding a 0.5 and a 0.9 opportunity, a fresh ledger. *)
Definition settings_default : Coordinator.Settings :=
  Coordinator.mkSettings (7 # 10) 10 (2 # 10).

Definition coordinator_0 : Coordinator.t :=
  Coordinator.mk scanner_two world_100 []
    [("s"%string, Coordinator.mkStrategy strategy_half StrategyType.LIQUIDITY)] [].

(** The price has moved past the position's stop-loss (take-profit): at
    or below (above) it for a LONG position, at or above (below) it for a
    SHORT one; a level that is absent or zero is never crossed. *)
Definition crossed_stop (p : Position.t) (current_price : Q) : Prop :=
  match Position.stop_loss p with
  | Some sl =>
      ~ sl == 0 /\
      match Position.side p with
      | LONG => current_price <= sl
      | SHORT => sl <= current_price
      end
  | None => False
  end.

Definition crossed_target (p : Position.t) (current_price : Q) : Prop :=
  match Position.take_profit p with
  | Some tp =>
      ~ tp == 0 /\
      match Position.side p with
      | LONG => tp <= current_price
      | SHORT => current_price <= tp
      end
  | None => False
  end.

(** The directional PnL of [p] at a price. *)
Definition pnl_at (p : Position.t) (price : Q) : Q :=
  match Position.side p with
  | LONG => (price - Position.entry_price p) * Position.size p
  | SHORT => (Position.entry_price p - price) * Position.size p
  end.

(** A feed that quotes a best YES bid of 0.60 at its first call and of
    0.55 afterwards. *)
Definition feed_60_then_55 (n : nat) (market_id : string) : option OrderBook.t :=
  match n with
  | 6%nat => Some (OrderBook.mk market_id [OrderBookEntry.mk (60 # 100) 5] [] [] [] 0)
  | _ => Some (OrderBook.mk market_id [OrderBookEntry.mk (55 # 100) 5] [] [] [] 0)
  end.

(** * Properties *)

(** ** Decimal and list helpers *)

Lemma truthy_true_iff (d : Q) : Decimal.truthy d = true <-> ~ d == 0.
Proof.
  unfold Decimal.truthy. rewrite negb_true_iff.
  split; intro H.
  - intro E. apply Qeq_bool_iff in E. congruence.
  - destruct (Qeq_bool d 0) eqn:E; [ | reflexivity].
    apply Qeq_bool_iff in E. contradiction.
Qed.

Lemma truthy_false_iff (d : Q) : Decimal.truthy d = false <-> d == 0.
Proof.
  unfold Decimal.truthy. rewrite negb_false_iff. apply Qeq_bool_iff.
Qed.

Lemma ltb_true_iff (x y : Q) : Decimal.ltb x y = true <-> x < y.
Proof.
  unfold Decimal.ltb. rewrite negb_true_iff. split; intro H.
  - apply Qnot_le_lt. intro L. apply Qle_bool_iff in L. congruence.
  - destruct (Qle_bool y x) eqn:E; [ | reflexivity].
    apply Qle_bool_iff in E. apply Qle_not_lt in E. contradiction.
Qed.

Lemma ltb_false_iff (x y : Q) : Decimal.ltb x y = false <-> y <= x.
Proof.
  unfold Decimal.ltb. rewrite negb_false_iff. apply Qle_bool_iff.
Qed.

Lemma max_default_none (l : list Q) : Decimal.max_default l = None <-> l = [].
Proof. destruct l; simpl; split; congruence. Qed.

Lemma min_default_none (l : list Q) : Decimal.min_default l = None <-> l = [].
Proof. destruct l; simpl; split; congruence. Qed.

Lemma map_nil_iff {A B : Type} (f : A -> B) (l : list A) : map f l = [] <-> l = [].
Proof. destruct l; simpl; split; congruence. Qed.

(** ** Order-book view: best bid, best ask, spread and mid *)

Import EnhancedOrderBook.

Lemma best_bid_of (ob : OrderBook.t) (side : string) :
  best_bid (get_best_bid_ask ob side)
  = Decimal.max_default (map OrderBookEntry.price (side_bids ob side)).
Proof.
  unfold get_best_bid_ask.
  destruct (Decimal.max_default _) as [b|], (Decimal.min_default _) as [a|];
    try reflexivity.
  destruct (_ && _); reflexivity.
Qed.

Lemma best_ask_of (ob : OrderBook.t) (side : string) :
  best_ask (get_best_bid_ask ob side)
  = Decimal.min_default (map OrderBookEntry.price (side_asks ob side)).
Proof.
  unfold get_best_bid_ask.
  destruct (Decimal.max_default _) as [b|], (Decimal.min_default _) as [a|];
    try reflexivity.
  destruct (_ && _); reflexivity.
Qed.

(** Spread and mid in terms of the two best prices. *)
Lemma spread_mid_of (ob : OrderBook.t) (side : string) :
  let r := get_best_bid_ask ob side in
  match best_bid r, best_ask r with
  | Some b, Some a =>
      if Decimal.truthy b && Decimal.truthy a
      then spread r = Some (a - b) /\ mid_price r = Some ((b + a) / 2)
      else spread r = None /\ mid_price r = None
  | _, _ => spread r = None /\ mid_price r = None
  end.
Proof.
  unfold get_best_bid_ask.
  destruct (Decimal.max_default _) as [b|], (Decimal.min_default _) as [a|];
    simpl; auto.
  destruct (Decimal.truthy b && Decimal.truthy a) eqn:E; simpl; rewrite ?E; auto.
Qed.

(** C3, as stated, fails: with a YES bid at price 0 and a YES ask at 0.5
    both best prices are defined, yet spread and mid are undefined. *)
Lemma best_bid_ask_zero_bid_counterexample :
  let r := get_best_bid_ask book_zero_bid "YES" in
  best_bid r = Some 0 /\ best_ask r = Some (1 # 2) /\
  spread r = None /\ mid_price r = None /\
  ~ (spread r = None <-> best_bid r = None \/ best_ask r = None).
Proof.
  cbv zeta. repeat split; try reflexivity.
  intros [H _]. destruct (H eq_refl) as [E | E]; discriminate E.
Qed.

(** C3, amended: best bid (ask) is undefined exactly when the side's bid
    (ask) list is empty; spread and mid are undefined exactly when the best
    bid or the best ask is undefined or zero, and otherwise they are
    ask - bid and (bid + ask) / 2. *)
Theorem best_bid_ask_undefined_iff (ob : OrderBook.t) (side : string) :
  let r := get_best_bid_ask ob side in
  (best_bid r = None <-> side_bids ob side = []) /\
  (best_ask r = None <-> side_asks ob side = []) /\
  (spread r = None <-> absent_or_zero (best_bid r) \/ absent_or_zero (best_ask r)) /\
  (mid_price r = None <-> absent_or_zero (best_bid r) \/ absent_or_zero (best_ask r)) /\
  (forall b a, best_bid r = Some b -> best_ask r = Some a ->
               ~ b == 0 -> ~ a == 0 ->
               spread r = Some (a - b) /\ mid_price r = Some ((b + a) / 2)).
Proof.
  intros r.
  pose proof (spread_mid_of ob side) as SM. cbv zeta in SM. fold r in SM.
  split; [ | split].
  - subst r. rewrite best_bid_of, max_default_none. apply map_nil_iff.
  - subst r. rewrite best_ask_of, min_default_none. apply map_nil_iff.
  - destruct (best_bid r) as [b|], (best_ask r) as [a|]; simpl;
      try (destruct SM as [S1 S2]; rewrite S1, S2;
           repeat split; auto; intros; discriminate).
    pose proof (truthy_true_iff b) as Tb1. pose proof (truthy_false_iff b) as Tb0.
    pose proof (truthy_true_iff a) as Ta1. pose proof (truthy_false_iff a) as Ta0.
    destruct (Decimal.truthy b), (Decimal.truthy a);
      simpl in SM; destruct SM as [S1 S2]; rewrite S1, S2.
    + assert (~ b == 0) by (apply Tb1; reflexivity).
      assert (~ a == 0) by (apply Ta1; reflexivity).
      split; [ | split].
      * split; [discriminate | tauto].
      * split; [discriminate | tauto].
      * intros b' a' Hb Ha _ _. inversion Hb; inversion Ha; subst; auto.
    + assert (a == 0) by (apply Ta0; reflexivity).
      split; [ | split]; [tauto | tauto | ].
      intros b' a' Hb Ha _ Na. inversion Ha; subst; contradiction.
    + assert (b == 0) by (apply Tb0; reflexivity).
      split; [ | split]; [tauto | tauto | ].
      intros b' a' Hb Ha Nb _. inversion Hb; subst; contradiction.
    + assert (b == 0) by (apply Tb0; reflexivity).
      split; [ | split]; [tauto | tauto | ].
      intros b' a' Hb Ha Nb _. inversion Hb; subst; contradiction.
Qed.

(** ** Cross-outcome arbitrage *)

Lemma max_from_in (l : list Q) : forall m, In (Decimal.max_from m l) (m :: l).
Proof.
  induction l as [|x r IH]; intros m; simpl.
  - left; reflexivity.
  - destruct (IH (if Decimal.ltb m x then x else m)) as [E | I].
    + destruct (Decimal.ltb m x); rewrite <- E; auto.
    + right; right; exact I.
Qed.

Lemma min_from_in (l : list Q) : forall m, In (Decimal.min_from m l) (m :: l).
Proof.
  induction l as [|x r IH]; intros m; simpl.
  - left; reflexivity.
  - destruct (IH (if Decimal.ltb x m then x else m)) as [E | I].
    + destruct (Decimal.ltb x m); rewrite <- E; auto.
    + right; right; exact I.
Qed.

Lemma max_default_in (l : list Q) (b : Q) : Decimal.max_default l = Some b -> In b l.
Proof.
  destruct l as [|x r]; simpl; intros E; inversion E. apply max_from_in.
Qed.

Lemma min_default_in (l : list Q) (a : Q) : Decimal.min_default l = Some a -> In a l.
Proof.
  destruct l as [|x r]; simpl; intros E; inversion E. apply min_from_in.
Qed.

Lemma prices_nonneg_side (ob : OrderBook.t) (side : string) :
  prices_nonneg ob ->
  Forall (fun e => 0 <= OrderBookEntry.price e) (side_bids ob side) /\
  Forall (fun e => 0 <= OrderBookEntry.price e) (side_asks ob side).
Proof.
  unfold prices_nonneg, side_bids, side_asks. intros H.
  repeat (apply Forall_app in H; destruct H as [? H]).
  destruct (String.eqb (upper side) "YES"); auto.
Qed.

Lemma in_prices_nonneg (l : list OrderBookEntry.t) (p : Q) :
  Forall (fun e => 0 <= OrderBookEntry.price e) l ->
  In p (map OrderBookEntry.price l) -> 0 <= p.
Proof.
  intros F I. apply in_map_iff in I. destruct I as [e [E I]]. subst p.
  rewrite Forall_forall in F. auto.
Qed.

(** On a book without negative prices a defined mid is positive. *)
Lemma mid_price_positive (ob : OrderBook.t) (side : string) (m : Q) :
  prices_nonneg ob ->
  mid_price (get_best_bid_ask ob side) = Some m -> 0 < m.
Proof.
  intros NN Hm.
  destruct (prices_nonneg_side ob side NN) as [Fb Fa].
  pose proof (spread_mid_of ob side) as SM. cbv zeta in SM.
  rewrite best_bid_of, best_ask_of in SM.
  destruct (Decimal.max_default _) as [b|] eqn:Eb;
    [ | destruct SM as [_ S]; congruence].
  destruct (Decimal.min_default _) as [a|] eqn:Ea;
    [ | destruct SM as [_ S]; congruence].
  destruct (Decimal.truthy b) eqn:Tb; [ | destruct SM as [_ S]; congruence].
  destruct (Decimal.truthy a) eqn:Ta; [ | destruct SM as [_ S]; congruence].
  simpl in SM. destruct SM as [_ S]. rewrite S in Hm. inversion Hm; subst m.
  apply truthy_true_iff in Tb. apply truthy_true_iff in Ta.
  apply max_default_in in Eb. apply min_default_in in Ea.
  apply (in_prices_nonneg _ _ Fb) in Eb. apply (in_prices_nonneg _ _ Fa) in Ea.
  assert (0 < b) by (apply Qle_lt_or_eq in Eb; destruct Eb as [L | E];
                     [exact L | symmetry in E; contradiction]).
  assert (0 < a) by (apply Qle_lt_or_eq in Ea; destruct Ea as [L | E];
                     [exact L | symmetry in E; contradiction]).
  apply Qlt_shift_div_l; lra.
Qed.


Lemma book_buy_nonneg : prices_nonneg book_buy.
Proof. unfold prices_nonneg; simpl. repeat constructor; discriminate. Defined.


(** ** Stable sorting *)

Section StableSortFacts.
Context {A : Type} (sb : A -> A -> bool).
Hypothesis sb_asym : forall x y, sb x y = true -> sb y x = false.

Lemma insert_stable_hd (a x : A) (l : list A) :
  may_precede sb a x -> HdRel (may_precede sb) a l ->
  HdRel (may_precede sb) a (insert_stable sb x l).
Proof.
  intros Hax Hl. destruct l as [|y r]; simpl.
  - constructor; exact Hax.
  - destruct (sb y x); constructor; auto. inversion Hl; auto.
Qed.

Lemma insert_stable_sorted (x : A) (l : list A) :
  Sorted (may_precede sb) l -> Sorted (may_precede sb) (insert_stable sb x l).
Proof.
  induction l as [|y r IH]; intros S; simpl.
  - repeat constructor.
  - inversion S as [|? ? Sr Hy]; subst.
    destruct (sb y x) eqn:E.
    + constructor; [auto | ]. apply insert_stable_hd; auto.
      unfold may_precede. apply sb_asym; exact E.
    + constructor; [exact S | ]. constructor. exact E.
Qed.

Lemma stable_sort_sorted (l : list A) : Sorted (may_precede sb) (stable_sort sb l).
Proof.
  induction l as [|x r IH]; simpl; [constructor | ].
  apply insert_stable_sorted; exact IH.
Qed.

Lemma insert_stable_perm (x : A) (l : list A) :
  Permutation (x :: l) (insert_stable sb x l).
Proof.
  induction l as [|y r IH]; simpl; [reflexivity | ].
  destruct (sb y x); [ | reflexivity].
  rewrite perm_swap. constructor. exact IH.
Qed.

Lemma stable_sort_perm (l : list A) : Permutation l (stable_sort sb l).
Proof.
  induction l as [|x r IH]; simpl; [constructor | ].
  rewrite <- insert_stable_perm. constructor. exact IH.
Qed.

(** Sorting leaves a sorted list as it is. *)
Lemma stable_sort_fixed (l : list A) :
  Sorted (may_precede sb) l -> stable_sort sb l = l.
Proof.
  induction l as [|x r IH]; intros S; simpl; [reflexivity | ].
  inversion S as [|? ? Sr Hx]; subst. rewrite (IH Sr).
  destruct r as [|y r']; simpl; [reflexivity | ].
  inversion Hx as [|? ? Hxy]; subst. unfold may_precede in Hxy.
  rewrite Hxy. reflexivity.
Qed.

Lemma stable_sort_idempotent (l : list A) :
  stable_sort sb (stable_sort sb l) = stable_sort sb l.
Proof. apply stable_sort_fixed, stable_sort_sorted. Qed.
End StableSortFacts.

Lemma price_lt_asym (x y : OrderBookEntry.t) :
  MarketImpact.price_lt x y = true -> MarketImpact.price_lt y x = false.
Proof.
  unfold MarketImpact.price_lt. rewrite ltb_true_iff, ltb_false_iff. apply Qlt_le_weak.
Qed.

Lemma score_gt_asym (x y : Opportunity.t) :
  MarketScannerAgent.score_gt x y = true -> MarketScannerAgent.score_gt y x = false.
Proof.
  unfold MarketScannerAgent.score_gt, Decimal.gtb.
  rewrite ltb_true_iff, ltb_false_iff. apply Qlt_le_weak.
Qed.

(** ** Market impact *)

(** The ladder walked is the side's ask list in ascending price order. *)
Lemma ladder_ascending (ob : OrderBook.t) (side : string) :
  Sorted (fun x y => OrderBookEntry.price x <= OrderBookEntry.price y)
         (MarketImpact.ladder ob side) /\
  Permutation (side_asks ob side) (MarketImpact.ladder ob side).
Proof.
  split; [ | apply stable_sort_perm].
  pose proof (stable_sort_sorted MarketImpact.price_lt price_lt_asym (side_asks ob side)) as S.
  unfold MarketImpact.ladder.
  induction S as [|x l Sl IH Hd]; constructor; auto.
  destruct Hd as [|y r Hxy]; constructor.
  unfold may_precede, MarketImpact.price_lt in Hxy.
  apply ltb_false_iff in Hxy. exact Hxy.
Qed.

(** For a positive requested size the reported average is the total cost
    over the requested size, whatever was filled. *)
Lemma average_price_over_requested (ob : OrderBook.t) (side : string) (size : Q) :
  0 < size ->
  let r := MarketImpact.get_market_impact ob side size in
  MarketImpact.average_price r = MarketImpact.total_cost r / size.
Proof.
  intros Hs. unfold MarketImpact.get_market_impact.
  destruct (MarketImpact.walk ob side size) as [[rem tc] lv].
  assert (G : Decimal.gtb size 0 = true) by (apply ltb_true_iff; exact Hs).
  rewrite G. reflexivity.
Qed.

(** C4, evaluated where the book is too thin: 2 units requested against a
    ladder holding 1 unit at 0.5.  One unit is filled for a total cost of
    0.5, no error is raised, and the reported average price is
    0.5 / 2 = 0.25: the total cost over the requested size, not over the
    filled size (which would give 0.5).  The reported price impact is
    -50 percent. *)
Theorem market_impact_thin_book :
  let r := MarketImpact.get_market_impact book_thin "YES" 2 in
  MarketImpact.filled_size book_thin "YES" 2 == 1 /\
  MarketImpact.levels_consumed r = 1%nat /\
  MarketImpact.total_cost r == 1 # 2 /\
  MarketImpact.average_price r == 1 # 4 /\
  MarketImpact.total_cost r / MarketImpact.filled_size book_thin "YES" 2 == 1 # 2 /\
  ~ MarketImpact.average_price r
    == MarketImpact.total_cost r / MarketImpact.filled_size book_thin "YES" 2 /\
  MarketImpact.price_impact_pct r == - (50).
Proof.
  cbv zeta. repeat split; try reflexivity; try discriminate.
Qed.

(** ** Scanner retrieval *)

Import MarketScannerAgent.

(** What [get_opportunities] returns: filter, sort by score descending
    (stable), truncate. *)
Lemma get_opportunities_result (self : MarketScannerAgent.t) (min_score : option Q)
      (opportunity_type : option OpportunityType.t) (limit : Z) :
  fst (get_opportunities self min_score opportunity_type limit)
  = slice_to (stable_sort score_gt (filtered self min_score opportunity_type)) limit.
Proof.
  unfold get_opportunities, filtered.
  destruct (float_truthy min_score), opportunity_type; reflexivity.
Qed.

(** What it does to the scanner: with a filter in effect nothing; with no
    filter in effect the buffer itself is sorted. *)
Lemma get_opportunities_state (self : MarketScannerAgent.t) (min_score : option Q)
      (opportunity_type : option OpportunityType.t) (limit : Z) :
  snd (get_opportunities self min_score opportunity_type limit)
  = match float_truthy min_score, opportunity_type with
    | None, None => set_opportunities self (stable_sort score_gt (opportunities self))
    | _, _ => self
    end.
Proof.
  unfold get_opportunities.
  destruct (float_truthy min_score), opportunity_type; reflexivity.
Qed.

(** Two calls in a row with the same arguments return the same list. *)
Lemma get_opportunities_twice (self : MarketScannerAgent.t) (min_score : option Q)
      (opportunity_type : option OpportunityType.t) (limit : Z) :
  let '(first, self') := get_opportunities self min_score opportunity_type limit in
  fst (get_opportunities self' min_score opportunity_type limit) = first.
Proof.
  pose proof (get_opportunities_result self min_score opportunity_type limit) as R.
  pose proof (get_opportunities_state self min_score opportunity_type limit) as S.
  destruct (get_opportunities self min_score opportunity_type limit) as [first self'].
  simpl in R, S. rewrite get_opportunities_result. subst first self'.
  unfold filtered.
  destruct (float_truthy min_score), opportunity_type; try reflexivity.
  simpl. rewrite (stable_sort_idempotent _ score_gt_asym). reflexivity.
Qed.

(** C5, evaluated with no filter in effect (min_score 0, no type): the
    call returns the two opportunities by descending score, and the
    scanner's buffer, which held them as [a; b], holds them as [b; a]
    afterwards: the read reorders the buffer. *)
Theorem get_opportunities_reorders_buffer :
  let '(result, scanner') := get_opportunities scanner_two (Some 0) None 100 in
  opportunities scanner_two = [opp_of "a" (1 # 2); opp_of "b" (9 # 10)] /\
  result = [opp_of "b" (9 # 10); opp_of "a" (1 # 2)] /\
  opportunities scanner' = [opp_of "b" (9 # 10); opp_of "a" (1 # 2)] /\
  opportunities scanner' <> opportunities scanner_two /\
  scanner' <> scanner_two.
Proof.
  vm_compute. repeat split; discriminate.
Qed.

(** ** Coordinator position sizing *)

Import AgentOrchestrator.


Lemma min2_left (a b : Q) : a <= b -> Decimal.min2 a b = a.
Proof.
  intros L. unfold Decimal.min2.
  assert (E : Decimal.ltb b a = false) by (apply ltb_false_iff; exact L).
  rewrite E. reflexivity.
Qed.



(** ** Paper ledger *)

Import DemoTrader.

Section LedgerFacts.

Variable utcnow_at : nat -> Z.
Variable orderbook_at : nat -> string -> option OrderBook.t.

Lemma div_nonzero (x y : Q) : ~ y == 0 -> Decimal.div x y = inr (x / y).
Proof.
  intros N. unfold Decimal.div.
  destruct (Qeq_bool y 0) eqn:E; [ | reflexivity].
  apply Qeq_bool_iff in E. contradiction.
Qed.

(** C7, amended: for every ledger state and every opportunity with a
    non-zero entry price, when positionValue = (capital + total unrealized
    PnL) x sizePct exceeds the capital, placing returns no order, raises
    nothing and leaves the whole ledger (capital, open positions, trade
    history, closed history) as it was. *)
Theorem insufficient_capital_is_noop
        (w : World) (opportunity : Opportunity.t) (position_size_pct : Q)
        (strategy_id strategy_name : option string) :
  ~ Opportunity.entry_price opportunity == 0 ->
  capital (trader w) < get_equity (trader w) * position_size_pct ->
  place_order utcnow_at opportunity position_size_pct
              strategy_id strategy_name w
  = (inr None, w).
Proof.
  intros NZ Hgt. unfold place_order, bind, get_self, lift.
  rewrite (div_nonzero _ _ NZ).
  assert (G : Decimal.gtb (get_equity (trader w) * position_size_pct)
                          (capital (trader w)) = true)
    by (apply ltb_true_iff; exact Hgt).
  rewrite G. reflexivity.
Qed.

End LedgerFacts.

Lemma insufficient_capital_is_noop_witness :
  place_order clock (opp_at (4 # 10) None None) 2 None None world_100
  = (inr None, world_100).
Proof.
  apply insufficient_capital_is_noop.
  - discriminate.
  - reflexivity.
Defined.

(** C7, as stated, fails: with capital 100, sizePct 2 and an entry price
    of 0 the position value 200 exceeds the capital, and the call raises a
    division signal instead of returning the no-op result. *)
Lemma insufficient_capital_zero_price_counterexample :
  capital (trader world_100) < get_equity (trader world_100) * 2 /\
  place_order clock (opp_at 0 None None) 2 None None world_100
  = (inl Decimal.DivisionByZero, world_100) /\
  fst (place_order clock (opp_at 0 None None) 2 None None world_100)
  <> inr None.
Proof.
  split; [reflexivity | split; [reflexivity | discriminate]].
Qed.

Lemma dict_lookup_none_notin {V : Type} (d : list (string * V)) (k : string) :
  ~ In k (map fst d) -> dict_lookup d k = None.
Proof.
  induction d as [|[k0 v0] r IH]; simpl; intros N; [reflexivity | ].
  destruct (String.eqb k0 k) eqn:E.
  - apply String.eqb_eq in E. tauto.
  - apply IH. tauto.
Qed.

(** In a dict (unique keys) a deleted key is gone. *)
Lemma dict_lookup_del_same {V : Type} (d : list (string * V)) (k : string) :
  NoDup (map fst d) -> dict_lookup (dict_del d k) k = None.
Proof.
  induction d as [|[k0 v0] r IH]; simpl; intros ND; [reflexivity | ].
  inversion ND as [|? ? Hnotin ND']; subst.
  destruct (String.eqb k0 k) eqn:E.
  - apply String.eqb_eq in E. subst k0. apply dict_lookup_none_notin; exact Hnotin.
  - simpl. rewrite E. apply IH; exact ND'.
Qed.

Section CloseFacts.

Variable utcnow_at : nat -> Z.
Variable orderbook_at : nat -> string -> option OrderBook.t.


End CloseFacts.


(** ** Increasing an open position *)

Section IncreaseFacts.

Variable utcnow_at : nat -> Z.

(** An accepted order on a (market, side) that already has an open
    position: the call returns the filled order and the ledger is the old
    one with the cost deducted, the position merged and one trade
    appended. *)
Lemma place_order_increase
      (w : World) (opportunity : Opportunity.t) (position_size_pct : Q)
      (strategy_id strategy_name : option string) (p : Position.t) :
  let self := trader w in
  let key := position_key (Opportunity.market_id opportunity) (Opportunity.side opportunity) in
  let price := Opportunity.entry_price opportunity in
  let value := get_equity self * position_size_pct in
  let size := value / price in
  dict_lookup (positions self) key = Some p ->
  ~ price == 0 ->
  value <= capital self ->
  ~ Position.size p + size == 0 ->
  place_order utcnow_at opportunity position_size_pct strategy_id strategy_name w
  = (inr (Some (Order.mk (Some (utcnow_at (calls w)))
                         (Opportunity.market_id opportunity)
                         (Opportunity.side opportunity) LIMIT price size size "filled"
                         (utcnow_at (S (calls w)))
                         (Some (utcnow_at (S (S (calls w))))))),
     mkWorld
       (mk (capital self - price * size) (initial_capital self)
           (dict_set (positions self) key (merged_position p price size))
           (orders self)
           (trade_history self
            ++ [Trade.mk (utcnow_at (3 + calls w)%nat)
                         (Opportunity.market_id opportunity)
                         (Opportunity.side opportunity) price size strategy_id 0
                         (utcnow_at (4 + calls w)%nat)])
           (closed_positions self))
       (5 + calls w)%nat
       (journal w
        ++ [Opened (Order.mk (Some (utcnow_at (calls w)))
                             (Opportunity.market_id opportunity)
                             (Opportunity.side opportunity) LIMIT price size size "filled"
                             (utcnow_at (S (calls w)))
                             (Some (utcnow_at (S (S (calls w))))))])).
Proof.
  intros self key price value size Hp NZ Hcap Hsum.
  unfold place_order, bind, get_self, lift.
  fold self. fold price. fold value.
  rewrite (div_nonzero _ _ NZ). fold size.
  assert (G : Decimal.gtb value (capital self) = false)
    by (apply ltb_false_iff; exact Hcap).
  rewrite G.
  unfold _execute_order, bind, utcnow, modify_self, record_fill, get_self, lift, ret.
  simpl. fold key. fold self. rewrite Hp.
  rewrite (div_nonzero _ _ Hsum). reflexivity.
Qed.

Lemma dict_lookup_set_same {V : Type} (d : list (string * V)) (k : string) (v : V) :
  dict_lookup (dict_set d k v) k = Some v.
Proof.
  induction d as [|[k0 v0] r IH]; simpl.
  - rewrite String.eqb_refl. reflexivity.
  - destruct (String.eqb k0 k) eqn:E; simpl; rewrite E; auto.
Qed.

(** Overwriting a present key keeps the key order. *)
Lemma dict_set_keys {V : Type} (d : list (string * V)) (k : string) (v v' : V) :
  dict_lookup d k = Some v -> map fst (dict_set d k v') = map fst d.
Proof.
  induction d as [|[k0 v0] r IH]; simpl; [discriminate | ].
  destruct (String.eqb k0 k) eqn:E; simpl; [reflexivity | ].
  intros H. rewrite IH; auto.
Qed.


(** C10: in the same situation the merged position keeps the old
    position's id, market, side, strategy attribution, stop-loss,
    take-profit, opened-at, realized PnL and closed-at; only entry price,
    size, mark price and unrealized PnL are rewritten (mark = fill price,
    unrealized PnL by the directional formula on the merged entry and
    size), so the new opportunity's stop-loss and target are ignored. *)
Theorem increase_keeps_position_frame
        (w : World) (opportunity : Opportunity.t) (position_size_pct : Q)
        (strategy_id strategy_name : option string) (p : Position.t) :
  let self := trader w in
  let key := position_key (Opportunity.market_id opportunity) (Opportunity.side opportunity) in
  let fill_price := Opportunity.entry_price opportunity in
  let fill_size := get_equity self * position_size_pct / fill_price in
  dict_lookup (positions self) key = Some p ->
  ~ fill_price == 0 ->
  get_equity self * position_size_pct <= capital self ->
  ~ Position.size p + fill_size == 0 ->
  let r := place_order utcnow_at opportunity position_size_pct strategy_id strategy_name w in
  exists p',
    dict_lookup (positions (trader (snd r))) key = Some p' /\
    Position.id p' = Position.id p /\
    Position.market_id p' = Position.market_id p /\
    Position.side p' = Position.side p /\
    Position.strategy_id p' = Position.strategy_id p /\
    Position.strategy_name p' = Position.strategy_name p /\
    Position.stop_loss p' = Position.stop_loss p /\
    Position.take_profit p' = Position.take_profit p /\
    Position.opened_at p' = Position.opened_at p /\
    Position.realized_pnl p' = Position.realized_pnl p /\
    Position.closed_at p' = Position.closed_at p /\
    Position.current_price p' = fill_price /\
    Position.unrealized_pnl p'
    = match Position.side p with
      | LONG => (fill_price - Position.entry_price p') * Position.size p'
      | SHORT => (Position.entry_price p' - fill_price) * Position.size p'
      end /\
    map fst (positions (trader (snd r))) = map fst (positions self).
Proof.
  intros self key fill_price fill_size Hp NZ Hcap Hsum r.
  subst r. rewrite (place_order_increase w opportunity position_size_pct
                      strategy_id strategy_name p Hp NZ Hcap Hsum).
  simpl. exists (merged_position p fill_price fill_size).
  split; [apply dict_lookup_set_same | ].
  repeat split.
  apply (dict_set_keys _ _ _ _ Hp).
Qed.

End IncreaseFacts.


(** The same two fills: the merged position keeps the stop-loss 0.30 and
    take-profit 0.80 of the first opportunity although the second one
    carries 0.50 and 0.90, and keeps the first strategy attribution. *)
Lemma increase_keeps_position_frame_witness :
  let r := place_order clock (opp_at (6 # 10) (Some (5 # 10)) (Some (9 # 10)))
                       (1 # 16) (Some "s2"%string) (Some "s2"%string) world_open_10 in
  exists p',
    dict_lookup (positions (trader (snd r))) "m_YES" = Some p' /\
    Position.stop_loss p' = Some (3 # 10) /\
    Position.take_profit p' = Some (8 # 10) /\
    Position.strategy_id p' = Some "s1"%string /\
    Position.strategy_name p' = Some "s1"%string /\
    Position.side p' = LONG /\
    Position.opened_at p' = 3%Z.
Proof.
  cbv zeta.
  edestruct (increase_keeps_position_frame clock world_open_10
               (opp_at (6 # 10) (Some (5 # 10)) (Some (9 # 10))) (1 # 16)
               (Some "s2"%string) (Some "s2"%string))
    as [p' [Hl [_ [_ [Hside [Hsid [Hsn [Hsl [Htp [Hop _]]]]]]]]]].
  - vm_compute; reflexivity.
  - discriminate.
  - vm_compute; discriminate.
  - vm_compute; discriminate.
  - exists p'. split; [exact Hl | ].
    rewrite Hsl, Htp, Hsid, Hsn, Hside, Hop. repeat split.
Defined.

(** ** Capital conservation *)

Lemma sum_over_app (g : Fill -> Q) (l1 l2 : list Fill) :
  sum_over g (l1 ++ l2) == sum_over g l1 + sum_over g l2.
Proof.
  induction l1 as [|f r IH]; simpl; [ring | ]. rewrite IH. ring.
Qed.

Section Conservation.

Variable utcnow_at : nat -> Z.
Variable orderbook_at : nat -> string -> option OrderBook.t.
Variable ok : Fill -> bool.

(** A computation that leaves capital and journal alone. *)
Lemma conserves_frame {A : Type} (m : M A) :
  (forall w, journal (snd (m w)) = journal w /\
             capital (trader (snd (m w))) = capital (trader w)) ->
  conserves ok m.
Proof.
  intros H w. destruct (H w) as [J C]. exists [].
  rewrite app_nil_r, C. simpl. repeat split; auto. ring.
Qed.

Lemma conserves_ret {A : Type} (a : A) : conserves ok (ret a).
Proof. apply conserves_frame; intros w; split; reflexivity. Qed.

Lemma conserves_lift {A : Type} (r : Decimal.signal + A) : conserves ok (lift r).
Proof. apply conserves_frame; intros w; split; reflexivity. Qed.

Lemma conserves_get_self : conserves ok get_self.
Proof. apply conserves_frame; intros w; split; reflexivity. Qed.

Lemma conserves_utcnow : conserves ok (utcnow utcnow_at).
Proof. apply conserves_frame; intros w; split; reflexivity. Qed.

Lemma conserves_get_orderbook (market_id : string) :
  conserves ok (get_orderbook orderbook_at market_id).
Proof. apply conserves_frame; intros w; split; reflexivity. Qed.

Lemma conserves_modify (f : t -> t) :
  (forall self, capital (f self) = capital self) -> conserves ok (modify_self f).
Proof. intros H. apply conserves_frame; intros w; split; simpl; auto. Qed.

Lemma conserves_bind {A B : Type} (m : M A) (k : A -> M B) :
  conserves ok m -> (forall a, conserves ok (k a)) -> conserves ok (bind m k).
Proof.
  intros Hm Hk w. unfold bind.
  destruct (Hm w) as [f1 [J1 [O1 C1]]].
  destruct (m w) as [[e | a] w1]; simpl in *.
  - exists f1. auto.
  - destruct (Hk a w1) as [f2 [J2 [O2 C2]]].
    exists (f1 ++ f2). rewrite J2, J1, app_assoc, forallb_app, O1, O2.
    repeat split; auto.
    rewrite C2, C1, !sum_over_app. ring.
Qed.

Lemma conserves_try_except (m : M unit) : conserves ok m -> conserves ok (try_except m).
Proof.
  intros Hm w. unfold try_except. destruct (Hm w) as [f [J [O C]]].
  destruct (m w) as [[e | u] w1]; exists f; auto.
Qed.

Lemma conserves_for_each {A : Type} (l : list A) (body : A -> M unit) :
  (forall x, conserves ok (body x)) -> conserves ok (for_each l body).
Proof.
  intros Hb. induction l as [|x r IH]; simpl.
  - apply conserves_ret.
  - apply conserves_bind; auto.
Qed.

(** The two places where the source assigns to [self.capital]. *)
Lemma conserves_debit {A : Type} (cost : Q) (o : Order.t) (k : M A) :
  ok (Opened o) = true -> open_cost (Opened o) == cost ->
  conserves ok k ->
  conserves ok
    (bind (modify_self (fun self => set_capital self (capital self - cost)))
          (fun _ => bind (record_fill (Opened o)) (fun _ => k))).
Proof.
  intros Hok Hc Hk w. unfold bind, modify_self, record_fill. simpl.
  destruct (Hk (mkWorld (set_capital (trader w) (capital (trader w) - cost))
                        (calls w) (journal w ++ [Opened o])))
    as [f [J [O C]]].
  exists (Opened o :: f). rewrite J, C. simpl journal. simpl capital.
  rewrite <- app_assoc. simpl. rewrite Hok, O.
  repeat split; auto.
  simpl in Hc. rewrite Hc. ring.
Qed.

Lemma conserves_credit {A : Type} (proceeds : Q) (p : Position.t) (k : M A) :
  ok (Closed p) = true -> close_proceeds (Closed p) == proceeds ->
  conserves ok k ->
  conserves ok
    (bind (modify_self (fun self => set_capital self (capital self + proceeds)))
          (fun _ => bind (record_fill (Closed p)) (fun _ => k))).
Proof.
  intros Hok Hc Hk w. unfold bind, modify_self, record_fill. simpl.
  destruct (Hk (mkWorld (set_capital (trader w) (capital (trader w) + proceeds))
                        (calls w) (journal w ++ [Closed p])))
    as [f [J [O C]]].
  exists (Closed p :: f). rewrite J, C. simpl journal. simpl capital.
  rewrite <- app_assoc. simpl. rewrite Hok, O.
  repeat split; auto.
  simpl in Hc. rewrite Hc. ring.
Qed.

End Conservation.

Create HintDb ledger.

#[export] Hint Resolve conserves_ret conserves_lift conserves_get_self
  conserves_utcnow conserves_get_orderbook conserves_try_except : ledger.

(** Walk down a ledger computation: binds, then the case analyses of the
    source, then the leaves; capital assignments are met by the caller. *)
Ltac conserve_step :=
  first
    [ apply conserves_debit; [reflexivity || assumption || auto | simpl; reflexivity | ]
    | apply conserves_credit; [reflexivity || assumption || auto | simpl; reflexivity | ]
    | apply conserves_bind; [ | intros ? ]
    | apply conserves_modify; intros; reflexivity
    | solve [auto with ledger]
    | match goal with
      | |- conserves _ (match ?x with _ => _ end) => destruct x
      | |- conserves _ (let '(_, _) := ?x in _) => destruct x
      end ].

Ltac conserve := repeat conserve_step.

Section LedgerConserves.

Variable utcnow_at : nat -> Z.
Variable orderbook_at : nat -> string -> option OrderBook.t.

Lemma execute_order_conserves (ok : Fill -> bool) (order : Order.t)
      (opportunity : Opportunity.t) (strategy_id strategy_name : option string) :
  (forall o, ok (Opened o) = true) ->
  conserves ok (_execute_order utcnow_at order opportunity strategy_id strategy_name).
Proof.
  intros Hok. unfold _execute_order. conserve.
Qed.

Lemma place_order_conserves (ok : Fill -> bool) (opportunity : Opportunity.t)
      (position_size_pct : Q) (strategy_id strategy_name : option string) :
  (forall o, ok (Opened o) = true) ->
  conserves ok (place_order utcnow_at opportunity position_size_pct
                            strategy_id strategy_name).
Proof.
  intros Hok. unfold place_order. conserve.
Qed.

Lemma close_position_conserves (ok : Fill -> bool) (position_id reason : string) :
  (forall p, ok (Closed p) = true) ->
  conserves ok (close_position utcnow_at orderbook_at position_id reason).
Proof.
  intros Hok. unfold close_position. conserve.
Qed.

Lemma check_exit_conserves (ok : Fill -> bool) (position : Position.t) (current_price : Q) :
  (forall p, ok (Closed p) = true) ->
  conserves ok (_check_exit_conditions utcnow_at orderbook_at position current_price).
Proof.
  intros Hok. unfold _check_exit_conditions.
  destruct (exit_decision position current_price) as [should_close reason].
  destruct should_close; conserve.
Qed.

Lemma update_positions_conserves (ok : Fill -> bool) :
  (forall p, ok (Closed p) = true) ->
  conserves ok (update_positions utcnow_at orderbook_at).
Proof.
  intros Hok. unfold update_positions.
  apply conserves_bind; [auto with ledger | intros self].
  apply conserves_for_each. intros [position_id position].
  apply conserves_try_except. unfold refresh_position. conserve.
  - unfold store_position. apply conserves_modify. intros self0.
    destruct (dict_lookup (positions self0) position_id); reflexivity.
  - apply check_exit_conserves; exact Hok.
Qed.

End LedgerConserves.

Lemma closes_have_no_open_cost (l : list Fill) :
  forallb is_close l = true -> sum_over open_cost l == 0.
Proof.
  induction l as [|f r IH]; simpl; intros H; [reflexivity | ].
  apply andb_true_iff in H. destruct H as [Hf Hr].
  destruct f; [discriminate | ]. simpl. rewrite (IH Hr). ring.
Qed.

Section Runs.

Variable utcnow_at : nat -> Z.
Variable orderbook_at : nat -> string -> option OrderBook.t.

(** What a placement journals, by what it returns: an order returned is
    the one fill journalled and its cost is what left the capital; a
    refusal leaves the world as it was. *)
Lemma place_order_journal (w : World) (opportunity : Opportunity.t)
      (position_size_pct : Q) (strategy_id strategy_name : option string) :
  let r := place_order utcnow_at opportunity position_size_pct
                       strategy_id strategy_name w in
  match fst r with
  | inr (Some order) =>
      journal (snd r) = journal w ++ [Opened order] /\
      capital (trader (snd r))
      = capital (trader w) - Order.price order * Order.filled_size order /\
      Order.price order = Opportunity.entry_price opportunity
  | inr None => snd r = w
  | inl _ => True
  end.
Proof.
  cbv zeta. unfold place_order, bind, get_self, lift.
  destruct (Decimal.div _ _) as [e | size]; simpl; [exact I | ].
  destruct (Decimal.gtb _ _); simpl; [reflexivity | ].
  unfold _execute_order, bind, utcnow, modify_self, record_fill, get_self, lift, ret.
  simpl.
  destruct (dict_lookup _ _) as [p | ]; simpl.
  - destruct (Decimal.div _ _) as [e | entry]; simpl; [exact I | ].
    repeat split.
  - repeat split.
Qed.

(** What a close journals, by what it returns. *)
Lemma close_position_journal (w : World) (position_id reason : string) :
  let r := close_position utcnow_at orderbook_at position_id reason w in
  match fst r with
  | inr (Some p) =>
      journal (snd r) = journal w ++ [Closed p] /\
      capital (trader (snd r))
      = capital (trader w) + Position.current_price p * Position.size p
  | _ => journal (snd r) = journal w /\ trader (snd r) = trader w
  end.
Proof.
  cbv zeta. unfold close_position, bind, get_self, get_orderbook. simpl.
  destruct (dict_lookup _ _) as [p | ]; simpl; [ | auto].
  destruct (orderbook_at _ _) as [ob | ]; simpl; [ | auto].
  destruct (best_price_for _ _) as [exit_price | ]; simpl; [ | auto].
  destruct (Decimal.truthy exit_price); simpl; auto.
Qed.

Lemma run_op_conserves (op : Op) (w : World) :
  exists fills,
    journal (run_op utcnow_at orderbook_at op w) = journal w ++ fills /\
    capital (trader (run_op utcnow_at orderbook_at op w))
    == capital (trader w) - sum_over open_cost fills + sum_over close_proceeds fills.
Proof.
  destruct op as [o pct sid sname | pid reason | | ]; simpl.
  - destruct (place_order_conserves utcnow_at any_fill o pct sid sname
                (fun _ => eq_refl) w) as [f [J [_ C]]]. eauto.
  - destruct (close_position_conserves utcnow_at orderbook_at any_fill pid reason
                (fun _ => eq_refl) w) as [f [J [_ C]]]. eauto.
  - destruct (update_positions_conserves utcnow_at orderbook_at any_fill
                (fun _ => eq_refl) w) as [f [J [_ C]]]. eauto.
  - exists []. rewrite app_nil_r. simpl. split; [reflexivity | ring].
Qed.


End Runs.


(** ** The merge needs a non-zero merged size *)

(** When the old size and the fill size cancel, the quotient of the merge
    raises after the capital was debited: no merged position comes to
    exist, the open set and the trade history are as before. *)
Lemma place_order_increase_zero_total
      (utcnow_at : nat -> Z) (w : World) (opportunity : Opportunity.t)
      (position_size_pct : Q) (strategy_id strategy_name : option string)
      (p : Position.t) :
  let self := trader w in
  let key := position_key (Opportunity.market_id opportunity) (Opportunity.side opportunity) in
  let price := Opportunity.entry_price opportunity in
  let value := get_equity self * position_size_pct in
  dict_lookup (positions self) key = Some p ->
  ~ price == 0 ->
  value <= capital self ->
  Position.size p + value / price == 0 ->
  let r := place_order utcnow_at opportunity position_size_pct strategy_id strategy_name w in
  (exists e, fst r = inl e) /\
  positions (trader (snd r)) = positions self /\
  trade_history (trader (snd r)) = trade_history self /\
  capital (trader (snd r)) = capital self - price * (value / price).
Proof.
  intros self key price value Hp NZ Hcap Hsum r. subst r.
  unfold place_order, bind, get_self, lift.
  fold self. fold price. fold value.
  rewrite (div_nonzero _ _ NZ).
  assert (G : Decimal.gtb value (capital self) = false)
    by (apply ltb_false_iff; exact Hcap).
  rewrite G.
  unfold _execute_order, bind, utcnow, modify_self, record_fill, get_self, lift, ret.
  simpl. fold key. fold self. rewrite Hp.
  unfold Decimal.div.
  assert (Z0 : Qeq_bool (Position.size p + value / price) 0 = true)
    by (apply Qeq_bool_iff; exact Hsum).
  rewrite Z0.
  destruct (Qeq_bool (Position.entry_price p * Position.size p
                      + price * (value / price)) 0);
    simpl; repeat split; eexists; reflexivity.
Qed.

(** ** The open set stays a dict keyed by position id *)

Lemma dict_set_in_keys {V : Type} (d : list (string * V)) (k k' : string) (v : V) :
  In k' (map fst (dict_set d k v)) -> k' = k \/ In k' (map fst d).
Proof.
  induction d as [|[k0 v0] r IH]; simpl.
  - intros [E | []]; auto.
  - destruct (String.eqb k0 k) eqn:E; simpl; [tauto | ].
    intros [E' | I]; [tauto | ]. destruct (IH I); tauto.
Qed.

Lemma dict_set_nodup {V : Type} (d : list (string * V)) (k : string) (v : V) :
  NoDup (map fst d) -> NoDup (map fst (dict_set d k v)).
Proof.
  induction d as [|[k0 v0] r IH]; simpl; intros ND.
  - repeat constructor. intros [].
  - inversion ND as [|? ? Hnotin ND']; subst.
    destruct (String.eqb k0 k) eqn:E; simpl; [constructor; auto | ].
    constructor; [ | auto].
    intros I. apply dict_set_in_keys in I. destruct I as [E' | I]; [ | contradiction].
    subst k0. rewrite String.eqb_refl in E. discriminate.
Qed.

Lemma dict_set_forall {V : Type} (P : string * V -> Prop)
      (d : list (string * V)) (k : string) (v : V) :
  P (k, v) -> Forall P d -> Forall P (dict_set d k v).
Proof.
  intros Pv F. induction d as [|[k0 v0] r IH]; simpl.
  - repeat constructor. exact Pv.
  - inversion F as [|? ? P0 F']; subst.
    destruct (String.eqb k0 k) eqn:E.
    + apply String.eqb_eq in E. subst k0. constructor; auto.
    + constructor; auto.
Qed.

Lemma dict_del_in_keys {V : Type} (d : list (string * V)) (k k' : string) :
  In k' (map fst (dict_del d k)) -> In k' (map fst d).
Proof.
  induction d as [|[k0 v0] r IH]; simpl; [tauto | ].
  destruct (String.eqb k0 k); simpl; tauto.
Qed.

Lemma dict_del_nodup {V : Type} (d : list (string * V)) (k : string) :
  NoDup (map fst d) -> NoDup (map fst (dict_del d k)).
Proof.
  induction d as [|[k0 v0] r IH]; simpl; intros ND; [constructor | ].
  inversion ND as [|? ? Hnotin ND']; subst.
  destruct (String.eqb k0 k); simpl; [exact ND' | ].
  constructor; [ | auto]. intros I. apply dict_del_in_keys in I. contradiction.
Qed.

Lemma dict_del_forall {V : Type} (P : string * V -> Prop)
      (d : list (string * V)) (k : string) :
  Forall P d -> Forall P (dict_del d k).
Proof.
  induction d as [|[k0 v0] r IH]; simpl; intros F; [constructor | ].
  inversion F as [|? ? P0 F']; subst.
  destruct (String.eqb k0 k); [exact F' | constructor; auto].
Qed.

Lemma dict_lookup_forall {V : Type} (P : string * V -> Prop)
      (d : list (string * V)) (k : string) (v : V) :
  Forall P d -> dict_lookup d k = Some v -> P (k, v).
Proof.
  induction d as [|[k0 v0] r IH]; simpl; intros F; [discriminate | ].
  inversion F as [|? ? P0 F']; subst.
  destruct (String.eqb k0 k) eqn:E; [ | auto].
  apply String.eqb_eq in E. subst k0. intros H; inversion H; subst; exact P0.
Qed.

Lemma wf_set_position (self : t) (k : string) (p : Position.t) :
  positions_wf self -> Position.id p = k ->
  positions_wf (set_positions self (dict_set (positions self) k p)).
Proof.
  intros [ND F] Hid. split; simpl.
  - apply dict_set_nodup; exact ND.
  - apply dict_set_forall; auto.
Qed.

Lemma wf_del_position (self : t) (k : string) :
  positions_wf self -> positions_wf (set_positions self (dict_del (positions self) k)).
Proof.
  intros [ND F]. split; simpl.
  - apply dict_del_nodup; exact ND.
  - apply dict_del_forall; exact F.
Qed.

Section KeepsWf.

Variable utcnow_at : nat -> Z.
Variable orderbook_at : nat -> string -> option OrderBook.t.

Lemma keeps_frame {A : Type} (m : M A) :
  (forall w, positions (trader (snd (m w))) = positions (trader w)) -> keeps_wf m.
Proof.
  intros H w WF. unfold positions_wf in *. rewrite H. exact WF.
Qed.

Lemma keeps_modify (f : t -> t) :
  (forall self, positions_wf self -> positions_wf (f self)) -> keeps_wf (modify_self f).
Proof. intros H w WF. simpl. auto. Qed.

Lemma keeps_bind {A B : Type} (m : M A) (k : A -> M B) :
  keeps_wf m -> (forall a, keeps_wf (k a)) -> keeps_wf (bind m k).
Proof.
  intros Hm Hk w WF. unfold bind. specialize (Hm w WF).
  destruct (m w) as [[e | a] w1]; simpl in *; [exact Hm | ].
  apply Hk; exact Hm.
Qed.

Lemma keeps_try_except (m : M unit) : keeps_wf m -> keeps_wf (try_except m).
Proof.
  intros Hm w WF. unfold try_except. specialize (Hm w WF).
  destruct (m w) as [[e | u] w1]; exact Hm.
Qed.

Lemma keeps_close_position (position_id reason : string) :
  keeps_wf (close_position utcnow_at orderbook_at position_id reason).
Proof.
  unfold close_position.
  repeat first
    [ apply keeps_bind; [ | intros ? ]
    | apply keeps_frame; intros; reflexivity
    | apply keeps_modify; intros ? ?; first [assumption | apply wf_del_position; assumption]
    | match goal with
      | |- keeps_wf (match ?x with _ => _ end) => destruct x
      end ].
Qed.

Lemma keeps_refresh_position (position_id : string) (position : Position.t) :
  Position.id position = position_id ->
  keeps_wf (refresh_position utcnow_at orderbook_at (position_id, position)).
Proof.
  intros Hid. unfold refresh_position.
  apply keeps_bind; [apply keeps_frame; intros; reflexivity | intros orderbook].
  destruct orderbook as [orderbook | ]; [ | apply keeps_frame; intros; reflexivity].
  destruct (best_price_for _ _) as [current_price | ];
    [ | apply keeps_frame; intros; reflexivity].
  destruct (Decimal.truthy current_price); [ | apply keeps_frame; intros; reflexivity].
  apply keeps_bind.
  - unfold store_position. apply keeps_modify. intros self WF.
    destruct (dict_lookup (positions self) position_id); [ | exact WF].
    apply wf_set_position; [exact WF | exact Hid].
  - intros _. unfold _check_exit_conditions.
    destruct (exit_decision _ _) as [should_close reason].
    destruct should_close; [ | apply keeps_frame; intros; reflexivity].
    apply keeps_bind; [apply keeps_close_position | ].
    intros _. apply keeps_frame; intros; reflexivity.
Qed.

Lemma keeps_refresh_loop (items : list (string * Position.t)) :
  Forall (fun kv => Position.id (snd kv) = fst kv) items ->
  keeps_wf (for_each items
              (fun item => try_except (refresh_position utcnow_at orderbook_at item))).
Proof.
  induction items as [|[k p] r IH]; intros F; simpl.
  - apply keeps_frame; intros; reflexivity.
  - inversion F as [|? ? Hkp F']; subst. simpl in Hkp.
    apply keeps_bind; [ | intros _; apply IH; exact F'].
    apply keeps_try_except, keeps_refresh_position; exact Hkp.
Qed.

Lemma keeps_update_positions : keeps_wf (update_positions utcnow_at orderbook_at).
Proof.
  intros w WF. unfold update_positions, bind, get_self. simpl.
  apply keeps_refresh_loop; [destruct WF; assumption | exact WF].
Qed.

Lemma keeps_place_order (opportunity : Opportunity.t) (position_size_pct : Q)
      (strategy_id strategy_name : option string) :
  keeps_wf (place_order utcnow_at opportunity position_size_pct strategy_id strategy_name).
Proof.
  intros w WF. unfold place_order, bind, get_self, lift.
  destruct (Decimal.div _ _) as [e | size]; simpl; [exact WF | ].
  destruct (Decimal.gtb _ _); simpl; [exact WF | ].
  unfold _execute_order, bind, utcnow, modify_self, record_fill, get_self, lift, ret.
  simpl.
  destruct (dict_lookup _ _) as [p | ] eqn:L; simpl.
  - destruct (Decimal.div _ _) as [e | entry]; simpl; [exact WF | ].
    apply (wf_set_position (set_capital (trader w) _)); [exact WF | ].
    destruct WF as [_ F]. simpl.
    apply (dict_lookup_forall _ _ _ _ F L).
  - apply (wf_set_position (set_capital (trader w) _)); [exact WF | reflexivity].
Qed.

(** Every ledger reached from a well-formed one is well formed: the value
    an iteration of [update_positions] took at loop entry is the object
    the dict still holds under that key. *)
Lemma run_keeps_wf (ops : list Op) (w : World) :
  positions_wf (trader w) -> positions_wf (trader (run utcnow_at orderbook_at ops w)).
Proof.
  revert w. unfold run. induction ops as [|op r IH]; intros w WF; simpl; [exact WF | ].
  apply IH. destruct op as [o pct sid sname | pid reason | | ]; simpl.
  - apply keeps_place_order; exact WF.
  - apply keeps_close_position; exact WF.
  - apply keeps_update_positions; exact WF.
  - exact WF.
Qed.

End KeepsWf.

(** * Further properties of the order-book view *)

Import OrderBookMetrics.

Lemma max_from_bounds (l : list Q) :
  forall m, m <= Decimal.max_from m l /\ Forall (fun x => x <= Decimal.max_from m l) l.
Proof.
  induction l as [|x r IH]; intros m; simpl.
  - split; [apply Qle_refl | constructor].
  - destruct (IH (if Decimal.ltb m x then x else m)) as [Hm Hr].
    destruct (Decimal.ltb m x) eqn:E.
    + apply ltb_true_iff in E. split; [lra | constructor; auto].
    + apply ltb_false_iff in E. split; [exact Hm | constructor; [lra | auto]].
Qed.

Lemma min_from_bounds (l : list Q) :
  forall m, Decimal.min_from m l <= m /\ Forall (fun x => Decimal.min_from m l <= x) l.
Proof.
  induction l as [|x r IH]; intros m; simpl.
  - split; [apply Qle_refl | constructor].
  - destruct (IH (if Decimal.ltb x m then x else m)) as [Hm Hr].
    destruct (Decimal.ltb x m) eqn:E.
    + apply ltb_true_iff in E. split; [lra | constructor; auto].
    + apply ltb_false_iff in E. split; [exact Hm | constructor; [lra | auto]].
Qed.

Lemma max_default_bounds (l : list Q) (b : Q) :
  Decimal.max_default l = Some b -> Forall (fun x => x <= b) l.
Proof.
  destruct l as [|x r]; simpl; intros E; inversion E; subst.
  destruct (max_from_bounds r x) as [Hx Hr]. constructor; auto.
Qed.

Lemma min_default_bounds (l : list Q) (a : Q) :
  Decimal.min_default l = Some a -> Forall (fun x => a <= x) l.
Proof.
  destruct l as [|x r]; simpl; intros E; inversion E; subst.
  destruct (min_from_bounds r x) as [Hx Hr]. constructor; auto.
Qed.

(** X1: the best bid is a bid price of the side and no bid of the side is
    priced higher; the best ask is an ask price and no ask is priced
    lower; the best YES and NO prices of models.py are the best YES and
    NO bids of the view. *)
Theorem best_prices_extremal (ob : OrderBook.t) (side : string) :
  let r := get_best_bid_ask ob side in
  (forall b, best_bid r = Some b ->
             In b (map OrderBookEntry.price (side_bids ob side)) /\
             Forall (fun e => OrderBookEntry.price e <= b) (side_bids ob side)) /\
  (forall a, best_ask r = Some a ->
             In a (map OrderBookEntry.price (side_asks ob side)) /\
             Forall (fun e => a <= OrderBookEntry.price e) (side_asks ob side)) /\
  OrderBook.get_best_yes_price ob = best_bid (get_best_bid_ask ob "YES") /\
  OrderBook.get_best_no_price ob = best_bid (get_best_bid_ask ob "NO").
Proof.
  cbv zeta. rewrite !best_bid_of, best_ask_of.
  split; [ | split; [ | split]].
  - intros b E. split; [apply max_default_in; exact E | ].
    apply max_default_bounds in E. rewrite Forall_map in E. exact E.
  - intros a E. split; [apply min_default_in; exact E | ].
    apply min_default_bounds in E. rewrite Forall_map in E. exact E.
  - unfold OrderBook.get_best_yes_price, side_bids. simpl.
    destruct (OrderBook.yes_bids ob); reflexivity.
  - unfold OrderBook.get_best_no_price, side_bids. simpl.
    destruct (OrderBook.no_bids ob); reflexivity.
Qed.

(** Sums of Decimals. *)
Lemma sum_from (l : list Q) : forall a, fold_left Qplus l a == a + Decimal.sum l.
Proof.
  unfold Decimal.sum. induction l as [|x r IH]; intros a; simpl; [ring | ].
  rewrite (IH (a + x)), (IH (0 + x)). ring.
Qed.

Lemma sum_cons (x : Q) (l : list Q) : Decimal.sum (x :: l) == x + Decimal.sum l.
Proof. unfold Decimal.sum at 1. simpl. rewrite sum_from. ring. Qed.

Lemma sum_nonneg (l : list Q) : Forall (fun x => 0 <= x) l -> 0 <= Decimal.sum l.
Proof.
  induction 1 as [|x r Hx Hr IH]; [apply Qle_refl | ].
  rewrite sum_cons. lra.
Qed.

Lemma total_size_nonneg (entries : list OrderBookEntry.t) :
  Forall (fun e => 0 <= OrderBookEntry.size e) entries -> 0 <= total_size entries.
Proof.
  intros F. apply sum_nonneg. rewrite Forall_map. exact F.
Qed.

(** X2: with no negative size on the side, the imbalance lies in [-1, 1];
    it is 0 when the side's total size is 0 (in particular on an empty
    side), without a division error. *)
Theorem imbalance_bounds (ob : OrderBook.t) (side : string) :
  Forall (fun e => 0 <= OrderBookEntry.size e) (side_bids ob side) ->
  Forall (fun e => 0 <= OrderBookEntry.size e) (side_asks ob side) ->
  - (1) <= get_imbalance ob side <= 1 /\
  (total_size (side_bids ob side) + total_size (side_asks ob side) == 0 ->
   get_imbalance ob side = 0).
Proof.
  intros Fb Fa. apply total_size_nonneg in Fb. apply total_size_nonneg in Fa.
  unfold get_imbalance.
  set (b := total_size (side_bids ob side)) in *.
  set (a := total_size (side_asks ob side)) in *.
  destruct (Qeq_bool (b + a) 0) eqn:E.
  - split; [split; discriminate | reflexivity].
  - assert (N : ~ b + a == 0) by (intro H; apply Qeq_bool_iff in H; congruence).
    assert (P : 0 < b + a) by (apply Qle_lt_or_eq in Fb; apply Qle_lt_or_eq in Fa; lra).
    split; [ | intros H; contradiction].
    split.
    + apply Qle_shift_div_l; [exact P | lra].
    + apply Qle_shift_div_r; [exact P | lra].
Qed.

Lemma imbalance_bounds_witness :
  - (1) <= get_imbalance book_buy "YES" <= 1.
Proof.
  apply (imbalance_bounds book_buy "YES").
  - repeat constructor; discriminate.
  - repeat constructor; discriminate.
Defined.

Lemma firstn_sorted {A : Type} (R : A -> A -> Prop) (l : list A) :
  Sorted R l -> forall n, Sorted R (firstn n l).
Proof.
  induction 1 as [|x l Sl IH Hd]; intros n; destruct n; simpl; try constructor; auto.
  destruct Hd as [|y r Hxy]; destruct n; simpl; constructor; auto.
Qed.

Lemma slice_to_prefix {A : Type} (l : list A) (n : Z) :
  exists rest, l = slice_to l n ++ rest.
Proof.
  unfold slice_to. destruct (0 <=? n)%Z; eexists; symmetry; apply firstn_skipn.
Qed.

Lemma slice_to_sorted {A : Type} (R : A -> A -> Prop) (l : list A) (n : Z) :
  Sorted R l -> Sorted R (slice_to l n).
Proof.
  intros S. unfold slice_to. destruct (0 <=? n)%Z; apply firstn_sorted; exact S.
Qed.

Lemma slice_to_length {A : Type} (l : list A) (n : Z) :
  (0 <= n)%Z -> (Z.of_nat (List.length (slice_to l n)) <= n)%Z.
Proof.
  intros H. unfold slice_to.
  assert (E : (0 <=? n)%Z = true) by (apply Z.leb_le; exact H).
  rewrite E. rewrite length_firstn. lia.
Qed.

Lemma sorted_map {A B : Type} (f : A -> B) (R : A -> A -> Prop) (R' : B -> B -> Prop)
      (l : list A) :
  (forall x y, R x y -> R' (f x) (f y)) -> Sorted R l -> Sorted R' (map f l).
Proof.
  intros H. induction 1 as [|x l Sl IH Hd]; simpl; constructor; auto.
  destruct Hd; simpl; constructor; auto.
Qed.

Lemma price_gt_asym (x y : OrderBookEntry.t) :
  price_gt x y = true -> price_gt y x = false.
Proof.
  unfold price_gt, Decimal.gtb. rewrite ltb_true_iff, ltb_false_iff. apply Qlt_le_weak.
Qed.

(** X3: [get_depth] returns, for the bids, a prefix of the side's bids in
    descending price order and, for the asks, a prefix of the side's asks
    in ascending price order; for [levels >= 0] neither list is longer
    than [levels]; every level returned is an entry of the book. *)
Theorem depth_sorted_prefix (ob : OrderBook.t) (side : string) (levels : Z) :
  let d := get_depth ob side levels in
  Sorted (fun x y => fst y <= fst x) (bids d) /\
  Sorted (fun x y => fst x <= fst y) (asks d) /\
  (exists rest, map level (stable_sort price_gt (side_bids ob side)) = bids d ++ rest) /\
  (exists rest, map level (stable_sort MarketImpact.price_lt (side_asks ob side))
                = asks d ++ rest) /\
  incl (bids d) (map level (side_bids ob side)) /\
  incl (asks d) (map level (side_asks ob side)) /\
  ((0 <= levels)%Z ->
   (Z.of_nat (List.length (bids d)) <= levels)%Z /\
   (Z.of_nat (List.length (asks d)) <= levels)%Z).
Proof.
  cbv zeta. unfold get_depth. simpl.
  pose proof (stable_sort_sorted price_gt price_gt_asym (side_bids ob side)) as Sb.
  pose proof (stable_sort_sorted MarketImpact.price_lt price_lt_asym (side_asks ob side)) as Sa.
  pose proof (stable_sort_perm price_gt (side_bids ob side)) as Pb.
  pose proof (stable_sort_perm MarketImpact.price_lt (side_asks ob side)) as Pa.
  destruct (slice_to_prefix (stable_sort price_gt (side_bids ob side)) levels) as [rb Eb].
  destruct (slice_to_prefix (stable_sort MarketImpact.price_lt (side_asks ob side)) levels)
    as [ra Ea].
  repeat split.
  - apply (sorted_map level (may_precede price_gt)); [ | apply slice_to_sorted; exact Sb].
    intros x y H. unfold may_precede, price_gt, Decimal.gtb in H.
    apply ltb_false_iff in H. exact H.
  - apply (sorted_map level (may_precede MarketImpact.price_lt));
      [ | apply slice_to_sorted; exact Sa].
    intros x y H. unfold may_precede, MarketImpact.price_lt in H.
    apply ltb_false_iff in H. exact H.
  - exists (map level rb). rewrite <- map_app, <- Eb. reflexivity.
  - exists (map level ra). rewrite <- map_app, <- Ea. reflexivity.
  - intros x Hx. apply in_map_iff in Hx. destruct Hx as [e [E I]].
    apply in_map_iff. exists e. split; [exact E | ].
    apply (Permutation_in _ (Permutation_sym Pb)). rewrite Eb.
    apply in_or_app; left; exact I.
  - intros x Hx. apply in_map_iff in Hx. destruct Hx as [e [E I]].
    apply in_map_iff. exists e. split; [exact E | ].
    apply (Permutation_in _ (Permutation_sym Pa)). rewrite Ea.
    apply in_or_app; left; exact I.
  - rewrite length_map. apply slice_to_length; assumption.
  - rewrite length_map. apply slice_to_length; assumption.
Qed.

Lemma sum_filter_le (f : OrderBookEntry.t -> bool) (entries : list OrderBookEntry.t) :
  Forall (fun e => 0 <= OrderBookEntry.size e) entries ->
  0 <= Decimal.sum (map OrderBookEntry.size (filter f entries)) <= total_size entries.
Proof.
  unfold total_size.
  induction 1 as [|e r He Hr IH]; simpl.
  - split; apply Qle_refl.
  - rewrite sum_cons. destruct (f e); simpl; [rewrite sum_cons | ]; lra.
Qed.

(** X4: with no negative size on the side, the liquidity dict always has
    "bid_liquidity" and "ask_liquidity", each between 0 and the side's
    total bid (ask) size; it has "total_liquidity", the sum of the two,
    exactly when the mid is defined and non-zero; without such a mid the
    two liquidities are 0 and the key "total_liquidity" is missing. *)
Theorem liquidity_in_band_bounds (ob : OrderBook.t) (side : string) (depth_pct : Q) :
  Forall (fun e => 0 <= OrderBookEntry.size e) (side_bids ob side) ->
  Forall (fun e => 0 <= OrderBookEntry.size e) (side_asks ob side) ->
  let d := get_liquidity ob side depth_pct in
  exists b a,
    dict_lookup d "bid_liquidity" = Some b /\
    dict_lookup d "ask_liquidity" = Some a /\
    0 <= b <= total_size (side_bids ob side) /\
    0 <= a <= total_size (side_asks ob side) /\
    match mid_price (get_best_bid_ask ob side) with
    | Some m =>
        (~ m == 0 -> dict_lookup d "total_liquidity" = Some (b + a)) /\
        (m == 0 -> dict_lookup d "total_liquidity" = None /\ b = 0 /\ a = 0)
    | None => dict_lookup d "total_liquidity" = None /\ b = 0 /\ a = 0
    end.
Proof.
  intros Fb Fa d. subst d. unfold get_liquidity.
  pose proof (total_size_nonneg _ Fb) as Tb. pose proof (total_size_nonneg _ Fa) as Ta.
  destruct (mid_price (get_best_bid_ask ob side)) as [m|].
  - destruct (Decimal.truthy m) eqn:T.
    + apply truthy_true_iff in T. do 2 eexists. simpl.
      split; [reflexivity | split; [reflexivity | ]].
      split; [apply sum_filter_le; exact Fb | ].
      split; [apply sum_filter_le; exact Fa | ].
      split; [reflexivity | intros Z; contradiction].
    + apply truthy_false_iff in T. exists 0, 0. simpl.
      repeat split; auto; try apply Qle_refl. intros N; contradiction.
  - exists 0, 0. simpl. repeat split; auto; apply Qle_refl.
Qed.

Lemma liquidity_in_band_bounds_witness :
  exists b a,
    dict_lookup (get_liquidity book_buy "YES" (5 # 100)) "bid_liquidity" = Some b /\
    dict_lookup (get_liquidity book_buy "YES" (5 # 100)) "ask_liquidity" = Some a /\
    0 <= b <= 10 /\ 0 <= a <= 10.
Proof.
  destruct (liquidity_in_band_bounds book_buy "YES" (5 # 100))
    as [b [a [Hb [Ha [Bb [Ba _]]]]]].
  - repeat constructor; discriminate.
  - repeat constructor; discriminate.
  - exists b, a. repeat split; auto; try tauto.
Defined.

Lemma side_summary_result (ob : OrderBook.t) (side : string) :
  let r := side_summary ob side (get_best_bid_ask ob side)
                        (get_liquidity ob side (5 # 100)) in
  match mid_price (get_best_bid_ask ob side) with
  | Some m => if Decimal.truthy m then exists s, r = inr s
              else r = inl (KeyError_of "total_liquidity")
  | None => r = inl (KeyError_of "total_liquidity")
  end.
Proof.
  cbv zeta. unfold side_summary, get_liquidity.
  destruct (mid_price (get_best_bid_ask ob side)) as [m|]; [ | reflexivity].
  destruct (Decimal.truthy m); [ | reflexivity].
  eexists; reflexivity.
Qed.

Lemma mid_none_of_empty (ob : OrderBook.t) (side : string) :
  side_bids ob side = [] \/ side_asks ob side = [] ->
  mid_price (get_best_bid_ask ob side) = None.
Proof.
  intros H. pose proof (spread_mid_of ob side) as SM. cbv zeta in SM.
  rewrite best_bid_of, best_ask_of in SM.
  destruct H as [H | H]; rewrite H in SM; simpl in SM.
  - tauto.
  - destruct (Decimal.max_default _); tauto.
Qed.

(** X5: [get_orderbook_summary] raises KeyError("total_liquidity") whenever
    the YES mid or the NO mid is undefined or zero - in particular on every
    book with an empty bid or ask list on either side - because
    [get_liquidity] then returns a dict without that key; it returns a
    summary exactly when both mids are defined and non-zero. *)
Theorem summary_needs_both_mids (ob : OrderBook.t) (timestamp : Z) :
  let my := mid_price (get_best_bid_ask ob "YES") in
  let mn := mid_price (get_best_bid_ask ob "NO") in
  let r := get_orderbook_summary ob timestamp in
  (absent_or_zero my \/ absent_or_zero mn -> r = inl (KeyError_of "total_liquidity")) /\
  (~ absent_or_zero my -> ~ absent_or_zero mn ->
   exists s, r = inr s /\ sum_market_id s = OrderBook.market_id ob /\
             sum_arbitrage s = get_arbitrage_opportunity ob) /\
  (OrderBook.yes_bids ob = [] \/ OrderBook.yes_asks ob = [] \/
   OrderBook.no_bids ob = [] \/ OrderBook.no_asks ob = [] ->
   r = inl (KeyError_of "total_liquidity")).
Proof.
  intros my mn r.
  pose proof (side_summary_result ob "YES") as Y.
  pose proof (side_summary_result ob "NO") as N.
  cbv zeta in Y, N. fold my in Y. fold mn in N.
  assert (Main : absent_or_zero my \/ absent_or_zero mn ->
                 r = inl (KeyError_of "total_liquidity")).
  { subst r. unfold get_orderbook_summary. intros H.
    destruct my as [y|]; [ | rewrite Y; reflexivity].
    destruct (Decimal.truthy y) eqn:Ty; [ | rewrite Y; reflexivity].
    destruct Y as [sy Y]. rewrite Y.
    apply truthy_true_iff in Ty.
    destruct H as [H | H]; [simpl in H; contradiction | ].
    destruct mn as [n|]; [ | rewrite N; reflexivity].
    simpl in H. apply truthy_false_iff in H. rewrite H in N. rewrite N. reflexivity. }
  split; [exact Main | split].
  - intros Hy Hn. subst r. unfold get_orderbook_summary.
    destruct my as [y|]; [ | simpl in Hy; tauto].
    destruct mn as [n|]; [ | simpl in Hn; tauto].
    simpl in Hy, Hn. apply truthy_true_iff in Hy. apply truthy_true_iff in Hn.
    rewrite Hy in Y. rewrite Hn in N.
    destruct Y as [sy Y]. destruct N as [sn N]. rewrite Y, N.
    eexists; repeat split.
  - intros H. apply Main. subst my mn.
    destruct H as [H | [H | [H | H]]].
    + left. rewrite (mid_none_of_empty ob "YES"); [exact I | left; exact H].
    + left. rewrite (mid_none_of_empty ob "YES"); [exact I | right; exact H].
    + right. rewrite (mid_none_of_empty ob "NO"); [exact I | left; exact H].
    + right. rewrite (mid_none_of_empty ob "NO"); [exact I | right; exact H].
Qed.

(** ** Market impact: what the walk fills *)

Lemma sum_perm (l l' : list Q) : Permutation l l' -> Decimal.sum l == Decimal.sum l'.
Proof.
  induction 1 as [ | x l l' P IH | x y l | l l' l'' P1 IH1 P2 IH2].
  - reflexivity.
  - rewrite !sum_cons, IH. reflexivity.
  - rewrite !sum_cons. ring.
  - rewrite IH1. exact IH2.
Qed.

Lemma min2_cases (a b : Q) :
  (b < a /\ Decimal.min2 a b = b) \/ (a <= b /\ Decimal.min2 a b = a).
Proof.
  unfold Decimal.min2. destruct (Decimal.ltb b a) eqn:E.
  - left. apply ltb_true_iff in E. auto.
  - right. apply ltb_false_iff in E. auto.
Qed.

(** The loop, from any state with a non-negative remainder. *)
Lemma walk_asks_spec (asks : list OrderBookEntry.t) :
  Forall (fun e => 0 <= OrderBookEntry.size e) asks ->
  forall remaining cost levels, 0 <= remaining ->
    let r := MarketImpact.walk_asks asks remaining cost levels in
    let remaining' := fst (fst r) in
    0 <= remaining' /\
    (total_size asks <= remaining -> remaining' == remaining - total_size asks) /\
    (remaining <= total_size asks -> remaining' == 0) /\
    (snd r <= levels + List.length asks)%nat /\
    (forall a, Forall (fun e => a <= OrderBookEntry.price e) asks ->
               a * (remaining - remaining') <= snd (fst r) - cost).
Proof.
  induction 1 as [|ask rest Hs Hr IH]; intros remaining cost levels Hrem; cbv zeta.
  - simpl. unfold total_size, Decimal.sum. simpl.
    repeat split; try lra; try lia. intros a _. lra.
  - pose proof (total_size_nonneg rest Hr) as Trest.
    assert (Tcons : total_size (ask :: rest) == OrderBookEntry.size ask + total_size rest)
      by (unfold total_size; simpl map; apply sum_cons).
    simpl. destruct (Decimal.leb remaining 0) eqn:E.
    + apply Qle_bool_iff in E. simpl. rewrite Tcons.
      repeat split; try lra; try lia. intros a _. lra.
    + assert (Pos : 0 < remaining).
      { apply Qnot_le_lt. intro L. apply Qle_bool_iff in L.
        unfold Decimal.leb in E. congruence. }
      set (take := Decimal.min2 remaining (OrderBookEntry.size ask)).
      assert (Ht : 0 <= take /\ take <= remaining /\ take <= OrderBookEntry.size ask /\
                   (OrderBookEntry.size ask <= remaining -> take == OrderBookEntry.size ask)).
      { subst take.
        destruct (min2_cases remaining (OrderBookEntry.size ask)) as [[L M] | [L M]];
          rewrite M; repeat split; try lra; try (intros; reflexivity). }
      destruct Ht as [T0 [T1 [T2 T3]]].
      assert (Hrem1 : 0 <= remaining - take) by lra.
      specialize (IH (remaining - take)
                     (cost + take * OrderBookEntry.price ask) (S levels) Hrem1).
      cbv zeta in IH. destruct IH as [I0 [I1 [I2 [I3 I4]]]].
      rewrite Tcons.
      split; [exact I0 | ]. split; [ | split; [ | split]].
      * intros L. assert (Hsz : OrderBookEntry.size ask <= remaining) by lra.
        specialize (T3 Hsz).
        assert (C : total_size rest <= remaining - take) by lra.
        specialize (I1 C). lra.
      * intros L.
        destruct (min2_cases remaining (OrderBookEntry.size ask)) as [[L' M] | [L' M]];
          fold take in M; apply I2; rewrite M; lra.
      * lia.
      * intros a Fa. inversion Fa as [|? ? Ha Fr]; subst.
        specialize (I4 a Fr).
        assert (a * take <= take * OrderBookEntry.price ask) by nra.
        lra.
Qed.

Lemma ladder_total_size (ob : OrderBook.t) (side : string) :
  total_size (MarketImpact.ladder ob side) == total_size (side_asks ob side).
Proof.
  unfold total_size. apply sum_perm, Permutation_map, Permutation_sym, stable_sort_perm.
Qed.

Lemma ladder_forall (P : OrderBookEntry.t -> Prop) (ob : OrderBook.t) (side : string) :
  Forall P (side_asks ob side) -> Forall P (MarketImpact.ladder ob side).
Proof.
  intros F. apply (Permutation_Forall (stable_sort_perm _ _) F).
Qed.

Lemma market_impact_fields (ob : OrderBook.t) (side : string) (size : Q) :
  let w := MarketImpact.walk ob side size in
  let r := MarketImpact.get_market_impact ob side size in
  MarketImpact.total_cost r = snd (fst w) /\
  MarketImpact.levels_consumed r = snd w /\
  MarketImpact.filled_size ob side size = size - fst (fst w) /\
  MarketImpact.average_price r
  = (if Decimal.gtb size 0 then snd (fst w) / size else 0).
Proof.
  cbv zeta. unfold MarketImpact.get_market_impact, MarketImpact.filled_size.
  destruct (MarketImpact.walk ob side size) as [[rem tc] lv]. simpl. auto.
Qed.

(** X6: with no negative ask size on the side and a non-negative request,
    the walk fills min(request, total ask depth): the whole request when
    the depth covers it, the whole depth otherwise; it never fills more
    than asked, consumes at most as many levels as the side has asks, and
    raises nothing. *)
Theorem market_impact_fill (ob : OrderBook.t) (side : string) (size : Q) :
  Forall (fun e => 0 <= OrderBookEntry.size e) (side_asks ob side) ->
  0 <= size ->
  let filled := MarketImpact.filled_size ob side size in
  let depth := total_size (side_asks ob side) in
  0 <= filled <= size /\
  (size <= depth -> filled == size) /\
  (depth <= size -> filled == depth) /\
  (MarketImpact.levels_consumed (MarketImpact.get_market_impact ob side size)
   <= List.length (side_asks ob side))%nat.
Proof.
  intros F Hs filled depth.
  destruct (market_impact_fields ob side size) as [_ [Hl [Hf _]]].
  subst filled depth. rewrite Hl, Hf.
  pose proof (walk_asks_spec (MarketImpact.ladder ob side)
                (ladder_forall _ ob side F) size 0 0%nat Hs) as W.
  cbv zeta in W. fold (MarketImpact.walk ob side size) in W.
  destruct W as [W0 [W1 [W2 [W3 _]]]].
  rewrite ladder_total_size in W1, W2.
  assert (Hlen : List.length (MarketImpact.ladder ob side) = List.length (side_asks ob side))
    by (symmetry; apply Permutation_length, stable_sort_perm).
  rewrite Hlen in W3.
  assert (Hle : fst (fst (MarketImpact.walk ob side size)) <= size).
  { destruct (Qlt_le_dec size (total_size (side_asks ob side))) as [L | L].
    - assert (L' : size <= total_size (side_asks ob side)) by lra.
      specialize (W2 L'). lra.
    - specialize (W1 L). pose proof (total_size_nonneg _ F). lra. }
  split; [lra | ]. split; [ | split; [ | exact W3]].
  - intros L. specialize (W2 L). lra.
  - intros L. specialize (W1 L). lra.
Qed.

Lemma market_impact_fill_witness :
  MarketImpact.filled_size book_thin "YES" 2 == 1.
Proof.
  destruct (market_impact_fill book_thin "YES" 2) as [_ [_ [H _]]].
  - repeat constructor; discriminate.
  - discriminate.
  - apply H. vm_compute. discriminate.
Defined.

(** X7: when the side's ask depth covers a positive request (sizes
    non-negative), the reported average price is at least the best ask,
    and with a non-negative best ask the reported price impact is
    non-negative. *)
Theorem market_impact_not_below_best_ask
        (ob : OrderBook.t) (side : string) (size a : Q) :
  Forall (fun e => 0 <= OrderBookEntry.size e) (side_asks ob side) ->
  0 < size -> size <= total_size (side_asks ob side) ->
  best_ask (get_best_bid_ask ob side) = Some a ->
  let r := MarketImpact.get_market_impact ob side size in
  a <= MarketImpact.average_price r /\
  (0 <= a -> 0 <= MarketImpact.price_impact_pct r).
Proof.
  intros F Hs Hd Ha r.
  assert (Havg : a <= MarketImpact.average_price r).
  { subst r. destruct (market_impact_fields ob side size) as [_ [_ [_ Hav]]].
    rewrite Hav.
    assert (G : Decimal.gtb size 0 = true) by (apply ltb_true_iff; exact Hs).
    rewrite G.
    pose proof (walk_asks_spec (MarketImpact.ladder ob side)
                  (ladder_forall _ ob side F) size 0 0%nat (Qlt_le_weak _ _ Hs)) as W.
    cbv zeta in W. fold (MarketImpact.walk ob side size) in W.
    destruct W as [_ [_ [W2 [_ W4]]]].
    rewrite ladder_total_size in W2. specialize (W2 Hd).
    rewrite best_ask_of in Ha. apply min_default_bounds in Ha.
    rewrite Forall_map in Ha.
    specialize (W4 a (ladder_forall _ ob side Ha)).
    rewrite W2 in W4.
    apply Qle_shift_div_l; [exact Hs | lra]. }
  split; [exact Havg | ].
  intros Ha0. subst r. unfold MarketImpact.get_market_impact in *.
  destruct (MarketImpact.walk ob side size) as [[rem tc] lv]. simpl in *.
  rewrite Ha. destruct (Decimal.truthy a) eqn:T; [ | apply Qle_refl].
  apply truthy_true_iff in T.
  assert (Pa : 0 < a) by (apply Qle_lt_or_eq in Ha0; destruct Ha0 as [L | E];
                          [exact L | symmetry in E; contradiction]).
  assert (0 <= ((if Decimal.gtb size 0 then tc / size else 0) - a) / a).
  { apply Qle_shift_div_l; [exact Pa | lra]. }
  lra.
Qed.

Lemma market_impact_not_below_best_ask_witness :
  (1 # 2) <= MarketImpact.average_price (MarketImpact.get_market_impact book_thin "YES" 1).
Proof.
  refine (proj1 (market_impact_not_below_best_ask book_thin "YES" 1 (1 # 2) _ _ _ _)).
  - repeat constructor; discriminate.
  - reflexivity.
  - vm_compute; discriminate.
  - reflexivity.
Defined.

(** * Scanner detectors *)

Lemma arbitrage_some_inv (ob : OrderBook.t) (v : Q) :
  OrderBook.get_arbitrage_opportunity ob = Some v ->
  exists y n,
    OrderBook.get_best_yes_price ob = Some y /\
    OrderBook.get_best_no_price ob = Some n /\
    Decimal.truthy y = true /\ Decimal.truthy n = true /\
    Decimal.ltb (y + n) (98 # 100) = true /\ v = 1 - (y + n).
Proof.
  unfold OrderBook.get_arbitrage_opportunity.
  destruct (OrderBook.get_best_yes_price ob) as [y|]; [ | discriminate].
  destruct (OrderBook.get_best_no_price ob) as [n|]; [ | discriminate].
  destruct (Decimal.truthy y) eqn:Ty; [ | discriminate].
  destruct (Decimal.truthy n) eqn:Tn; [ | discriminate].
  simpl. destruct (Decimal.ltb (y + n) (98 # 100)) eqn:L; [ | discriminate].
  intros E. inversion E; subst v. exists y, n. repeat split; auto.
Qed.

(** X8: the one-sided arbitrage value of models.py, when defined, is
    1 - (best YES bid + best NO bid) for two non-zero best bids whose sum
    is below 0.98, and is therefore always above the scanner's 0.02 edge. *)
Theorem arbitrage_value_above_edge (ob : OrderBook.t) (v : Q) :
  OrderBook.get_arbitrage_opportunity ob = Some v ->
  exists y n,
    OrderBook.get_best_yes_price ob = Some y /\
    OrderBook.get_best_no_price ob = Some n /\
    ~ y == 0 /\ ~ n == 0 /\ y + n < 98 # 100 /\
    v = 1 - (y + n) /\ 2 # 100 < v.
Proof.
  intros E. destruct (arbitrage_some_inv ob v E) as [y [n [Hy [Hn [Ty [Tn [L Hv]]]]]]].
  apply truthy_true_iff in Ty. apply truthy_true_iff in Tn. apply ltb_true_iff in L.
  exists y, n. repeat split; auto. subst v. lra.
Qed.

Lemma arbitrage_value_above_edge_witness :
  exists v, OrderBook.get_arbitrage_opportunity book_buy = Some v /\ 2 # 100 < v.
Proof.
  eexists. split; [reflexivity | ].
  destruct (arbitrage_value_above_edge book_buy _ eq_refl)
    as [y [n [_ [_ [_ [_ [_ [_ H]]]]]]]].
  exact H.
Defined.

Section DetectorFacts.

Variable utcnow_at : nat -> Z.
Variable orderbook_at : nat -> string -> option OrderBook.t.
Variable opp_id : Z -> string.
Variable fstring : string -> list Q -> string.

(** Without an arbitrage value the detector returns none; with one, the
    edge and price guards always pass and the rationale's float minus
    Decimal raises. *)
Lemma check_arbitrage_result
      (market : Market.t) (orderbook : OrderBook.t) (w : Scanner.World) :
  Scanner.check_arbitrage utcnow_at opp_id fstring market orderbook w
  = match OrderBook.get_arbitrage_opportunity orderbook with
    | Some _ => (inl Scanner.TypeError, w)
    | None => (inr None, w)
    end.
Proof.
  unfold Scanner.check_arbitrage.
  destruct (OrderBook.get_arbitrage_opportunity orderbook) as [v|] eqn:E; [ | reflexivity].
  destruct (arbitrage_some_inv _ _ E) as [y [n [Hy [Hn [Ty [Tn [L Hv]]]]]]].
  rewrite Hy, Hn. apply ltb_true_iff in L. subst v.
  set (v := 1 - (y + n)) in *.
  assert (Hv : v == 1 - (y + n)) by reflexivity.
  assert (Tv : Decimal.truthy v = true) by (apply truthy_true_iff; lra).
  assert (Gv : Decimal.gtb v (2 # 100) = true) by (apply ltb_true_iff; lra).
  rewrite Tv, Gv, Ty, Tn. simpl.
  destruct (Decimal.ltb y n); reflexivity.
Qed.

(** X9: [check_arbitrage] never returns an opportunity.  Without an
    arbitrage value it returns none; with one, the edge and price guards
    always pass and building the rationale evaluates [1.0 - arb_value],
    a float minus a Decimal, which raises TypeError before the
    opportunity is built.  It never touches the scanner or the clock. *)
Theorem check_arbitrage_never_yields
        (market : Market.t) (orderbook : OrderBook.t) (w : Scanner.World) :
  let r := Scanner.check_arbitrage utcnow_at opp_id fstring market orderbook w in
  (forall o, fst r <> inr (Some o)) /\
  snd r = w /\
  (OrderBook.get_arbitrage_opportunity orderbook = None -> fst r = inr None) /\
  (forall v, OrderBook.get_arbitrage_opportunity orderbook = Some v ->
             fst r = inl Scanner.TypeError).
Proof.
  cbv zeta. rewrite check_arbitrage_result.
  destruct (OrderBook.get_arbitrage_opportunity orderbook) as [v|]; cbn [fst snd].
  - split; [intros o; discriminate | ]. split; [reflexivity | ].
    split; [discriminate | reflexivity].
  - split; [intros o; discriminate | ]. split; [reflexivity | ].
    split; [reflexivity | intros v; discriminate].
Qed.

Lemma new_opportunity_result (market : Market.t) (ty : OpportunityType.t)
      (side : OrderSide) (score er : Q) (risk : string) (entry : Q)
      (target : option Q) (reasoning : string) (expires : option Z) (w : Scanner.World) :
  exists o,
    Scanner.new_opportunity utcnow_at opp_id market ty side score er risk entry
                            target reasoning expires w
    = (inr o, Scanner.mkWorld (Scanner.agent w) (2 + Scanner.calls w)) /\
    Opportunity.market_id o = Market.id market /\
    Opportunity.opportunity_type o = ty /\ Opportunity.score o = score /\
    Opportunity.entry_price o = entry /\ Opportunity.side o = side.
Proof. eexists. repeat split. Qed.

Lemma check_time_decay_quiet (market : Market.t) (orderbook : OrderBook.t) :
  quiet_detector market
    (Scanner.check_time_decay utcnow_at opp_id fstring market orderbook).
Proof.
  intros w. unfold Scanner.check_time_decay, Scanner.bind, Scanner.utcnow,
            Scanner.new_opportunity, Scanner.ret.
  destruct (Market.end_date_iso market) as [end_date|];
    [ | exists None; eexists; repeat split].
  simpl.
  destruct ((_ <? _)%Z && (_ <? _)%Z); [ | exists None; eexists; repeat split].
  destruct (OrderBook.get_best_yes_price orderbook) as [y|];
    [ | exists None; eexists; repeat split].
  destruct (OrderBook.get_best_no_price orderbook) as [n|];
    [ | exists None; eexists; repeat split].
  destruct (Decimal.truthy y) eqn:Ty; [ | exists None; eexists; repeat split].
  destruct (Decimal.truthy n) eqn:Tn; [ | exists None; eexists; repeat split].
  apply truthy_true_iff in Ty. apply truthy_true_iff in Tn. simpl.
  destruct (Decimal.gtb y (8 # 10)).
  - eexists (Some _); eexists. split; [reflexivity | ]. split; [reflexivity | ].
    repeat split; simpl; auto.
  - destruct (Decimal.gtb n (8 # 10)); [ | exists None; eexists; repeat split].
    eexists (Some _); eexists. split; [reflexivity | ]. split; [reflexivity | ].
    repeat split; simpl; auto.
Qed.

Lemma check_liquidity_quiet (market : Market.t) (orderbook : OrderBook.t) :
  quiet_detector market
    (Scanner.check_liquidity utcnow_at opp_id fstring market orderbook).
Proof.
  intros w. unfold Scanner.check_liquidity, Scanner.bind, Scanner.utcnow,
            Scanner.new_opportunity, Scanner.ret.
  destruct (Decimal.ltb (Market.liquidity market) 1000);
    [ | exists None; eexists; repeat split].
  destruct (OrderBook.get_best_yes_price orderbook) as [y|];
    [ | exists None; eexists; repeat split].
  destruct (OrderBook.get_best_no_price orderbook) as [n|];
    [ | exists None; eexists; repeat split].
  destruct (Decimal.truthy y) eqn:Ty; [ | exists None; eexists; repeat split].
  destruct (Decimal.truthy n) eqn:Tn; [ | exists None; eexists; repeat split].
  apply truthy_true_iff in Ty. apply truthy_true_iff in Tn. simpl.
  destruct (Decimal.gtb _ _); [ | exists None; eexists; repeat split].
  destruct (Decimal.ltb y (3 # 10));
    (eexists (Some _); eexists; split; [reflexivity | ]; split; [reflexivity | ];
     repeat split; simpl; auto).
Qed.

Lemma analyze_market_cases (market : Market.t) (w : Scanner.World) :
  exists found w',
    Scanner.analyze_market utcnow_at orderbook_at opp_id fstring market w
    = (inr found, w') /\
    MarketScannerAgent.opportunities (Scanner.agent w')
    = MarketScannerAgent.opportunities (Scanner.agent w) ++ found /\
    MarketScannerAgent.scanned_markets (Scanner.agent w')
    = match found with
      | [] => MarketScannerAgent.scanned_markets (Scanner.agent w)
      | _ :: _ => Scanner.set_add (Market.id market)
                    (MarketScannerAgent.scanned_markets (Scanner.agent w))
      end /\
    Forall (detected market) found /\
    (List.length found <= 2)%nat.
Proof.
  unfold Scanner.analyze_market.
  destruct (existsb _ _).
  { exists [], w. rewrite app_nil_r. repeat split; auto. }
  unfold Scanner.guarded at 1. unfold Scanner.get_orderbook.
  destruct (orderbook_at (Scanner.calls w) (Market.id market)) as [ob|].
  2:{ exists []. eexists. split; [reflexivity | ]. simpl. rewrite app_nil_r.
      repeat split; auto. }
  unfold Scanner.guarded at 1. rewrite check_arbitrage_result.
  destruct (OrderBook.get_arbitrage_opportunity ob).
  { exists []. eexists. split; [reflexivity | ]. simpl. rewrite app_nil_r.
    repeat split; auto. }
  unfold Scanner.guarded at 1.
  destruct (check_time_decay_quiet market ob
              (Scanner.mkWorld (Scanner.agent w) (S (Scanner.calls w))))
    as [td [w2 [E2 [A2 D2]]]].
  rewrite E2. unfold Scanner.guarded at 1.
  destruct (check_liquidity_quiet market ob w2) as [lq [w3 [E3 [A3 D3]]]].
  rewrite E3. simpl in A2. rewrite A2 in A3.
  destruct td as [o1|], lq as [o2|]; simpl.
  - exists [o1; o2]. eexists. split; [reflexivity | ]. simpl. rewrite A3.
    repeat split; auto.
  - exists [o1]. eexists. split; [reflexivity | ]. simpl. rewrite A3.
    repeat split; auto.
  - exists [o2]. eexists. split; [reflexivity | ]. simpl. rewrite A3.
    repeat split; auto.
  - exists []. eexists. split; [reflexivity | ]. simpl. rewrite A3, app_nil_r.
    repeat split; auto.
Qed.

(** X10: [analyze_market] never raises, and what it returns is exactly
    what it appends to the scanner's buffer; the market is added to the
    seen set exactly when something was found.  Every opportunity found
    is for this market, has a non-zero entry price and is a time-decay
    one (score 0.7) or a liquidity one (score 0.6) - never an arbitrage
    one; at most two are found. *)
Theorem analyze_market_stores_what_it_returns (market : Market.t) (w : Scanner.World) :
  let r := Scanner.analyze_market utcnow_at orderbook_at opp_id fstring market w in
  let before := Scanner.agent w in
  let after := Scanner.agent (snd r) in
  exists found,
    fst r = inr found /\
    MarketScannerAgent.opportunities after
    = MarketScannerAgent.opportunities before ++ found /\
    (found = [] ->
     MarketScannerAgent.scanned_markets after = MarketScannerAgent.scanned_markets before) /\
    (found <> [] ->
     MarketScannerAgent.scanned_markets after
     = Scanner.set_add (Market.id market) (MarketScannerAgent.scanned_markets before)) /\
    Forall (detected market) found /\
    Forall (fun o => Opportunity.opportunity_type o <> OpportunityType.ARBITRAGE) found /\
    (List.length found <= 2)%nat.
Proof.
  cbv zeta.
  destruct (analyze_market_cases market w) as [found [w' [E [Ho [Hs [Hd Hl]]]]]].
  rewrite E. cbn [fst snd]. exists found.
  split; [reflexivity | ]. split; [exact Ho | ].
  split; [intros N; subst found; exact Hs | ].
  split; [intros N; destruct found; [contradiction | exact Hs] | ].
  split; [exact Hd | ]. split; [ | exact Hl].
  apply Forall_forall. intros o Hin. rewrite Forall_forall in Hd.
  destruct (Hd o Hin) as [_ [_ [[T _] | [T _]]]]; rewrite T; discriminate.
Qed.

(** X11: a market whose order book shows the arbitrage of models.py is
    never reported: [check_arbitrage] raises inside the [try], the
    time-decay and liquidity detectors are not run, nothing is stored and
    the market is not marked as seen. *)
Theorem arbitrage_blocks_the_market (market : Market.t) (w : Scanner.World)
        (ob : OrderBook.t) (v : Q) :
  existsb (String.eqb (Market.id market))
          (MarketScannerAgent.scanned_markets (Scanner.agent w)) = false ->
  orderbook_at (Scanner.calls w) (Market.id market) = Some ob ->
  OrderBook.get_arbitrage_opportunity ob = Some v ->
  Scanner.analyze_market utcnow_at orderbook_at opp_id fstring market w
  = (inr [], Scanner.mkWorld (Scanner.agent w) (S (Scanner.calls w))).
Proof.
  intros Hs Hob Harb. unfold Scanner.analyze_market. rewrite Hs.
  unfold Scanner.guarded at 1. unfold Scanner.get_orderbook. rewrite Hob.
  unfold Scanner.guarded at 1. rewrite check_arbitrage_result, Harb.
  reflexivity.
Qed.

End DetectorFacts.

Lemma arbitrage_blocks_the_market_witness :
  Scanner.analyze_market clock feed_book_buy opp_id_plain fstring_plain market_m scan_world_0
  = (inr [], Scanner.mkWorld (Scanner.agent scan_world_0) 1).
Proof.
  apply (arbitrage_blocks_the_market clock feed_book_buy opp_id_plain fstring_plain
           market_m scan_world_0 book_buy (1 - ((39 # 100) + (54 # 100)))).
  - reflexivity.
  - reflexivity.
  - reflexivity.
Defined.

(** ** Pruning and the seen set *)

Section PruneFacts.

Variable utcnow_at : nat -> Z.
Variable orderbook_at : nat -> string -> option OrderBook.t.
Variable opp_id : Z -> string.
Variable fstring : string -> list Q -> string.

Lemma retain_spec (cutoff : Z) (l : list Opportunity.t) :
  forall w, exists kept w',
    Scanner.retain utcnow_at cutoff l w = (inr kept, w') /\
    Scanner.agent w' = Scanner.agent w /\
    incl kept l /\
    (List.length kept <= List.length l)%nat /\
    (forall o, In o l -> (cutoff < Opportunity.detected_at o)%Z -> In o kept) /\
    (forall o e, In o l -> Opportunity.expires_at o = Some e ->
                 (forall n, (utcnow_at n < e)%Z) -> In o kept) /\
    (forall o, In o kept ->
               (cutoff < Opportunity.detected_at o)%Z \/
               exists e n, Opportunity.expires_at o = Some e /\ (utcnow_at n < e)%Z).
Proof.
  induction l as [|o r IH]; intros w; simpl.
  - exists [], w. repeat split; auto; try (intros; contradiction). apply incl_refl.
  - destruct (cutoff <? Opportunity.detected_at o)%Z eqn:F.
    + apply Z.ltb_lt in F.
      destruct (IH w) as [kept [w' [E [A [I [L [K1 [K2 K3]]]]]]]].
      exists (o :: kept), w'. unfold Scanner.bind, Scanner.ret. rewrite E.
      split; [reflexivity | ]. split; [exact A | ].
      split; [ | split; [simpl; lia | split; [ | split]]].
      * intros x [Hx | Hx]; [left; exact Hx | right; apply I; exact Hx].
      * intros x [Hx | Hx] Hf; [left; exact Hx | right; apply K1; assumption].
      * intros x e [Hx | Hx] He Hn; [left; exact Hx | right; apply (K2 x e); assumption].
      * intros x [Hx | Hx]; [subst x; left; exact F | apply K3; exact Hx].
    + apply Z.ltb_ge in F. destruct (Opportunity.expires_at o) as [expires|] eqn:Ex.
      * unfold Scanner.bind, Scanner.utcnow, Scanner.ret.
        destruct (IH (Scanner.mkWorld (Scanner.agent w) (S (Scanner.calls w))))
          as [kept [w' [E [A [I [L [K1 [K2 K3]]]]]]]].
        rewrite E. simpl in A.
        destruct (utcnow_at (Scanner.calls w) <? expires)%Z eqn:N.
        -- apply Z.ltb_lt in N. exists (o :: kept), w'.
           split; [reflexivity | ]. split; [exact A | ].
           split; [ | split; [simpl; lia | split; [ | split]]].
           ++ intros x [Hx | Hx]; [left; exact Hx | right; apply I; exact Hx].
           ++ intros x [Hx | Hx] Hf; [left; exact Hx | right; apply K1; assumption].
           ++ intros x e [Hx | Hx] He Hn;
                [left; exact Hx | right; apply (K2 x e); assumption].
           ++ intros x [Hx | Hx]; [ | apply K3; exact Hx].
              subst x. right. exists expires, (Scanner.calls w). auto.
        -- apply Z.ltb_ge in N. exists kept, w'.
           split; [reflexivity | ]. split; [exact A | ].
           split; [ | split; [simpl; lia | split; [ | split]]].
           ++ intros x Hx; right; apply I; exact Hx.
           ++ intros x [Hx | Hx] Hf; [subst x; lia | apply K1; assumption].
           ++ intros x e [Hx | Hx] He Hn; [ | apply (K2 x e); assumption].
              subst x. rewrite Ex in He. inversion He; subst e.
              specialize (Hn (Scanner.calls w)). lia.
           ++ exact K3.
      * destruct (IH w) as [kept [w' [E [A [I [L [K1 [K2 K3]]]]]]]].
        exists kept, w'. split; [exact E | ]. split; [exact A | ].
        split; [ | split; [simpl; lia | split; [ | split]]].
        -- intros x Hx; right; apply I; exact Hx.
        -- intros x [Hx | Hx] Hf; [subst x; lia | apply K1; assumption].
        -- intros x e [Hx | Hx] He Hn; [ | apply (K2 x e); assumption].
           subst x. rewrite Ex in He. discriminate.
        -- exact K3.
Qed.


Lemma clear_old_keeps_seen (max_age_hours : Z) (w : Scanner.World) :
  MarketScannerAgent.scanned_markets
    (Scanner.agent (snd (Scanner.clear_old_opportunities utcnow_at max_age_hours w)))
  = MarketScannerAgent.scanned_markets (Scanner.agent w).
Proof.
  unfold Scanner.clear_old_opportunities, Scanner.bind, Scanner.utcnow. simpl.
  destruct (retain_spec (utcnow_at (Scanner.calls w) - Scanner.hours max_age_hours)
              (MarketScannerAgent.opportunities (Scanner.agent w))
              (Scanner.mkWorld (Scanner.agent w) (S (Scanner.calls w))))
    as [kept [w' [E [A _]]]].
  rewrite E. simpl. simpl in A. rewrite A. reflexivity.
Qed.

Lemma existsb_set_add (x : string) (s : list string) :
  existsb (String.eqb x) (Scanner.set_add x s) = true.
Proof.
  unfold Scanner.set_add. destruct (existsb (String.eqb x) s) eqn:E; [exact E | ].
  rewrite existsb_app. simpl. rewrite String.eqb_refl. apply orb_true_iff. right. reflexivity.
Qed.

(** X13: once [analyze_market] has found something for a market, every
    later [analyze_market] on it returns nothing and changes nothing,
    without fetching its order book - also after
    [clear_old_opportunities] has pruned the buffer, since nothing ever
    removes a market from the seen set. *)
Theorem seen_market_stays_skipped (market : Market.t) (w w1 : Scanner.World)
        (found : list Opportunity.t) (max_age_hours : Z) :
  Scanner.analyze_market utcnow_at orderbook_at opp_id fstring market w = (inr found, w1) ->
  found <> [] ->
  let w2 := snd (Scanner.clear_old_opportunities utcnow_at max_age_hours w1) in
  Scanner.analyze_market utcnow_at orderbook_at opp_id fstring market w1 = (inr [], w1) /\
  Scanner.analyze_market utcnow_at orderbook_at opp_id fstring market w2 = (inr [], w2).
Proof.
  intros E NE w2.
  destruct (analyze_market_cases utcnow_at orderbook_at opp_id fstring
              market w) as [f [w' [E' [_ [S _]]]]].
  rewrite E in E'. inversion E'; subst f w'. clear E'.
  destruct found as [|o r]; [contradiction | ].
  assert (S1 : existsb (String.eqb (Market.id market))
                       (MarketScannerAgent.scanned_markets (Scanner.agent w1)) = true)
    by (rewrite S; apply existsb_set_add).
  assert (S2 : existsb (String.eqb (Market.id market))
                       (MarketScannerAgent.scanned_markets (Scanner.agent w2)) = true).
  { subst w2. rewrite clear_old_keeps_seen. exact S1. }
  unfold Scanner.analyze_market. rewrite S1, S2. split; reflexivity.
Qed.

End PruneFacts.

Lemma seen_market_stays_skipped_witness :
  let r := Scanner.analyze_market clock feed_skewed opp_id_plain fstring_plain
                                  market_m scan_world_0 in
  let w2 := snd (Scanner.clear_old_opportunities clock 0 (snd r)) in
  List.length (MarketScannerAgent.opportunities (Scanner.agent (snd r))) = 1%nat /\
  MarketScannerAgent.opportunities (Scanner.agent w2) = [] /\
  Scanner.analyze_market clock feed_skewed opp_id_plain fstring_plain market_m w2
  = (inr [], w2).
Proof.
  cbv zeta.
  destruct (Scanner.analyze_market clock feed_skewed opp_id_plain fstring_plain
                                   market_m scan_world_0) as [res w1] eqn:E.
  assert (R : exists o, res = inr [o]) by (vm_compute in E; inversion E; eexists; reflexivity).
  destruct R as [o R]. subst res.
  destruct (seen_market_stays_skipped clock feed_skewed opp_id_plain fstring_plain
              market_m scan_world_0 w1 [o] 0 E) as [_ H]; [discriminate | ].
  simpl snd. split; [ | split; [ | exact H]].
  - vm_compute in E. inversion E. reflexivity.
  - vm_compute in E. inversion E. reflexivity.
Defined.

(** * Further properties of the paper ledger *)

Lemma dict_set_fresh {V : Type} (d : list (string * V)) (k : string) (v : V) :
  dict_lookup d k = None -> dict_set d k v = d ++ [(k, v)].
Proof.
  induction d as [|[k0 v0] r IH]; simpl; [reflexivity | ].
  destruct (String.eqb k0 k); [discriminate | ].
  intros H. rewrite IH; auto.
Qed.

Section OpenFacts.

Variable utcnow_at : nat -> Z.

(** An accepted order on a (market, side) without an open position. *)
Lemma place_order_fresh
      (w : World) (opportunity : Opportunity.t) (position_size_pct : Q)
      (strategy_id strategy_name : option string) :
  let self := trader w in
  let key := position_key (Opportunity.market_id opportunity) (Opportunity.side opportunity) in
  let price := Opportunity.entry_price opportunity in
  let value := get_equity self * position_size_pct in
  let size := value / price in
  dict_lookup (positions self) key = None ->
  ~ price == 0 ->
  value <= capital self ->
  place_order utcnow_at opportunity position_size_pct strategy_id strategy_name w
  = (inr (Some (Order.mk (Some (utcnow_at (calls w)))
                         (Opportunity.market_id opportunity)
                         (Opportunity.side opportunity) LIMIT price size size "filled"
                         (utcnow_at (S (calls w)))
                         (Some (utcnow_at (S (S (calls w))))))),
     mkWorld
       (mk (capital self - price * size) (initial_capital self)
           (positions self
            ++ [(key, opened_position key opportunity size strategy_id strategy_name
                        (utcnow_at (3 + calls w)%nat))])
           (orders self)
           (trade_history self
            ++ [Trade.mk (utcnow_at (4 + calls w)%nat)
                         (Opportunity.market_id opportunity)
                         (Opportunity.side opportunity) price size strategy_id 0
                         (utcnow_at (5 + calls w)%nat)])
           (closed_positions self))
       (6 + calls w)%nat
       (journal w
        ++ [Opened (Order.mk (Some (utcnow_at (calls w)))
                             (Opportunity.market_id opportunity)
                             (Opportunity.side opportunity) LIMIT price size size "filled"
                             (utcnow_at (S (calls w)))
                             (Some (utcnow_at (S (S (calls w))))))])).
Proof.
  intros self key price value size Hp NZ Hcap.
  unfold place_order, bind, get_self, lift.
  fold self. fold price. fold value.
  rewrite (div_nonzero _ _ NZ). fold size.
  assert (G : Decimal.gtb value (capital self) = false)
    by (apply ltb_false_iff; exact Hcap).
  rewrite G.
  unfold _execute_order, bind, utcnow, modify_self, record_fill, get_self, lift, ret.
  simpl. fold key. fold self. rewrite Hp. simpl.
  rewrite (dict_set_fresh _ _ _ Hp). reflexivity.
Qed.

Lemma sum_app (l1 l2 : list Q) : Decimal.sum (l1 ++ l2) == Decimal.sum l1 + Decimal.sum l2.
Proof.
  induction l1 as [|x r IH]; simpl.
  - unfold Decimal.sum at 2. simpl. ring.
  - rewrite !sum_cons, IH. ring.
Qed.

Lemma opened_position_pnl (key : string) (opportunity : Opportunity.t) (size : Q)
      (strategy_id strategy_name : option string) (opened : Z) :
  Position.unrealized_pnl
    (opened_position key opportunity size strategy_id strategy_name opened) == 0.
Proof.
  unfold opened_position, Position.update_pnl.
  cbn [Position.unrealized_pnl Position.side Position.entry_price Position.size].
  destruct (Opportunity.side opportunity); ring.
Qed.



End OpenFacts.



(** ** Closing, and the round trip *)

Lemma dict_lookup_app_fresh {V : Type} (d : list (string * V)) (k : string) (v : V) :
  dict_lookup d k = None -> dict_lookup (d ++ [(k, v)]) k = Some v.
Proof.
  intros H. rewrite <- (dict_set_fresh d k v H). apply dict_lookup_set_same.
Qed.

Lemma dict_del_app_fresh {V : Type} (d : list (string * V)) (k : string) (v : V) :
  dict_lookup d k = None -> dict_del (d ++ [(k, v)]) k = d.
Proof.
  induction d as [|[k0 v0] r IH]; simpl.
  - rewrite String.eqb_refl. reflexivity.
  - destruct (String.eqb k0 k); [discriminate | ].
    intros H. rewrite IH; auto.
Qed.

Section RoundTrip.

Variable utcnow_at : nat -> Z.
Variable orderbook_at : nat -> string -> option OrderBook.t.

(** A close that goes through, in full. *)
Lemma close_position_closes (w : World) (position_id reason : string)
      (p : Position.t) (ob : OrderBook.t) (exit_price : Q) :
  dict_lookup (positions (trader w)) position_id = Some p ->
  orderbook_at (calls w) (Position.market_id p) = Some ob ->
  best_price_for (Position.side p) ob = Some exit_price ->
  ~ exit_price == 0 ->
  let realized :=
    match Position.side p with
    | LONG => (exit_price - Position.entry_price p) * Position.size p
    | SHORT => (Position.entry_price p - exit_price) * Position.size p
    end in
  let closed := Position.set_closed p realized exit_price (utcnow_at (S (calls w))) in
  close_position utcnow_at orderbook_at position_id reason w
  = (inr (Some closed),
     mkWorld
       (mk (capital (trader w) + exit_price * Position.size p)
           (initial_capital (trader w))
           (dict_del (positions (trader w)) position_id)
           (orders (trader w))
           (trade_history (trader w)
            ++ [Trade.mk (utcnow_at (2 + calls w)%nat) (Position.market_id p)
                         (match Position.side p with LONG => YES | SHORT => NO end)
                         exit_price (Position.size p) (Position.strategy_id p)
                         realized (utcnow_at (3 + calls w)%nat)])
           (closed_positions (trader w) ++ [closed]))
       (4 + calls w)%nat
       (journal w ++ [Closed closed])).
Proof.
  intros Hp Hob Hbest NZ realized closed.
  unfold close_position, bind, get_self, get_orderbook. simpl.
  rewrite Hp. simpl. rewrite Hob. simpl. rewrite Hbest.
  apply truthy_true_iff in NZ. rewrite NZ. reflexivity.
Qed.


End RoundTrip.


(** ** Position refresh *)

Section RefreshFacts.

Variable utcnow_at : nat -> Z.
Variable orderbook_at : nat -> string -> option OrderBook.t.

Lemma refresh_loop_without_feed (items : list (string * Position.t)) :
  (forall n market_id, orderbook_at n market_id = None) ->
  forall w,
    fst (for_each items
           (fun item => try_except (refresh_position utcnow_at orderbook_at item)) w)
    = inr tt /\
    trader (snd (for_each items
                   (fun item => try_except (refresh_position utcnow_at orderbook_at item)) w))
    = trader w /\
    journal (snd (for_each items
                    (fun item => try_except (refresh_position utcnow_at orderbook_at item)) w))
    = journal w.
Proof.
  intros Hfeed. induction items as [|[k p] r IH]; intros w; simpl; [auto | ].
  unfold bind at 1 3 5, try_except, refresh_position, bind, get_orderbook.
  rewrite Hfeed. simpl.
  destruct (IH (mkWorld (trader w) (S (calls w)) (journal w))) as [H1 [H2 H3]].
  auto.
Qed.

(** X17: when the feed has no order book for any market, a position
    refresh leaves the whole ledger as it was - capital, open positions
    with their marks, history - and raises nothing. *)
Theorem refresh_without_feed_is_noop (w : World) :
  (forall n market_id, orderbook_at n market_id = None) ->
  let r := update_positions utcnow_at orderbook_at w in
  fst r = inr tt /\ trader (snd r) = trader w /\ journal (snd r) = journal w.
Proof.
  intros Hfeed. cbv zeta. unfold update_positions, bind, get_self. simpl.
  apply (refresh_loop_without_feed _ Hfeed).
Qed.

Lemma exit_decision_without_levels (p : Position.t) (current_price : Q) :
  no_exit_levels p ->
  fst (exit_decision (Position.update_pnl p current_price) current_price) = false.
Proof.
  intros [Hs Ht]. unfold exit_decision. simpl.
  destruct (Position.stop_loss p) as [sl|]; destruct (Position.take_profit p) as [tp|];
    simpl in Hs, Ht;
    try (apply truthy_false_iff in Hs; rewrite Hs);
    try (apply truthy_false_iff in Ht; rewrite Ht); reflexivity.
Qed.

Lemma same_books_refl (w : World) : same_books w w.
Proof. unfold same_books. repeat split. Qed.

Lemma same_books_trans (w1 w2 w3 : World) :
  same_books w1 w2 -> same_books w2 w3 -> same_books w1 w3.
Proof.
  unfold same_books. intros [A1 [A2 [A3 [A4 [A5 A6]]]]] [B1 [B2 [B3 [B4 [B5 B6]]]]].
  repeat split; congruence.
Qed.

Lemma refresh_position_without_levels (k : string) (p : Position.t) (w : World) :
  no_exit_levels p ->
  fst (try_except (refresh_position utcnow_at orderbook_at (k, p)) w) = inr tt /\
  same_books w (snd (try_except (refresh_position utcnow_at orderbook_at (k, p)) w)).
Proof.
  intros NL. unfold try_except, refresh_position, bind, get_orderbook.
  destruct (orderbook_at (calls w) (Position.market_id p)) as [ob|]; simpl;
    [ | split; [reflexivity | unfold same_books; simpl; repeat split]].
  destruct (best_price_for (Position.side p) ob) as [cp|]; simpl;
    [ | split; [reflexivity | unfold same_books; simpl; repeat split]].
  destruct (Decimal.truthy cp); simpl;
    [ | split; [reflexivity | unfold same_books; simpl; repeat split]].
  unfold _check_exit_conditions.
  pose proof (exit_decision_without_levels p cp NL) as ED.
  destruct (exit_decision (Position.update_pnl p cp) cp) as [should_close reason].
  simpl in ED. subst should_close. simpl.
  split; [reflexivity | ]. unfold same_books. simpl.
  destruct (dict_lookup (positions (trader w)) k) as [q|] eqn:L; simpl;
    repeat split.
  apply (dict_set_keys _ _ _ _ L).
Qed.

Lemma refresh_loop_without_levels (items : list (string * Position.t)) :
  Forall (fun kv => no_exit_levels (snd kv)) items ->
  forall w,
    fst (for_each items
           (fun item => try_except (refresh_position utcnow_at orderbook_at item)) w)
    = inr tt /\
    same_books w
      (snd (for_each items
              (fun item => try_except (refresh_position utcnow_at orderbook_at item)) w)).
Proof.
  induction 1 as [|[k p] r Hp Hr IH]; intros w; cbn [for_each].
  - split; [reflexivity | apply same_books_refl].
  - destruct (refresh_position_without_levels k p w Hp) as [F0 B0].
    unfold bind at 1 2.
    destruct (try_except (refresh_position utcnow_at orderbook_at (k, p)) w)
      as [[e | u] w1]; simpl in F0, B0; [discriminate | ].
    destruct (IH w1) as [F1 B1].
    split; [exact F1 | apply (same_books_trans w w1 _ B0 B1)].
Qed.


End RefreshFacts.

Lemma refresh_without_feed_is_noop_witness :
  trader (snd (update_positions clock feed_none world_open_10)) = trader world_open_10.
Proof.
  apply (refresh_without_feed_is_noop clock feed_none world_open_10).
  intros n market_id. reflexivity.
Defined.


(** ** Statistics *)

Lemma sum_positive (l : list Q) :
  Forall (fun x => 0 < x) l -> l <> [] -> 0 < Decimal.sum l.
Proof.
  induction 1 as [|x r Hx Hr IH]; intros N; [contradiction | ].
  rewrite sum_cons. destruct r as [|y r'].
  - change (Decimal.sum (@nil Q)) with 0. lra.
  - assert (0 < Decimal.sum (y :: r')) by (apply IH; discriminate). lra.
Qed.

Lemma of_len_pos (n : nat) : (0 < n)%nat -> 0 < of_len n.
Proof.
  intros H. unfold of_len, Qlt. simpl. lia.
Qed.

Lemma of_len_le (n m : nat) : (n <= m)%nat -> of_len n <= of_len m.
Proof.
  intros H. unfold of_len, Qle. simpl. lia.
Qed.


(** ** Scanner retrieval: what the returned list is *)

Lemma opportunity_type_eqb_eq (a b : OpportunityType.t) :
  OpportunityType.eqb a b = true -> a = b.
Proof. destruct a, b; simpl; intros H; congruence. Qed.

Lemma sorted_impl {A : Type} (R R' : A -> A -> Prop) (l : list A) :
  (forall x y, R x y -> R' x y) -> Sorted R l -> Sorted R' l.
Proof.
  intros H. induction 1 as [|x l Sl IH Hd]; constructor; auto.
  destruct Hd; constructor; auto.
Qed.

(** X20: the list [get_opportunities] returns is in descending score
    order and holds only opportunities of the buffer that pass the
    filters in effect (score at least [min_score] when that is given and
    non-zero, the requested type when one is given); for [limit >= 0] it
    has at most [limit] elements, and when the limit is not below the
    number of matches it holds all of them. *)
Theorem get_opportunities_sorted_and_filtered
        (self : MarketScannerAgent.t) (min_score : option Q)
        (opportunity_type : option OpportunityType.t) (limit : Z) :
  let res := fst (get_opportunities self min_score opportunity_type limit) in
  Sorted (fun a b => Opportunity.score b <= Opportunity.score a) res /\
  incl res (opportunities self) /\
  (forall m, float_truthy min_score = Some m ->
             Forall (fun o => m <= Opportunity.score o) res) /\
  (forall ty, opportunity_type = Some ty ->
              Forall (fun o => Opportunity.opportunity_type o = ty) res) /\
  ((0 <= limit)%Z -> (Z.of_nat (List.length res) <= limit)%Z) /\
  ((Z.of_nat (List.length (filtered self min_score opportunity_type)) <= limit)%Z ->
   Permutation (filtered self min_score opportunity_type) res).
Proof.
  cbv zeta. rewrite get_opportunities_result.
  set (f := filtered self min_score opportunity_type).
  pose proof (stable_sort_perm score_gt f) as P.
  destruct (slice_to_prefix (stable_sort score_gt f) limit) as [rest E].
  assert (Inc : incl (slice_to (stable_sort score_gt f) limit) f).
  { intros o Ho. apply (Permutation_in _ (Permutation_sym P)). rewrite E.
    apply in_or_app; left; exact Ho. }
  split; [ | split; [ | split; [ | split; [ | split]]]].
  - apply slice_to_sorted.
    apply (sorted_impl (may_precede score_gt));
      [ | apply stable_sort_sorted, score_gt_asym].
    intros x y Hxy.
    unfold may_precede, score_gt, Decimal.gtb in Hxy. apply ltb_false_iff in Hxy. exact Hxy.
  - intros o Ho. apply Inc in Ho. subst f. unfold filtered in Ho.
    destruct (float_truthy min_score), opportunity_type;
      repeat (apply filter_In in Ho; destruct Ho as [Ho _]); exact Ho.
  - intros m Hm. apply Forall_forall. intros o Ho. apply Inc in Ho.
    subst f. unfold filtered in Ho. rewrite Hm in Ho.
    destruct opportunity_type; [apply filter_In in Ho; destruct Ho as [Ho _] | ];
      apply filter_In in Ho; destruct Ho as [_ G]; apply Qle_bool_iff in G; exact G.
  - intros ty Hty. apply Forall_forall. intros o Ho. apply Inc in Ho.
    subst f. unfold filtered in Ho. rewrite Hty in Ho.
    apply filter_In in Ho. destruct Ho as [_ G]. apply opportunity_type_eqb_eq; exact G.
  - apply slice_to_length.
  - intros L. rewrite P at 1. unfold slice_to.
    assert (Hl : List.length (stable_sort score_gt f) = List.length f)
      by (symmetry; apply Permutation_length; exact P).
    destruct (0 <=? limit)%Z eqn:E0.
    + rewrite firstn_all2; [reflexivity | lia].
    + apply Z.leb_gt in E0. lia.
Qed.

(** X21: starting from a ledger whose open set is a dict keyed by
    position id (unique keys, each position under the key equal to its
    id), every sequence of placements, closes, refreshes and statistics
    queries ends in such a ledger: a lookup by key returns a position
    with that id, and a deleted key is gone. *)
Theorem ledger_keeps_positions_keyed
        (utcnow_at : nat -> Z) (orderbook_at : nat -> string -> option OrderBook.t)
        (ops : list Op) (w : World) :
  positions_wf (trader w) ->
  let self' := trader (run utcnow_at orderbook_at ops w) in
  positions_wf self' /\
  (forall k p, dict_lookup (positions self') k = Some p -> Position.id p = k) /\
  (forall k, dict_lookup (dict_del (positions self') k) k = None).
Proof.
  intros WF self'.
  assert (WF' : positions_wf self') by (apply run_keeps_wf; exact WF).
  split; [exact WF' | ]. destruct WF' as [ND F]. split.
  - intros k p L. apply (dict_lookup_forall _ _ _ _ F L).
  - intros k. apply dict_lookup_del_same; exact ND.
Qed.

Lemma ledger_keeps_positions_keyed_witness :
  positions_wf
    (trader (run clock feed_bid_60
                 [PlaceOrder (opp_at (4 # 10) None (Some (5 # 10))) (4 # 100) None None;
                  UpdatePositions; GetStatistics]
                 world_100)).
Proof.
  apply (ledger_keeps_positions_keyed clock feed_bid_60
           [PlaceOrder (opp_at (4 # 10) None (Some (5 # 10))) (4 # 100) None None;
            UpdatePositions; GetStatistics] world_100).
  split; constructor.
Defined.

(** * Coordinator: strategy selection, admission control, intake *)

Import Coordinator.

(** X22: a strategy type matches an opportunity type exactly when the two
    carry the same name (the substring test never matches two different
    names), so arbitrage, probability-edge, time-decay, liquidity and
    social-sentiment opportunities can be matched, and news-gap,
    trader-signal and breaking-news opportunities never are. *)
Theorem strategy_type_match_is_name_equality
        (st : StrategyType.t) (ot : OpportunityType.t) :
  (contains (StrategyType.value st) (OpportunityType_value ot) = true
   <-> StrategyType.value st = OpportunityType_value ot) /\
  (ot = OpportunityType.NEWS_GAP \/ ot = OpportunityType.TRADER_SIGNAL \/
   ot = OpportunityType.BREAKING_NEWS ->
   contains (StrategyType.value st) (OpportunityType_value ot) = false).
Proof.
  split.
  - destruct st, ot; vm_compute; split; intros H; first [reflexivity | discriminate H].
  - intros [H | [H | H]]; subst ot; destruct st; reflexivity.
Qed.

Lemma win_rate_order_trans :
  forall x y z : Strategy,
    may_precede win_rate_gt x y -> may_precede win_rate_gt y z ->
    may_precede win_rate_gt x z.
Proof.
  unfold may_precede, win_rate_gt, Decimal.gtb. intros x y z.
  rewrite !ltb_false_iff. intros; lra.
Qed.

Lemma win_rate_gt_asym (x y : Strategy) :
  win_rate_gt x y = true -> win_rate_gt y x = false.
Proof.
  unfold win_rate_gt, Decimal.gtb. rewrite ltb_true_iff, ltb_false_iff. apply Qlt_le_weak.
Qed.

Lemma select_strategy_of_candidates (self : Coordinator.t) (opportunity : Opportunity.t) :
  _select_strategy self opportunity
  = hd_error (stable_sort win_rate_gt (candidates self opportunity)).
Proof.
  unfold _select_strategy, candidates.
  destruct (filter _ _) as [|s r].
  - destruct (dict_values (strategies self)); reflexivity.
  - reflexivity.
Qed.

(** X23: [_select_strategy] returns none exactly when no strategy is
    held.  Otherwise it returns a held strategy with the highest win rate
    (0 when it has no test results or no "win_rate") among the candidates:
    the strategies whose type matches the opportunity's if there is one,
    all strategies if there is none; so whenever some held strategy
    matches, the one returned matches. *)
Theorem select_strategy_picks_best (self : Coordinator.t) (opportunity : Opportunity.t) :
  (_select_strategy self opportunity = None <-> strategies self = []) /\
  (forall s, _select_strategy self opportunity = Some s ->
     In s (dict_values (strategies self)) /\
     In s (candidates self opportunity) /\
     Forall (fun c => win_rate c <= win_rate s) (candidates self opportunity) /\
     ((exists c, In c (dict_values (strategies self)) /\
                 type_matches opportunity c = true) ->
      type_matches opportunity s = true)).
Proof.
  rewrite select_strategy_of_candidates.
  pose proof (stable_sort_perm win_rate_gt (candidates self opportunity)) as P.
  pose proof (stable_sort_sorted win_rate_gt win_rate_gt_asym
                (candidates self opportunity)) as S.
  assert (Cand : forall c, In c (candidates self opportunity) ->
                           In c (dict_values (strategies self)) /\
                           ((exists c', In c' (dict_values (strategies self)) /\
                                        type_matches opportunity c' = true) ->
                            type_matches opportunity c = true)).
  { unfold candidates. intros c Hc.
    destruct (filter (type_matches opportunity) (dict_values (strategies self)))
      as [|s0 r0] eqn:F.
    - split; [exact Hc | ]. intros [c' [Hin Hm]].
      assert (In c' []) by (rewrite <- F; apply filter_In; auto). contradiction.
    - rewrite <- F in Hc. apply filter_In in Hc. destruct Hc as [Hin Hm]. auto. }
  split.
  - split.
    + intros H. destruct (stable_sort win_rate_gt (candidates self opportunity)) as [|s r] eqn:E;
        [ | discriminate].
      apply Permutation_sym, Permutation_nil in P.
      unfold candidates in P. unfold dict_values in *.
      destruct (filter _ _); [ | discriminate].
      destruct (strategies self); [reflexivity | discriminate].
    + intros H. unfold candidates. rewrite H. reflexivity.
  - intros s Hs.
    destruct (stable_sort win_rate_gt (candidates self opportunity)) as [|s0 r] eqn:E;
      [discriminate | ].
    simpl in Hs. inversion Hs; subst s0.
    assert (Hin : In s (candidates self opportunity))
      by (apply (Permutation_in _ (Permutation_sym P)); left; reflexivity).
    destruct (Cand s Hin) as [H1 H2].
    split; [exact H1 | split; [exact Hin | split; [ | exact H2]]].
    apply Sorted_StronglySorted in S; [ | exact win_rate_order_trans].
    inversion S as [|? ? _ Hall]; subst.
    apply Forall_forall. intros c Hc.
    apply (Permutation_in _ P) in Hc. destruct Hc as [Hc | Hc].
    + subst c. apply Qle_refl.
    + rewrite Forall_forall in Hall. specialize (Hall c Hc).
      unfold may_precede, win_rate_gt, Decimal.gtb in Hall.
      apply ltb_false_iff in Hall. exact Hall.
Qed.

(** ** Admission control *)

Lemma dict_set_length {V : Type} (d : list (string * V)) (k : string) (v : V) :
  (List.length (dict_set d k v) <= S (List.length d))%nat.
Proof.
  induction d as [|[k0 v0] r IH]; simpl; [lia | ].
  destruct (String.eqb k0 k); simpl; lia.
Qed.

Lemma place_order_positions_length
      (utcnow_at : nat -> Z) (w : World) (opportunity : Opportunity.t)
      (pct : Q) (sid sname : option string) :
  (List.length (positions (trader (snd (place_order utcnow_at opportunity pct sid sname w))))
   <= S (List.length (positions (trader w))))%nat.
Proof.
  unfold place_order, DemoTrader.bind, get_self, DemoTrader.lift.
  destruct (Decimal.div _ _) as [e | size]; simpl; [lia | ].
  destruct (Decimal.gtb _ _); simpl; [lia | ].
  unfold _execute_order, DemoTrader.bind, DemoTrader.utcnow, modify_self, record_fill,
    get_self, DemoTrader.lift, DemoTrader.ret.
  simpl.
  destruct (dict_lookup _ _) as [p | ]; simpl.
  - destruct (Decimal.div _ _) as [e | entry]; simpl; [lia | apply dict_set_length].
  - apply dict_set_length.
Qed.

Lemma opportunity_events_app (l1 l2 : list Event) :
  opportunity_events (l1 ++ l2) = opportunity_events l1 ++ opportunity_events l2.
Proof.
  induction l1 as [|e r IH]; simpl; [reflexivity | ].
  destruct e; simpl; rewrite IH; reflexivity.
Qed.

Section CoordinatorFacts.

Variable settings : Settings.
Variable utcnow_at : nat -> Z.

Lemma consider_trading_frame (opportunity : Opportunity.t) (self : Coordinator.t) :
  let self' := _consider_trading settings utcnow_at opportunity self in
  scanner self' = scanner self /\
  opportunities self' = opportunities self /\
  strategies self' = strategies self /\
  opportunity_events (published self') = opportunity_events (published self) /\
  (open_count self' <= open_count self + 1)%Z /\
  ((max_concurrent_positions settings <= open_count self)%Z -> self' = self).
Proof.
  cbv zeta. unfold _consider_trading, open_count.
  destruct (_ <=? _)%Z eqn:E.
  - repeat split; auto; lia.
  - apply Z.leb_gt in E.
    destruct (_select_strategy self opportunity) as [strategy|];
      [ | repeat split; auto; lia].
    pose proof (place_order_positions_length utcnow_at (demo_trader self) opportunity
                  (AgentOrchestrator._calculate_position_size
                     (max_position_size settings) opportunity (blueprint strategy))
                  (Some (StrategyBlueprint.name (blueprint strategy)))
                  (Some (StrategyBlueprint.name (blueprint strategy)))) as L.
    destruct (place_order _ _ _ _ _ _) as [[e | [order|]] w']; simpl in *;
      repeat split; auto; try lia.
    rewrite opportunity_events_app. simpl. apply app_nil_r.
Qed.

Lemma intake_one_open_count (self : Coordinator.t) (opportunity : Opportunity.t) :
  (open_count (intake_one settings utcnow_at self opportunity)
   <= Z.max (open_count self) (max_concurrent_positions settings))%Z.
Proof.
  unfold intake_one. destruct (existsb _ _); [lia | ].
  destruct (Decimal.geb _ _); [ | unfold open_count; simpl; lia].
  match goal with
  | |- (open_count (_consider_trading _ _ _ ?s) <= _)%Z =>
      destruct (consider_trading_frame opportunity s) as [_ [_ [_ [_ [L U]]]]];
      change (open_count s) with (open_count self) in *
  end.
  destruct (Z_le_gt_dec (max_concurrent_positions settings) (open_count self)) as [G | G].
  - rewrite (U G). unfold open_count at 1. simpl. fold (open_count self). lia.
  - lia.
Qed.

(** X24: admission control.  With the number of open positions at or
    above the configured maximum, [_consider_trading] does nothing at
    all; otherwise it opens at most one more position; so neither it nor
    a whole intake pass ever takes the number of open positions above the
    larger of the configured maximum and the number it started with. *)
Theorem admission_control (opportunity : Opportunity.t) (self : Coordinator.t) :
  ((max_concurrent_positions settings <= open_count self)%Z ->
   _consider_trading settings utcnow_at opportunity self = self) /\
  (open_count (_consider_trading settings utcnow_at opportunity self)
   <= Z.max (open_count self) (max_concurrent_positions settings))%Z /\
  (open_count (intake_pass settings utcnow_at self)
   <= Z.max (open_count self) (max_concurrent_positions settings))%Z.
Proof.
  destruct (consider_trading_frame opportunity self) as [_ [_ [_ [_ [L U]]]]].
  split; [exact U | split].
  - destruct (Z_le_gt_dec (max_concurrent_positions settings) (open_count self)) as [G | G].
    + rewrite (U G). lia.
    + lia.
  - unfold intake_pass.
    destruct (get_opportunities _ _ _ _) as [batch scanner'].
    match goal with
    | |- (open_count (fold_left _ _ ?s) <= _)%Z =>
        change (open_count self) with (open_count s); generalize s
    end.
    induction batch as [|o r IH]; intros s; simpl; [lia | ].
    specialize (IH (intake_one settings utcnow_at s o)).
    pose proof (intake_one_open_count s o). lia.
Qed.

End CoordinatorFacts.

(** ** Intake: deduplication *)

Lemma existsb_id_iff (l : list Opportunity.t) (o : Opportunity.t) :
  existsb (fun o' => String.eqb (Opportunity.id o') (Opportunity.id o)) l = true
  <-> In (Opportunity.id o) (map Opportunity.id l).
Proof.
  rewrite existsb_exists, in_map_iff. split; intros [x [H1 H2]].
  - exists x. apply String.eqb_eq in H2. auto.
  - exists x. split; [exact H2 | apply String.eqb_eq; exact H1].
Qed.

Lemma deque_append_room {A : Type} (d : list A) (x : A) :
  (List.length d < 1000)%nat -> deque_append 1000 d x = d ++ [x].
Proof.
  intros H. unfold deque_append.
  assert (E : Nat.ltb 1000 (List.length (d ++ [x])) = false).
  { apply Nat.ltb_ge. rewrite length_app. simpl. lia. }
  rewrite E. reflexivity.
Qed.

Section IntakeFacts.

Variable settings : Settings.
Variable utcnow_at : nat -> Z.

Lemma intake_one_known (self : Coordinator.t) (o : Opportunity.t) :
  In (Opportunity.id o) (map Opportunity.id (opportunities self)) ->
  intake_one settings utcnow_at self o = self.
Proof.
  intros H. apply existsb_id_iff in H. unfold intake_one. rewrite H. reflexivity.
Qed.

Lemma intake_one_new (self : Coordinator.t) (o : Opportunity.t) :
  ~ In (Opportunity.id o) (map Opportunity.id (opportunities self)) ->
  (List.length (opportunities self) < 1000)%nat ->
  let self' := intake_one settings utcnow_at self o in
  opportunities self' = opportunities self ++ [o] /\
  opportunity_events (published self') = opportunity_events (published self) ++ [o] /\
  scanner self' = scanner self /\ strategies self' = strategies self.
Proof.
  intros H Hlen. cbv zeta. unfold intake_one.
  destruct (existsb _ _) eqn:E; [apply existsb_id_iff in E; contradiction | ].
  destruct (Decimal.geb _ _).
  - match goal with
    | |- context [_consider_trading _ _ _ ?s] =>
        destruct (consider_trading_frame settings utcnow_at o s) as [F1 [F2 [F3 [F4 _]]]]
    end.
    rewrite F1, F2, F3, F4. simpl.
    rewrite deque_append_room by exact Hlen.
    rewrite opportunity_events_app. simpl. auto.
  - simpl. rewrite deque_append_room by exact Hlen.
    rewrite opportunity_events_app. simpl. auto.
Qed.

Lemma intake_fold (batch : list Opportunity.t) :
  forall self,
    (List.length (opportunities self) + List.length batch <= 1000)%nat ->
    let self' := fold_left (intake_one settings utcnow_at) batch self in
    exists new,
      opportunities self' = opportunities self ++ new /\
      opportunity_events (published self')
      = opportunity_events (published self) ++ new /\
      incl new batch /\
      NoDup (map Opportunity.id new) /\
      (forall o, In o new ->
                 ~ In (Opportunity.id o) (map Opportunity.id (opportunities self))) /\
      (forall o, In o batch ->
                 In (Opportunity.id o) (map Opportunity.id (opportunities self'))) /\
      scanner self' = scanner self /\ strategies self' = strategies self.
Proof.
  induction batch as [|o r IH]; intros self Hlen; cbv zeta; simpl.
  - exists []. rewrite !app_nil_r. repeat split; auto.
    + apply incl_refl.
    + constructor.
    + intros o [].
  - simpl in Hlen.
    destruct (in_dec string_dec (Opportunity.id o)
                     (map Opportunity.id (opportunities self))) as [K | K].
    + rewrite (intake_one_known self o K).
      destruct (IH self) as [new [H1 [H2 [H3 [H4 [H5 [H6 [H7 H8]]]]]]]]; [lia | ].
      exists new. repeat split; auto.
      * intros x Hx; right; apply H3; exact Hx.
      * intros x [Hx | Hx]; [ | apply H6; exact Hx].
        subst x. rewrite H1, map_app. apply in_or_app; left; exact K.
    + destruct (intake_one_new self o K) as [N1 [N2 [N3 N4]]]; [lia | ].
      destruct (IH (intake_one settings utcnow_at self o))
        as [new [H1 [H2 [H3 [H4 [H5 [H6 [H7 H8]]]]]]]]; [rewrite N1, length_app; simpl; lia | ].
      exists (o :: new).
      rewrite H1, H2, N1, N2, <- !app_assoc. simpl.
      split; [reflexivity | ]. split; [reflexivity | ].
      split; [ | split; [ | split; [ | split; [ | split]]]].
      * intros x [Hx | Hx]; [left; exact Hx | right; apply H3; exact Hx].
      * constructor; [ | exact H4].
        intros Hin. apply in_map_iff in Hin. destruct Hin as [x [Hid Hx]].
        apply (H5 x Hx). rewrite N1, map_app, Hid. apply in_or_app; right; left; reflexivity.
      * intros x [Hx | Hx]; [subst x; exact K | ].
        intros Hin. apply (H5 x Hx). rewrite N1, map_app. apply in_or_app; left; exact Hin.
      * intros x [Hx | Hx].
        -- subst x. rewrite map_app. apply in_or_app; right; left; reflexivity.
        -- specialize (H6 x Hx). rewrite H1, N1, <- app_assoc in H6. exact H6.
      * rewrite H7; exact N3.
      * rewrite H8; exact N4.
Qed.

Lemma intake_fold_known (batch : list Opportunity.t) (self : Coordinator.t) :
  (forall o, In o batch -> In (Opportunity.id o) (map Opportunity.id (opportunities self))) ->
  fold_left (intake_one settings utcnow_at) batch self = self.
Proof.
  induction batch as [|o r IH]; intros H; simpl; [reflexivity | ].
  rewrite intake_one_known; [ | apply H; left; reflexivity].
  apply IH. intros x Hx. apply H. right; exact Hx.
Qed.

Lemma get_opportunities_state_twice (s : MarketScannerAgent.t) (min_score : option Q)
      (ty : option OpportunityType.t) (limit : Z) :
  snd (get_opportunities (snd (get_opportunities s min_score ty limit)) min_score ty limit)
  = snd (get_opportunities s min_score ty limit).
Proof.
  rewrite !get_opportunities_state.
  destruct (float_truthy min_score), ty; try reflexivity.
  unfold set_opportunities. simpl.
  rewrite (stable_sort_idempotent _ score_gt_asym). reflexivity.
Qed.


End IntakeFacts.


(** * Marking and exit conditions *)


Lemma leb_true_iff (x y : Q) : Decimal.leb x y = true <-> x <= y.
Proof. apply Qle_bool_iff. Qed.

Lemma leb_false_iff (x y : Q) : Decimal.leb x y = false <-> y < x.
Proof.
  unfold Decimal.leb. split; intros H.
  - apply Qnot_le_lt. intro L. apply Qle_bool_iff in L. congruence.
  - destruct (Qle_bool x y) eqn:E; [ | reflexivity].
    apply Qle_bool_iff in E. lra.
Qed.

Ltac exit_cases :=
  repeat match goal with
         | |- context [Decimal.truthy ?x] =>
             let T := fresh "T" in
             destruct (Decimal.truthy x) eqn:T;
             [apply truthy_true_iff in T | apply truthy_false_iff in T]
         | |- context [Decimal.leb ?x ?y] =>
             let L := fresh "L" in
             destruct (Decimal.leb x y) eqn:L;
             [apply leb_true_iff in L | apply leb_false_iff in L]
         end.

Lemma exit_decision_fires (p : Position.t) (current_price : Q) :
  crossed_stop p current_price \/ crossed_target p current_price ->
  fst (exit_decision p current_price) = true.
Proof.
  unfold exit_decision, crossed_stop, crossed_target, Decimal.geb.
  destruct (Position.stop_loss p) as [sl|], (Position.take_profit p) as [tp|],
           (Position.side p);
    exit_cases; simpl; intros;
    repeat match goal with
           | H : _ \/ _ |- _ => destruct H
           | H : _ /\ _ |- _ => destruct H
           end;
    try reflexivity; try contradiction; try lra.
Qed.

(** X27: the exit decision closes exactly when the stop-loss or the
    take-profit is crossed (at or below the stop, at or above the target
    for LONG; mirrored for SHORT; an absent or zero level never
    triggers).  The reason is "take_profit" whenever the target is
    crossed, also when the stop is crossed too, and "stop_loss" when only
    the stop is. *)
Theorem exit_decision_contract (p : Position.t) (current_price : Q) :
  let d := exit_decision p current_price in
  (fst d = true <-> crossed_stop p current_price \/ crossed_target p current_price) /\
  (crossed_target p current_price -> snd d = "take_profit"%string) /\
  (crossed_stop p current_price -> ~ crossed_target p current_price ->
   snd d = "stop_loss"%string).
Proof.
  cbv zeta. unfold exit_decision, crossed_stop, crossed_target, Decimal.geb.
  destruct (Position.stop_loss p) as [sl|], (Position.take_profit p) as [tp|],
           (Position.side p);
    exit_cases; simpl; repeat split; intros;
    repeat match goal with
           | H : _ \/ _ |- _ => destruct H
           | H : _ /\ _ |- _ => destruct H
           end;
    try reflexivity; try discriminate; try contradiction; try lra; try tauto.
Qed.

Lemma dict_del_set {V : Type} (d : list (string * V)) (k : string) (v : V) :
  dict_del (dict_set d k v) k = dict_del d k.
Proof.
  induction d as [|[k0 v0] r IH]; simpl.
  - rewrite String.eqb_refl. reflexivity.
  - destruct (String.eqb k0 k) eqn:E; simpl; rewrite E; [reflexivity | ].
    rewrite IH. reflexivity.
Qed.

Section RefreshClose.

Variable utcnow_at : nat -> Z.
Variable orderbook_at : nat -> string -> option OrderBook.t.


End RefreshClose.


(** * Spread percentage *)


